(** * Fenyr multi-agent trading pipeline: a shallow embedding

    The development follows the Python sources of the repository:

    - [agents/base.py]            [Signal], [Action], [AgentDecision], [to_ai_log]
    - [agents/market_analyst.py]  the response parsing and the inline indicators
    - [agents/sentiment.py]       the response parsing
    - [agents/risk_manager.py]    the response parsing and the size limit
    - [agents/coordinator.py]     [calculate_consensus], [run_team_analysis]
    - [agents/executor.py]        [execute_trade], [analyze]
    - [ai_trader.py]              [TechnicalAnalysis], [FenyrAgent._add_message],
                                  [FenyrAgent._execute_trade]
    - [weex_client.py]            the request bodies of [place_order] and
                                  [upload_ai_log]
    - [tools.py]                  [ACTION_TO_SIDE]
    - [multi_agent.py]            [run_hft_mode]

    Conventions of the model.

    - A Python [float] is an exact rational ([Q]); binary64 rounding, NaN and
      the infinities are outside the model.  Equalities between computed
      numbers are therefore stated with [==].
    - A Python [str] is a [string] (a byte string); [upper]/[lower] act on
      ASCII letters.
    - A value that comes out of [json.loads] or out of an HTTP response is a
      [pyval]; a [dict] keeps its insertion order and has unique keys.
    - A raised exception is the [Raise] branch of [result]; calls to the
      exchange and to the language model are recorded in a trace.
    - [json.loads], [float(str)], [int(str)], the [.2f] format and [str]
      of a non-string belong to the Python runtime and are taken as a
      parameter ([PyRuntime]); a reference instance is given for closed
      evaluation. *)

From Stdlib Require Import QArith Qround Lqa ZArith Lia List Bool Ascii String.
From Stdlib Require Import DecimalString.
From stdpp Require Import base option strings gmap.
Import ListNotations.
Open Scope string_scope.

(** ** Python values, exceptions *)

#[warnings="-register-all"]
Inductive pyval : Type :=
| PNone
| PBool (b : bool)
| PNum (q : Q)
| PStr (s : string)
| PList (l : list pyval)
| PDict (items : list (string * pyval)).

Inductive exn : Type :=
| KeyError (key : string)
| AttributeError
| TypeError
| ValueError
| IndexError
| ExternalError.

Inductive result (A : Type) : Type :=
| Ok (a : A)
| Raise (e : exn).
Arguments Ok {A} a.
Arguments Raise {A} e.

#[global] Instance result_ret : MRet result := fun A a => Ok a.
#[global] Instance result_bind : MBind result := fun A B f m =>
  match m with
  | Ok a => f a
  | Raise e => Raise e
  end.

Definition is_ok {A} (r : result A) : bool :=
  match r with Ok _ => true | Raise _ => false end.

(** The part of the Python runtime the sources call into. *)
Class PyRuntime : Type := {
  (* json.loads; None when it raises *)
  json_loads : string -> option pyval;
  (* float(s) on a str; None when it raises ValueError *)
  float_of_str : string -> option Q;
  (* int(s) on a str; None when it raises ValueError *)
  int_of_str : string -> option Z;
  (* format(x, ".2f") *)
  format_2f : Q -> string;
  (* str(v) for a float, dict, list, bool or None *)
  py_repr : pyval -> string
}.

(** ** Strings *)

Definition Qltb (x y : Q) : bool := negb (Qle_bool y x).

Definition upper_ascii (c : ascii) : ascii :=
  let n := nat_of_ascii c in
  if (97 <=? n)%nat && (n <=? 122)%nat then ascii_of_nat (n - 32) else c.

Definition lower_ascii (c : ascii) : ascii :=
  let n := nat_of_ascii c in
  if (65 <=? n)%nat && (n <=? 90)%nat then ascii_of_nat (n + 32) else c.

Fixpoint str_map (f : ascii -> ascii) (s : string) : string :=
  match s with
  | EmptyString => EmptyString
  | String c s' => String (f c) (str_map f s')
  end.

Definition str_upper : string -> string := str_map upper_ascii.
Definition str_lower : string -> string := str_map lower_ascii.

(* s.find(c): index of the first occurrence, -1 when there is none *)
Fixpoint find_from (c : ascii) (s : string) (i : Z) : Z :=
  match s with
  | EmptyString => (-1)%Z
  | String a s' => if Ascii.eqb a c then i else find_from c s' (i + 1)%Z
  end.
Definition py_find (s : string) (c : ascii) : Z := find_from c s 0.

(* s.rfind(c): index of the last occurrence, -1 when there is none *)
Fixpoint rfind_from (c : ascii) (s : string) (i : Z) : Z :=
  match s with
  | EmptyString => (-1)%Z
  | String a s' =>
      let r := rfind_from c s' (i + 1)%Z in
      if (0 <=? r)%Z then r else if Ascii.eqb a c then i else (-1)%Z
  end.
Definition py_rfind (s : string) (c : ascii) : Z := rfind_from c s 0.

(* s[lo:hi] for 0 <= lo *)
Definition py_slice (s : string) (lo hi : Z) : string :=
  substring (Z.to_nat lo) (Z.to_nat (hi - lo)) s.

(* s[:n] *)
Fixpoint str_take (n : nat) (s : string) : string :=
  match n, s with
  | S n', String c s' => String c (str_take n' s')
  | _, _ => EmptyString
  end.

(** ** Dictionaries inside [pyval] *)

Fixpoint assoc_get {A} (k : string) (items : list (string * A)) : option A :=
  match items with
  | [] => None
  | (k', v) :: rest => if String.eqb k k' then Some v else assoc_get k rest
  end.

(* d[k] = v: replaces in place, or appends a new key *)
Fixpoint assoc_set {A} (k : string) (v : A) (items : list (string * A))
  : list (string * A) :=
  match items with
  | [] => [(k, v)]
  | (k', v') :: rest =>
      if String.eqb k k' then (k, v) :: rest else (k', v') :: assoc_set k v rest
  end.

(* {**a, **b} *)
Definition assoc_update {A} (a b : list (string * A)) : list (string * A) :=
  fold_left (fun acc kv => assoc_set (fst kv) (snd kv) acc) b a.

(* d.get(k, default); only a dict has .get *)
Definition py_get (d : pyval) (k : string) (default : pyval) : result pyval :=
  match d with
  | PDict items =>
      Ok (match assoc_get k items with Some v => v | None => default end)
  | _ => Raise AttributeError
  end.

(* x.upper() / x.lower(); only a str has them *)
Definition py_upper (x : pyval) : result string :=
  match x with PStr s => Ok (str_upper s) | _ => Raise AttributeError end.

(* float(x) *)
Definition py_float `{PyRuntime} (x : pyval) : result Q :=
  match x with
  | PNum q => Ok q
  | PBool b => Ok (if b then 1 else 0)%Q
  | PStr s =>
      match float_of_str s with Some q => Ok q | None => Raise ValueError end
  | PNone | PList _ | PDict _ => Raise TypeError
  end.

(* bool(x) *)
Definition py_truthy (x : pyval) : bool :=
  match x with
  | PNone => false
  | PBool b => b
  | PNum q => negb (Qeq_bool q 0)
  | PStr s => negb (String.eqb s "")
  | PList l => match l with [] => false | _ => true end
  | PDict d => match d with [] => false | _ => true end
  end.

(* int(x) *)
Definition py_int `{PyRuntime} (x : pyval) : result Z :=
  match x with
  | PNum q => Ok (Qnum q ÷ Z.pos (Qden q))%Z
  | PBool b => Ok (if b then 1 else 0)%Z
  | PStr s =>
      match int_of_str s with Some z => Ok z | None => Raise ValueError end
  | PNone | PList _ | PDict _ => Raise TypeError
  end.

(* x[:1000]; a str or a list can be sliced *)
Definition py_slice_1000 (x : pyval) : result pyval :=
  match x with
  | PStr s => Ok (PStr (str_take 1000 s))
  | PList l => Ok (PList (firstn 1000 l))
  | PNone | PBool _ | PNum _ | PDict _ => Raise TypeError
  end.

(* min(a, b): b when b < a, otherwise a *)
Definition py_min (a b : Q) : Q := if Qltb b a then b else a.

(** ** agents/base.py *)

Inductive Signal : Type :=
| BUY | SELL | HOLD | NEUTRAL | BULLISH | BEARISH | APPROVE | REJECT | REDUCE.

Inductive Action : Type := EXECUTE | HOLD_ACTION | ALERT.

#[global] Instance Signal_eq_dec : EqDecision Signal.
Proof. solve_decision. Defined.
#[global] Instance Action_eq_dec : EqDecision Action.
Proof. solve_decision. Defined.

Definition signal_value (s : Signal) : string :=
  match s with
  | BUY => "buy" | SELL => "sell" | HOLD => "hold" | NEUTRAL => "neutral"
  | BULLISH => "bullish" | BEARISH => "bearish" | APPROVE => "approve"
  | REJECT => "reject" | REDUCE => "reduce"
  end.

Definition action_value (a : Action) : string :=
  match a with
  | EXECUTE => "execute" | HOLD_ACTION => "hold" | ALERT => "alert"
  end.

(* The timestamp field is filled from the wall clock and read nowhere. *)
Record AgentDecision : Type := {
  agent_name : string;
  stage : string;
  signal : Signal;
  confidence : Q;
  reasoning : pyval;
  data : pyval
}.

(* AgentDecision.to_ai_log *)
Definition to_ai_log (d : AgentDecision) : result pyval :=
  input ← py_get (data d) "input" (PDict []);
  output ← py_get (data d) "output" (PDict []);
  match output with
  | PDict extra =>
      explanation ← py_slice_1000 (reasoning d);
      Ok (PDict [("stage", PStr (stage d));
                 ("model", PStr "GPT-5.2");
                 ("input", input);
                 ("output", PDict (assoc_update
                    [("signal", PStr (signal_value (signal d)));
                     ("confidence", PNum (confidence d));
                     ("agent", PStr (agent_name d))] extra));
                 ("explanation", explanation)])
  | _ => Raise TypeError
  end.

(** ** The outside world

    Every call to the exchange client or to the language model is recorded.
    What the collaborators answer is given by a [World]. *)

Inductive call : Type :=
| GetTicker
| GetCandles
| GetDepth
| GetFundingRate
| GetAssets
| GetPositions
| ChatCompletion (agent : string)
| PlaceOrder (symbol size : pyval) (side order_type : Z) (client_oid_ms : Z)
| UploadAiLog (body : pyval).

Definition is_place_order (c : call) : bool :=
  match c with PlaceOrder _ _ _ _ _ => true | _ => false end.

(* Outcome of the first half of a stage's [analyze]: the data fetches, the
   assembly of the prompt context and the chat completion.  That half only
   feeds the language model; what it yields to the rest of [analyze] is the
   assembled context, one stage-specific datum for the decision's output
   and the raw completion text.  It may raise after some of its calls. *)
Inductive gathered : Type :=
| Gathered (context aux : pyval) (response : string)
| GatherFailed (calls_done : nat) (e : exn).

Record World : Type := {
  (* first half of [analyze], per agent name and input context *)
  gather : string -> list (string * pyval) -> gathered;
  (* weex.get_ticker as called by the executor *)
  ticker_response : result pyval;
  (* weex.place_order *)
  place_order_response : result pyval;
  (* weex.upload_ai_log, per uploading agent *)
  upload_response : string -> result pyval;
  (* int(time.time() * 1000) *)
  clock_ms : Z
}.

(** Computations that call collaborators: a trace and a result. *)
Definition M (A : Type) : Type := (list call * result A)%type.

#[global] Instance M_ret : MRet M := fun A a => ([], Ok a).
#[global] Instance M_bind : MBind M := fun A B f m =>
  match m with
  | (t, Ok a) => let '(t', r) := f a in ((t ++ t')%list, r)
  | (t, Raise e) => (t, Raise e)
  end.

Definition lift {A} (r : result A) : M A := ([], r).
Definition emit {A} (c : call) (r : result A) : M A := ([c], r).

Definition trace {A} (m : M A) : list call := fst m.
Definition outcome {A} (m : M A) : result A := snd m.

Definition run_gather (w : World) (agent : string) (calls : list call)
  (context : list (string * pyval)) : M (pyval * pyval * string) :=
  match gather w agent context with
  | Gathered ctx aux response => (calls, Ok (ctx, aux, response))
  | GatherFailed n e => (firstn n calls, Raise e)
  end.

(* BaseAgent.upload_ai_log, through WeexClient.upload_ai_log *)
Definition upload_ai_log (w : World) (uploader : string)
  (decision : AgentDecision) (order_id : option Z) : M pyval :=
  ai_log ← lift (to_ai_log decision);
  stage_v ← lift (py_get ai_log "stage" PNone);
  model_v ← lift (py_get ai_log "model" PNone);
  input_v ← lift (py_get ai_log "input" PNone);
  output_v ← lift (py_get ai_log "output" PNone);
  explanation_v ← lift (py_get ai_log "explanation" PNone);
  explanation ← lift (py_slice_1000 explanation_v);
  let body := [("stage", stage_v); ("model", model_v); ("input", input_v);
               ("output", output_v); ("explanation", explanation)] in
  let body :=
    match order_id with
    | Some oid => if (oid =? 0)%Z then body
                  else assoc_set "orderId" (PNum (inject_Z oid)) body
    | None => body
    end in
  emit (UploadAiLog (PDict body)) (upload_response w uploader).

(** ** The response parsing shared by the three analysis stages

    Each [analyze] carries its own copy of this block:
<<
    try:
        start = response.find("{")
        end = response.rfind("}") + 1
        if start >= 0 and end > start:
            result = json.loads(response[start:end])
        else:
            result = DEFAULT
    except:
        result = DEFAULT
>> *)
Section Parsing.
Context `{PyRuntime}.

Definition parse_response (default : pyval) (response : string) : pyval :=
  let start := py_find response "{" in
  let end_ := (py_rfind response "}" + 1)%Z in
  if (0 <=? start)%Z && (start <? end_)%Z then
    match json_loads (py_slice response start end_) with
    | Some parsed => parsed
    | None => default
    end
  else default.

(* whether the block above ends in one of its two fallback branches *)
Definition parse_fails (response : string) : bool :=
  let start := py_find response "{" in
  let end_ := (py_rfind response "}" + 1)%Z in
  if (0 <=? start)%Z && (start <? end_)%Z then
    match json_loads (py_slice response start end_) with
    | Some _ => false
    | None => true
    end
  else true.
End Parsing.

(** ** Numeric helpers (numpy and builtins) *)

(* round(x) to the nearest integer, ties to the even one *)
Definition round_half_even (x : Q) : Z :=
  let n := Qfloor x in
  match (x - inject_Z n ?= 1 # 2)%Q with
  | Lt => n
  | Gt => (n + 1)%Z
  | Eq => if Z.even n then n else (n + 1)%Z
  end.

(* round(x, 2) *)
Definition py_round2 (x : Q) : Q :=
  (inject_Z (round_half_even (x * 100)) / 100)%Q.

(* np.diff *)
Fixpoint np_diff (l : list Q) : list Q :=
  match l with
  | a :: (b :: _) as rest => (b - a)%Q :: np_diff rest
  | _ => []
  end.

(* np.where(deltas > 0, deltas, 0) and np.where(deltas < 0, -deltas, 0) *)
Definition np_gains (deltas : list Q) : list Q :=
  map (fun d => if Qltb 0 d then d else 0%Q) deltas.
Definition np_losses (deltas : list Q) : list Q :=
  map (fun d => if Qltb d 0 then (- d)%Q else 0%Q) deltas.

(* a[-n:]; a[-0:] is the whole sequence *)
Definition last_n {A} (n : nat) (l : list A) : list A :=
  match n with
  | O => l
  | _ => skipn (length l - n) l
  end.

Definition Qsum (l : list Q) : Q := fold_right Qplus 0%Q l.

(* np.mean *)
Definition np_mean (l : list Q) : Q :=
  (Qsum l / inject_Z (Z.of_nat (length l)))%Q.

(* the loop  for price in data[1:]: ema = (price - ema) * multiplier + ema *)
Definition ema_loop (multiplier : Q) (ema : Q) (rest : list Q) : Q :=
  fold_left (fun ema price => ((price - ema) * multiplier + ema)%Q) rest ema.

(** ** ai_trader.py: TechnicalAnalysis *)
Module TechnicalAnalysis.
Local Open Scope Q_scope.

Definition calculate_rsi (prices : list Q) (period : nat) : Q :=
  if (length prices <? period + 1)%nat then 50
  else
    let deltas := np_diff prices in
    let gains := np_gains deltas in
    let losses := np_losses deltas in
    let avg_gain := np_mean (last_n period gains) in
    let avg_loss := np_mean (last_n period losses) in
    if Qeq_bool avg_loss 0 then 100
    else
      let rs := avg_gain / avg_loss in
      let rsi := 100 - 100 / (1 + rs) in
      py_round2 rsi.

Definition calculate_ema (prices : list Q) (period : nat) : result Q :=
  if (length prices <? period)%nat then
    Ok (List.last prices 0)
  else
    let multiplier := 2 / inject_Z (Z.of_nat period + 1) in
    match prices with
    | [] => Raise IndexError
    | first :: rest => Ok (py_round2 (ema_loop multiplier first rest))
    end.

Record Macd : Type := { macd : Q; signal : Q; histogram : Q }.

Definition calculate_macd (prices : list Q) : result Macd :=
  ema_12 ← calculate_ema prices 12;
  ema_26 ← calculate_ema prices 26;
  let macd_line := ema_12 - ema_26 in
  signal_line ←
    (if (9 <=? length prices)%nat then calculate_ema (last_n 9 prices) 9
     else Ok macd_line);
  Ok {| macd := py_round2 macd_line;
        signal := py_round2 signal_line;
        histogram := py_round2 (macd_line - signal_line) |}.

End TechnicalAnalysis.

(** ** agents/market_analyst.py *)
Module MarketAnalystAgent.
Section Agent.
Context `{PyRuntime}.

Local Open Scope Q_scope.

Definition name : string := "MarketAnalyst".
Definition stage_label : string := "Technical Analysis".

Definition signal_map : gmap string Signal :=
  <["BUY" := BUY]> (<["SELL" := SELL]>
    (<["NEUTRAL" := NEUTRAL]> (<["HOLD" := HOLD]> ∅))).

(* the RSI block of calculate_indicators *)
Definition rsi_of_closes (closes : list Q) : Q :=
  let deltas := np_diff closes in
  let gains := np_gains deltas in
  let losses := np_losses deltas in
  let avg_gain :=
    if (14 <=? length gains)%nat then np_mean (last_n 14 gains) else 0 in
  let avg_loss :=
    if (14 <=? length losses)%nat then np_mean (last_n 14 losses) else 1 in
  let rs := if Qltb 0 avg_loss then avg_gain / avg_loss else 100 in
  100 - 100 / (1 + rs).

(* the local function ema(data, period) *)
Definition ema (data : list Q) (period : nat) : result Q :=
  let multiplier := 2 / inject_Z (Z.of_nat period + 1) in
  match data with
  | [] => Raise IndexError
  | first :: rest => Ok (ema_loop multiplier first rest)
  end.

(* the MACD block of calculate_indicators *)
Definition macd_of_closes (closes : list Q) : result Q :=
  ema_12 ← ema closes 12;
  ema_26 ← (if (26 <=? length closes)%nat then ema closes 26 else Ok ema_12);
  Ok (ema_12 - ema_26).

(* [float(c[4]) for c in candles if isinstance(c, list) and len(c) > 4] *)
Fixpoint closes_of (candles : list pyval) : result (list Q) :=
  match candles with
  | [] => Ok []
  | PList c :: rest =>
      if (4 <? length c)%nat then
        close ← py_float (nth 4 c PNone);
        closes ← closes_of rest;
        Ok (close :: closes)
      else closes_of rest
  | _ :: rest => closes_of rest
  end.

Definition calculate_indicators (candles : list pyval)
  : result (list (string * pyval)) :=
  if (length candles <? 20)%nat then Ok []
  else
    closes ← closes_of candles;
    let rsi := rsi_of_closes closes in
    ema_20 ← ema closes 20;
    ema_50 ← (if (50 <=? length closes)%nat then ema closes 50 else Ok ema_20);
    macd ← macd_of_closes closes;
    let current_price := List.last closes 0 in
    Ok [("rsi_14", PNum (py_round2 rsi));
        ("ema_20", PNum (py_round2 ema_20));
        ("ema_50", PNum (py_round2 ema_50));
        ("macd", PNum (py_round2 macd));
        ("current_price", PNum current_price);
        ("price_above_ema20", PBool (Qltb ema_20 current_price));
        ("price_above_ema50", PBool (Qltb ema_50 current_price));
        ("ema_bullish_cross", PBool (Qltb ema_50 ema_20))].

Definition fallback (response : string) : pyval :=
  PDict [("signal", PStr "NEUTRAL"); ("confidence", PNum 0.5);
         ("reasoning", PStr response)].

(* [analyze] from "# Parse response" to its return *)
Definition extract (analysis_context indicators : pyval) (response : string)
  : result AgentDecision :=
  let parsed := parse_response (fallback response) response in
  raw_signal ← py_get parsed "signal" (PStr "NEUTRAL");
  upper ← py_upper raw_signal;
  let signal := default NEUTRAL (signal_map !! upper) in
  raw_confidence ← py_get parsed "confidence" (PNum 0.5);
  confidence ← py_float raw_confidence;
  reasoning ← py_get parsed "reasoning" (PStr "");
  Ok {| agent_name := name;
        stage := stage_label;
        signal := signal;
        confidence := confidence;
        reasoning := reasoning;
        data := PDict [("input", analysis_context);
                       ("output", PDict [("indicators", indicators)])] |}.

Definition analyze (w : World) (context : list (string * pyval))
  : M AgentDecision :=
  '(ctx, indicators, response) ←
    run_gather w name
      [GetTicker; GetCandles; GetDepth; ChatCompletion name] context;
  lift (extract ctx indicators response).
End Agent.
End MarketAnalystAgent.

(** ** agents/sentiment.py *)
Module SentimentAgent.
Section Agent.
Context `{PyRuntime}.

Definition name : string := "SentimentAgent".
Definition stage_label : string := "Sentiment Analysis".

Definition signal_map : gmap string Signal :=
  <["BULLISH" := BULLISH]> (<["BEARISH" := BEARISH]>
    (<["NEUTRAL" := NEUTRAL]> ∅)).

Definition fallback (response : string) : pyval :=
  PDict [("signal", PStr "NEUTRAL"); ("confidence", PNum 0.5);
         ("reasoning", PStr response)].

Definition extract (sentiment_context funding_rate : pyval)
  (response : string) : result AgentDecision :=
  let parsed := parse_response (fallback response) response in
  raw_signal ← py_get parsed "signal" (PStr "NEUTRAL");
  upper ← py_upper raw_signal;
  let signal := default NEUTRAL (signal_map !! upper) in
  raw_confidence ← py_get parsed "confidence" (PNum 0.5);
  confidence ← py_float raw_confidence;
  reasoning ← py_get parsed "reasoning" (PStr "");
  sentiment ← py_get parsed "signal" PNone;
  Ok {| agent_name := name;
        stage := stage_label;
        signal := signal;
        confidence := confidence;
        reasoning := reasoning;
        data := PDict [("input", sentiment_context);
                       ("output", PDict [("funding_rate", funding_rate);
                                         ("sentiment", sentiment)])] |}.

(* WeexClient has no get_open_interest: the lookup fails inside the
   try block before any request is made. *)
Definition analyze (w : World) (context : list (string * pyval))
  : M AgentDecision :=
  '(ctx, funding_rate, response) ←
    run_gather w name
      [GetTicker; GetFundingRate; ChatCompletion name] context;
  lift (extract ctx funding_rate response).
End Agent.
End SentimentAgent.

(** ** agents/risk_manager.py *)
Module RiskManagerAgent.
Section Agent.
Context `{PyRuntime}.
Variable max_position_size : Q.

Definition name : string := "RiskManager".
Definition stage_label : string := "Risk Assessment".

Definition signal_map : gmap string Signal :=
  <["APPROVE" := APPROVE]> (<["REDUCE" := REDUCE]>
    (<["REJECT" := REJECT]> ∅)).

Definition fallback (response : string) : pyval :=
  PDict [("signal", PStr "APPROVE"); ("confidence", PNum 0.7);
         ("recommended_size", PNum max_position_size);
         ("reasoning", PStr response)].

Definition extract (risk_context : pyval) (response : string)
  : result AgentDecision :=
  let parsed := parse_response (fallback response) response in
  raw_signal ← py_get parsed "signal" (PStr "APPROVE");
  upper ← py_upper raw_signal;
  let signal := default APPROVE (signal_map !! upper) in
  raw_size ← py_get parsed "recommended_size" (PNum max_position_size);
  size ← py_float raw_size;
  let recommended_size := py_min size max_position_size in
  raw_confidence ← py_get parsed "confidence" (PNum 0.7);
  confidence ← py_float raw_confidence;
  reasoning ← py_get parsed "reasoning" (PStr "");
  risk_status ← py_get parsed "signal" PNone;
  Ok {| agent_name := name;
        stage := stage_label;
        signal := signal;
        confidence := confidence;
        reasoning := reasoning;
        data := PDict [("input", risk_context);
                       ("output",
                        PDict [("recommended_size", PNum recommended_size);
                               ("risk_status", risk_status)])] |}.

Definition analyze (w : World) (context : list (string * pyval))
  : M AgentDecision :=
  '(ctx, _, response) ←
    run_gather w name
      [GetAssets; GetPositions; GetTicker; ChatCompletion name] context;
  lift (extract ctx response).
End Agent.
End RiskManagerAgent.

(** ** Helpers for contexts and f-strings *)

(* context.get(k, default) on a Dict[str, Any] *)
Definition ctx_get (context : list (string * pyval)) (k : string)
  (default : pyval) : pyval :=
  match assoc_get k context with Some v => v | None => default end.

Definition py_lower (x : pyval) : result string :=
  match x with PStr s => Ok (str_lower s) | _ => Raise AttributeError end.

(* x == "literal" *)
Definition py_eq_str (x : pyval) (s : string) : bool :=
  match x with PStr t => String.eqb t s | _ => false end.

(* d[k] on a dict *)
Definition py_getitem (d : pyval) (k : string) : result pyval :=
  match d with
  | PDict items =>
      match assoc_get k items with
      | Some v => Ok v
      | None => Raise (KeyError k)
      end
  | _ => Raise TypeError
  end.

(* x is None *)
Definition py_is_none (x : pyval) : bool :=
  match x with PNone => true | _ => false end.

(* {x} inside an f-string, and str(x) *)
Definition py_str `{PyRuntime} (x : pyval) : string :=
  match x with PStr s => s | _ => py_repr x end.

(** ** agents/executor.py *)
Module ExecutorAgent.
Section Agent.
Context `{PyRuntime}.

Definition name : string := "Executor".
Definition stage_label : string := "Order Execution".

(* 1=open_long, 2=close_short, 3=open_short, 4=close_long *)
Definition side_map : gmap string Z := <["buy" := 1%Z]> (<["sell" := 3%Z]> ∅).

Definition execute_trade (w : World) (symbol action size reasoning : pyval)
  : M pyval :=
  lowered ← lift (py_lower action);
  let side := default 1%Z (side_map !! lowered) in
  ticker ← emit GetTicker (ticker_response w);
  last_price ← lift (py_get ticker "last" (PNum 0));
  current_price ← lift (py_float last_price);
  order_result ←
    emit (PlaceOrder symbol size side 1 (clock_ms w)) (place_order_response w);
  order_id ← lift (py_get order_result "order_id" PNone);
  mret (PDict [("success", PBool (negb (py_is_none order_id)));
               ("order_id", order_id);
               ("symbol", symbol);
               ("action", action);
               ("size", size);
               ("fill_price", PNum current_price);
               ("reasoning", reasoning)]).

Definition analyze (w : World) (context : list (string * pyval))
  : M AgentDecision :=
  let action := ctx_get context "action" (PStr "hold") in
  let symbol := ctx_get context "symbol" (PStr "cmt_btcusdt") in
  let size := ctx_get context "size" (PStr "0.0002") in
  let reasoning := ctx_get context "reasoning" (PStr "") in
  lowered ← lift (py_lower action);
  if bool_decide (lowered ∈ ["execute"; "buy"; "sell"]) then
    let trade_action := ctx_get context "trade_direction" (PStr "buy") in
    result ← execute_trade w symbol trade_action size reasoning;
    let signal := if py_eq_str trade_action "buy" then BUY else SELL in
    success ← lift (py_getitem result "success");
    mret {| agent_name := name;
            stage := stage_label;
            signal := signal;
            confidence := if py_truthy success then 1 else 0;
            reasoning := PStr ("Executed " +:+ py_str trade_action
                               +:+ " order: " +:+ py_str result);
            data := PDict [("input", PDict context); ("output", result)] |}
  else
    mret {| agent_name := name;
            stage := stage_label;
            signal := HOLD;
            confidence := 1;
            reasoning := PStr ("No execution required. Action: "
                               +:+ py_str action);
            data := PDict [("input", PDict context);
                           ("output",
                            PDict [("action", PStr "hold");
                                   ("reason", PStr "No trade signal")])] |}.
End Agent.
End ExecutorAgent.

(** ** agents/coordinator.py *)
Module CoordinatorAgent.

Record Votes : Type := { buy : Q; sell : Q; hold : Q }.

(* values stored in the dict returned by calculate_consensus *)
Inductive cval : Type :=
| CAction (a : Action)
| CFloat (q : Q)
| CStr (s : string)
| CVotes (v : Votes).

Record TeamDecision : Type := {
  action : Action;
  trade_direction : string;
  size : string;
  team_confidence : Q;
  team_reasoning : string;
  agent_decisions : list AgentDecision
}.

Definition name : string := "Coordinator".
Definition stage_label : string := "Decision Making".

Definition weights : gmap string Q :=
  <["MarketAnalyst" := 0.35%Q]> (<["SentimentAgent" := 0.25%Q]>
    (<["RiskManager" := 0.40%Q]> ∅)).

(* one iteration of  for agent_name, decision in decisions.items() *)
Definition consensus_step (acc : Q * Votes) (item : string * AgentDecision)
  : Q * Votes :=
  let '(total_score, direction_votes) := acc in
  let '(agent_name, decision) := item in
  match weights !! agent_name with
  | None => acc
  | Some weight =>
      let score := (confidence decision * weight)%Q in
      if bool_decide (signal decision ∈ [BUY; BULLISH; APPROVE]) then
        ((total_score + score)%Q,
         {| buy := (buy direction_votes + weight)%Q;
            sell := sell direction_votes;
            hold := hold direction_votes |})
      else if bool_decide (signal decision ∈ [SELL; BEARISH]) then
        ((total_score + score)%Q,
         {| buy := buy direction_votes;
            sell := (sell direction_votes + weight)%Q;
            hold := hold direction_votes |})
      else
        (total_score,
         {| buy := buy direction_votes;
            sell := sell direction_votes;
            hold := (hold direction_votes + weight)%Q |})
  end.

Definition risk_veto (decisions : list (string * AgentDecision)) : bool :=
  match assoc_get "RiskManager" decisions with
  | Some risk_decision => bool_decide (signal risk_decision = REJECT)
  | None => false
  end.

Definition calculate_consensus (decisions : list (string * AgentDecision))
  : gmap string cval :=
  if risk_veto decisions then
    <["action" := CAction HOLD_ACTION]>
      (<["confidence" := CFloat 0]>
        (<["reason" := CStr "Risk Manager veto - trade rejected"]> ∅))
  else
    let '(total_score, direction_votes) :=
      fold_left consensus_step decisions
        (0%Q, {| buy := 0; sell := 0; hold := 0 |}) in
    let action :=
      if Qle_bool 0.65 total_score then EXECUTE
      else if Qle_bool 0.45 total_score then ALERT
      else HOLD_ACTION in
    let direction :=
      if Qltb (sell direction_votes) (buy direction_votes) then "buy"
      else if Qltb (buy direction_votes) (sell direction_votes) then "sell"
      else "none" in
    <["action" := CAction action]>
      (<["confidence" := CFloat total_score]>
        (<["direction" := CStr direction]>
          (<["votes" := CVotes direction_votes]> ∅))).

(* consensus[k] *)
Definition getitem (consensus : gmap string cval) (k : string) : result cval :=
  match consensus !! k with
  | Some v => Ok v
  | None => Raise (KeyError k)
  end.

Definition votes_dict (v : Votes) : pyval :=
  PDict [("buy", PNum (buy v)); ("sell", PNum (sell v));
         ("hold", PNum (hold v))].

Definition cval_py (v : cval) : pyval :=
  match v with
  | CAction a => PStr (action_value a)
  | CFloat q => PNum q
  | CStr s => PStr s
  | CVotes v => votes_dict v
  end.

(* x.value for an Action *)
Definition cval_action (v : cval) : result Action :=
  match v with CAction a => Ok a | _ => Raise AttributeError end.

(* format(x, ".2f") needs a number *)
Definition cval_float (v : cval) : result Q :=
  match v with
  | CFloat q => Ok q
  | CStr _ => Raise ValueError
  | CAction _ | CVotes _ => Raise TypeError
  end.

Definition cval_eq_str (v : cval) (s : string) : bool :=
  match v with CStr t => String.eqb t s | _ => false end.

Definition cval_is_action (v : cval) (a : Action) : bool :=
  match v with CAction b => bool_decide (a = b) | _ => false end.

Section Agent.
Context `{PyRuntime}.
Variable max_position_size : Q.

(* the three analysis stages with their log uploads, steps 1 to 3 *)
Definition run_stages (w : World) (symbol : string)
  : M (list (string * AgentDecision) * AgentDecision) :=
  let decisions := [] in
  ma_decision ← MarketAnalystAgent.analyze w [("symbol", PStr symbol)];
  let decisions := assoc_set "MarketAnalyst" ma_decision decisions in
  ma_log ← upload_ai_log w MarketAnalystAgent.name ma_decision None;
  _ ← lift (py_get ma_log "code" PNone);
  sa_decision ← SentimentAgent.analyze w [("symbol", PStr symbol)];
  let decisions := assoc_set "SentimentAgent" sa_decision decisions in
  sa_log ← upload_ai_log w SentimentAgent.name sa_decision None;
  _ ← lift (py_get sa_log "code" PNone);
  let rm_context :=
    [("symbol", PStr symbol);
     ("proposed_signal", PStr (signal_value (signal ma_decision)));
     ("proposed_confidence", PNum (confidence ma_decision))] in
  rm_decision ← RiskManagerAgent.analyze max_position_size w rm_context;
  let decisions := assoc_set "RiskManager" rm_decision decisions in
  rm_log ← upload_ai_log w RiskManagerAgent.name rm_decision None;
  _ ← lift (py_get rm_log "code" PNone);
  mret (decisions, rm_decision).

(* steps 4 and 5: consensus, coordinator log, gated execution *)
Definition decide_and_execute (w : World) (symbol : string)
  (decisions : list (string * AgentDecision)) (rm_decision : AgentDecision)
  : M TeamDecision :=
  let consensus := calculate_consensus decisions in
  output ← lift (py_get (data rm_decision) "output" (PDict []));
  raw_size ← lift (py_get output "recommended_size" (PNum max_position_size));
  let recommended_size := py_str raw_size in
  c_action ← lift (getitem consensus "action");
  c_action_v ← lift (cval_action c_action);
  c_confidence ← lift (getitem consensus "confidence");
  c_confidence_q ← lift (cval_float c_confidence);
  c_direction ← lift (getitem consensus "direction");
  c_votes ← lift (getitem consensus "votes");
  let coord_reasoning :=
    "Consensus: " +:+ action_value c_action_v
    +:+ ". Weighted confidence: " +:+ format_2f c_confidence_q
    +:+ ". Direction: " +:+ py_str (cval_py c_direction)
    +:+ ". Votes: " +:+ py_str (cval_py c_votes) in
  let coord_decision :=
    {| agent_name := name;
       stage := stage_label;
       signal := if cval_eq_str c_direction "buy" then BUY
                 else if cval_eq_str c_direction "sell" then SELL
                 else HOLD;
       confidence := c_confidence_q;
       reasoning := PStr coord_reasoning;
       data :=
         PDict [("input",
                 PDict [("agent_decisions",
                         PList (map (fun kv => PStr (signal_value (signal (snd kv))))
                                    decisions))]);
                ("output",
                 PDict [("action", PStr (action_value c_action_v));
                        ("confidence", cval_py c_confidence);
                        ("direction", cval_py c_direction);
                        ("votes", cval_py c_votes)])] |} in
  coord_log ← upload_ai_log w name coord_decision None;
  _ ← lift (py_get coord_log "code" PNone);
  execution_decision ←
    (if cval_is_action c_action EXECUTE
        && (cval_eq_str c_direction "buy" || cval_eq_str c_direction "sell")
     then
       let exec_context :=
         [("action", PStr "execute");
          ("symbol", PStr symbol);
          ("size", PStr recommended_size);
          ("trade_direction", cval_py c_direction);
          ("reasoning", PStr coord_reasoning)] in
       execution_decision ← ExecutorAgent.analyze w exec_context;
       exec_output ←
         lift (py_get (data execution_decision) "output" (PDict []));
       order_id ← lift (py_get exec_output "order_id" PNone);
       log_order_id ←
         lift (if py_truthy order_id
               then (z ← py_int order_id; Ok (Some z))
               else Ok None);
       exec_log ←
         upload_ai_log w ExecutorAgent.name execution_decision log_order_id;
       _ ← lift (py_get exec_log "code" PNone);
       mret (Some execution_decision)
     else mret None);
  mret {| action := c_action_v;
          trade_direction := py_str (cval_py c_direction);
          size := recommended_size;
          team_confidence := c_confidence_q;
          team_reasoning := coord_reasoning;
          agent_decisions :=
            (map snd decisions ++ match execution_decision with
                                  | Some d => [d]
                                  | None => []
                                  end)%list |}.

Definition run_team_analysis (w : World) (symbol : string) : M TeamDecision :=
  '(decisions, rm_decision) ← run_stages w symbol;
  decide_and_execute w symbol decisions rm_decision.

End Agent.
End CoordinatorAgent.

(** ** A reference Python runtime

    Used to evaluate the model on concrete responses.  [json_loads] follows
    the JSON grammar (objects, arrays, strings with escapes, numbers,
    [true], [false], [null]); the non-finite literals and the non-finite
    spellings accepted by [float] have no rational value and are rejected.
    Numbers print in positional decimal notation. *)
Module RefRuntime.

Definition dquote : ascii := "034"%char.
Definition backslash : ascii := "092"%char.

Definition is_ws (c : ascii) : bool :=
  let n := nat_of_ascii c in
  (n =? 32)%nat || (n =? 9)%nat || (n =? 10)%nat || (n =? 13)%nat.

Fixpoint skip_ws (s : string) : string :=
  match s with
  | String c rest => if is_ws c then skip_ws rest else s
  | EmptyString => EmptyString
  end.

Definition digit_of (c : ascii) : option Z :=
  let n := nat_of_ascii c in
  if (48 <=? n)%nat && (n <=? 57)%nat then Some (Z.of_nat (n - 48)) else None.

Definition hex_of (c : ascii) : option Z :=
  let n := nat_of_ascii c in
  if (48 <=? n)%nat && (n <=? 57)%nat then Some (Z.of_nat (n - 48))
  else if (97 <=? n)%nat && (n <=? 102)%nat then Some (Z.of_nat (n - 87))
  else if (65 <=? n)%nat && (n <=? 70)%nat then Some (Z.of_nat (n - 55))
  else None.

(* a maximal run of digits: its value, its length, the rest *)
Fixpoint take_digits (s : string) (acc : Z) (count : nat)
  : Z * nat * string :=
  match s with
  | String c rest =>
      match digit_of c with
      | Some d => take_digits rest (acc * 10 + d)%Z (S count)
      | None => (acc, count, s)
      end
  | EmptyString => (acc, count, s)
  end.

Definition pow10 (n : Z) : Q :=
  if (0 <=? n)%Z then inject_Z (10 ^ n)
  else (1 / inject_Z (10 ^ (- n)))%Q.

(* optional exponent part *)
Definition take_exponent (s : string) : option (Z * string) :=
  match s with
  | String c rest =>
      if Ascii.eqb c "e" || Ascii.eqb c "E" then
        let '(negative, rest1) :=
          match rest with
          | String "-" r => (true, r)
          | String "+" r => (false, r)
          | _ => (false, rest)
          end in
        let '(e, count, rest2) := take_digits rest1 0%Z O in
        if (count =? 0)%nat then None
        else Some ((if negative then - e else e)%Z, rest2)
      else Some (0%Z, s)
  | EmptyString => Some (0%Z, s)
  end.

(* JSON number without its sign: int [frac] [exp] *)
Definition take_number (s : string) : option (Q * string) :=
  let '(int_part, int_count, rest) := take_digits s 0%Z O in
  if (int_count =? 0)%nat then None
  else if (1 <? int_count)%nat && String.prefix "0" s then None
  else
    let frac :=
      match rest with
      | String "." rest1 =>
          let '(f, count, rest2) := take_digits rest1 0%Z O in
          if (count =? 0)%nat then None
          else Some ((inject_Z f * pow10 (- Z.of_nat count))%Q, rest2)
      | _ => Some (0%Q, rest)
      end in
    match frac with
    | None => None
    | Some (frac_part, rest2) =>
        match take_exponent rest2 with
        | None => None
        | Some (e, rest3) =>
            Some (Qred ((inject_Z int_part + frac_part) * pow10 e), rest3)
        end
    end.

Definition utf8 (code : Z) : string :=
  let byte (z : Z) := ascii_of_nat (Z.to_nat z) in
  if (code <? 128)%Z then String (byte code) EmptyString
  else if (code <? 2048)%Z then
    String (byte (192 + code / 64)%Z)
      (String (byte (128 + code mod 64)%Z) EmptyString)
  else
    String (byte (224 + code / 4096)%Z)
      (String (byte (128 + (code / 64) mod 64)%Z)
         (String (byte (128 + code mod 64)%Z) EmptyString)).

(* the characters after an opening quote, up to the closing one *)
Fixpoint take_string (s : string) : option (string * string) :=
  match s with
  | EmptyString => None
  | String c rest =>
      if Ascii.eqb c dquote then Some (EmptyString, rest)
      else if Ascii.eqb c backslash then
        match rest with
        | String e rest1 =>
            let simple (ch : ascii) :=
              match take_string rest1 with
              | Some (body, rest2) => Some (String ch body, rest2)
              | None => None
              end in
            if Ascii.eqb e dquote then simple dquote
            else if Ascii.eqb e backslash then simple backslash
            else if Ascii.eqb e "/" then simple "/"%char
            else if Ascii.eqb e "b" then simple "008"%char
            else if Ascii.eqb e "f" then simple "012"%char
            else if Ascii.eqb e "n" then simple "010"%char
            else if Ascii.eqb e "r" then simple "013"%char
            else if Ascii.eqb e "t" then simple "009"%char
            else if Ascii.eqb e "u" then
              match rest1 with
              | String h1 (String h2 (String h3 (String h4 rest2))) =>
                  match hex_of h1, hex_of h2, hex_of h3, hex_of h4 with
                  | Some a, Some b, Some c', Some d =>
                      match take_string rest2 with
                      | Some (body, rest3) =>
                          Some (utf8 (((a * 16 + b) * 16 + c') * 16 + d)%Z
                                +:+ body, rest3)
                      | None => None
                      end
                  | _, _, _, _ => None
                  end
              | _ => None
              end
            else None
        | EmptyString => None
        end
      else if (nat_of_ascii c <? 32)%nat then None
      else
        match take_string rest with
        | Some (body, rest1) => Some (String c body, rest1)
        | None => None
        end
  end.

Definition take_literal (lit : string) (v : pyval) (s : string)
  : option (pyval * string) :=
  if String.prefix lit s
  then Some (v, substring (String.length lit)
                          (String.length s - String.length lit) s)
  else None.

Fixpoint parse_value (fuel : nat) (s : string) {struct fuel}
  : option (pyval * string) :=
  match fuel with
  | O => None
  | S fuel' =>
      let members :=
        fix members (n : nat) (s : string) (acc : list (string * pyval))
          {struct n} : option (pyval * string) :=
          match n with
          | O => None
          | S n' =>
              match skip_ws s with
              | String q rest =>
                  if Ascii.eqb q dquote then
                    match take_string rest with
                    | Some (key, rest1) =>
                        match skip_ws rest1 with
                        | String ":" rest2 =>
                            match parse_value fuel' rest2 with
                            | Some (v, rest3) =>
                                match skip_ws rest3 with
                                | String "," rest4 =>
                                    members n' rest4 (assoc_set key v acc)
                                | String "}" rest4 =>
                                    Some (PDict (assoc_set key v acc), rest4)
                                | _ => None
                                end
                            | None => None
                            end
                        | _ => None
                        end
                    | None => None
                    end
                  else None
              | EmptyString => None
              end
          end in
      let elements :=
        fix elements (n : nat) (s : string) (acc : list pyval)
          {struct n} : option (pyval * string) :=
          match n with
          | O => None
          | S n' =>
              match parse_value fuel' s with
              | Some (v, rest1) =>
                  match skip_ws rest1 with
                  | String "," rest2 => elements n' rest2 (acc ++ [v])%list
                  | String "]" rest2 => Some (PList (acc ++ [v])%list, rest2)
                  | _ => None
                  end
              | None => None
              end
          end in
      match skip_ws s with
      | EmptyString => None
      | String c rest =>
          if Ascii.eqb c "{" then
            match skip_ws rest with
            | String "}" rest1 => Some (PDict [], rest1)
            | _ => members fuel' rest []
            end
          else if Ascii.eqb c "[" then
            match skip_ws rest with
            | String "]" rest1 => Some (PList [], rest1)
            | _ => elements fuel' rest []
            end
          else if Ascii.eqb c dquote then
            match take_string rest with
            | Some (body, rest1) => Some (PStr body, rest1)
            | None => None
            end
          else if Ascii.eqb c "t" then take_literal "true" (PBool true) (String c rest)
          else if Ascii.eqb c "f" then take_literal "false" (PBool false) (String c rest)
          else if Ascii.eqb c "n" then take_literal "null" PNone (String c rest)
          else if Ascii.eqb c "-" then
            match take_number rest with
            | Some (q, rest1) => Some (PNum (- q), rest1)
            | None => None
            end
          else
            match take_number (String c rest) with
            | Some (q, rest1) => Some (PNum q, rest1)
            | None => None
            end
      end
  end.

Definition loads (s : string) : option pyval :=
  match parse_value (S (String.length s)) s with
  | Some (v, rest) =>
      match skip_ws rest with
      | EmptyString => Some v
      | _ => None
      end
  | None => None
  end.

(* [sign] on the front of a numeral *)
Definition take_sign (s : string) : bool * string :=
  match s with
  | String "-" rest => (true, rest)
  | String "+" rest => (false, rest)
  | _ => (false, s)
  end.

(* float(s): [ws] [sign] digits [. digits] [exponent] [ws] *)
Definition float_of (s : string) : option Q :=
  let '(negative, body) := take_sign (skip_ws s) in
  let '(int_part, int_count, rest) := take_digits body 0%Z O in
  let '(frac_part, frac_count, rest1) :=
    match rest with
    | String "." r =>
        let '(f, count, r1) := take_digits r 0%Z O in
        ((inject_Z f * pow10 (- Z.of_nat count))%Q, count, r1)
    | _ => (0%Q, O, rest)
    end in
  if (int_count + frac_count =? 0)%nat then None
  else
    match take_exponent rest1 with
    | Some (e, rest2) =>
        match skip_ws rest2 with
        | EmptyString =>
            let magnitude := Qred ((inject_Z int_part + frac_part) * pow10 e) in
            Some (if negative then (- magnitude)%Q else magnitude)
        | _ => None
        end
    | None => None
    end.

(* int(s): [ws] [sign] digits [ws] *)
Definition int_of (s : string) : option Z :=
  let '(negative, body) := take_sign (skip_ws s) in
  let '(value, count, rest) := take_digits body 0%Z O in
  if (count =? 0)%nat then None
  else
    match skip_ws rest with
    | EmptyString => Some (if negative then - value else value)%Z
    | _ => None
    end.

Definition nat_str (n : N) : string :=
  NilZero.string_of_uint (N.to_uint n).

(* format(x, ".2f") *)
Definition fmt_2f (x : Q) : string :=
  let cents := round_half_even (x * 100) in
  let magnitude := Z.to_N (Z.abs cents) in
  let frac := (magnitude mod 100)%N in
  (if Qltb x 0 then "-" else "")
  +:+ nat_str (magnitude / 100)%N +:+ "."
  +:+ (if (frac <? 10)%N then "0" else "") +:+ nat_str frac.

(* up to [n] fractional digits of rem/den, stopping when exact *)
Fixpoint frac_digits (n : nat) (rem den : N) : string :=
  match n with
  | O => EmptyString
  | S n' =>
      if (rem =? 0)%N then EmptyString
      else nat_str (rem * 10 / den)%N
           +:+ frac_digits n' ((rem * 10) mod den)%N den
  end.

Definition num_str (x : Q) : string :=
  let num := Z.to_N (Z.abs (Qnum x)) in
  let den := Npos (Qden x) in
  (if Qltb x 0 then "-" else "")
  +:+ nat_str (num / den)%N
  +:+ (if (num mod den =? 0)%N then EmptyString
       else "." +:+ frac_digits 17 (num mod den)%N den).

Definition join (sep : string) (l : list string) : string :=
  match l with
  | [] => EmptyString
  | x :: rest => fold_left (fun acc y => acc +:+ sep +:+ y) rest x
  end.

#[warnings="-register-all"]
Fixpoint repr (v : pyval) : string :=
  match v with
  | PNone => "None"
  | PBool b => if b then "True" else "False"
  | PNum q => num_str q
  | PStr s => "'" +:+ s +:+ "'"
  | PList l => "[" +:+ join ", " (map repr l) +:+ "]"
  | PDict items =>
      "{" +:+ join ", "
        (map (fun kv => "'" +:+ fst kv +:+ "': " +:+ repr (snd kv)) items)
      +:+ "}"
  end.

#[global] Instance runtime : PyRuntime := {|
  json_loads := loads;
  float_of_str := float_of;
  int_of_str := int_of;
  format_2f := fmt_2f;
  py_repr := repr
|}.

(* a double-quoted JSON string literal *)
Definition q (s : string) : string :=
  String dquote s +:+ String dquote EmptyString.

End RefRuntime.

(** ** Views and sample inputs used to state the properties *)

(* The direction of a consensus as buy, sell or none: an entry that is
   absent and the string "none" both mean that there is no direction. *)
Definition direction_of (consensus : gmap string CoordinatorAgent.cval)
  : option string :=
  match consensus !! "direction" with
  | Some v =>
      if CoordinatorAgent.cval_eq_str v "buy" then Some "buy"
      else if CoordinatorAgent.cval_eq_str v "sell" then Some "sell"
      else None
  | None => None
  end.

(* no call in the trace is place_order *)
Definition no_order (t : list call) : Prop :=
  Forall (fun c => is_place_order c = false) t.

Definition orders (t : list call) : list call := filter is_place_order t.

(* recommended_size as stored in a risk decision's output *)
Definition recommended_size_of (d : AgentDecision) : option pyval :=
  match data d with
  | PDict items =>
      match assoc_get "output" items with
      | Some (PDict output) => assoc_get "recommended_size" output
      | _ => None
      end
  | _ => None
  end.

(* order_id as stored in an executor decision's output *)
Definition order_id_of (d : AgentDecision) : option pyval :=
  match data d with
  | PDict items =>
      match assoc_get "output" items with
      | Some (PDict output) => assoc_get "order_id" output
      | _ => None
      end
  | _ => None
  end.

(* The unrounded MACD line of calculate_macd. *)
Definition macd_line (prices : list Q) : result Q :=
  ema_12 ← TechnicalAnalysis.calculate_ema prices 12;
  ema_26 ← TechnicalAnalysis.calculate_ema prices 26;
  Ok (ema_12 - ema_26)%Q.

(* The MACD line after each price of the series, oldest first. *)
Fixpoint macd_history_from (seen rest : list Q) : result (list Q) :=
  match rest with
  | [] => Ok []
  | p :: rest' =>
      m ← macd_line (seen ++ [p])%list;
      ms ← macd_history_from (seen ++ [p])%list rest';
      Ok (m :: ms)
  end.
Definition macd_history (prices : list Q) : result (list Q) :=
  macd_history_from [] prices.

(** Follows the spec's words: the signal line is "EMA(9) computed over the
    trailing 9 MACD values (or over the MACD-line history if fewer than 9
    points are available)", EMA being "seed with the first [value], then
    recurrence ema = (price - ema) * (2/(period+1)) + ema".  It is compared
    with the signal line of [TechnicalAnalysis.calculate_macd]. *)
Definition spec_signal_line (prices : list Q) : result Q :=
  history ← macd_history prices;
  match last_n 9 history with
  | [] => Raise IndexError
  | first :: rest => Ok (ema_loop (2 / (9 + 1))%Q first rest)
  end.

(* a JSON reply of a stage, as the prompts ask for it *)
Definition reply (signal confidence : string) : string :=
  "{" +:+ RefRuntime.q "signal" +:+ ": " +:+ RefRuntime.q signal +:+ ", "
  +:+ RefRuntime.q "confidence" +:+ ": " +:+ confidence +:+ "}".

Definition risk_reply (signal confidence size : string) : string :=
  "{" +:+ RefRuntime.q "signal" +:+ ": " +:+ RefRuntime.q signal +:+ ", "
  +:+ RefRuntime.q "confidence" +:+ ": " +:+ confidence +:+ ", "
  +:+ RefRuntime.q "recommended_size" +:+ ": " +:+ size +:+ "}".

Definition log_accepted : pyval := PDict [("code", PStr "00000")].

(* A world whose three completions are given, whose uploads are accepted
   and whose order call answers [order]. *)
Definition sample_world (market sentiment risk : string) (order : result pyval)
  : World :=
  {| gather := fun agent _ =>
       Gathered (PDict []) PNone
         (if String.eqb agent "MarketAnalyst" then market
          else if String.eqb agent "SentimentAgent" then sentiment
          else risk);
     ticker_response := Ok (PDict [("last", PStr "50000.5")]);
     place_order_response := order;
     upload_response := fun _ => Ok log_accepted;
     clock_ms := 1700000000000 |}.

Definition sample_decision (name : string) (s : Signal) (c : Q) : AgentDecision :=
  {| agent_name := name; stage := ""; signal := s; confidence := c;
     reasoning := PStr ""; data := PDict [("input", PDict []); ("output", PDict [])] |}.

Definition three_decisions (m : Signal) (mc : Q) (s : Signal) (sc : Q)
  (r : Signal) (rc : Q) : list (string * AgentDecision) :=
  [("MarketAnalyst", sample_decision "MarketAnalyst" m mc);
   ("SentimentAgent", sample_decision "SentimentAgent" s sc);
   ("RiskManager", sample_decision "RiskManager" r rc)].

(* the score stored under "confidence" *)
Definition score_of (consensus : gmap string CoordinatorAgent.cval) : option Q :=
  match consensus !! "confidence" with
  | Some (CoordinatorAgent.CFloat q) => Some q
  | _ => None
  end.

Definition action_of (consensus : gmap string CoordinatorAgent.cval)
  : option Action :=
  match consensus !! "action" with
  | Some (CoordinatorAgent.CAction a) => Some a
  | _ => None
  end.

Import CoordinatorAgent.

(* The gate of step 5, as a function of the two consensus entries. *)
Definition gate_open (c_action c_direction : cval) : bool :=
  cval_is_action c_action EXECUTE
  && (cval_eq_str c_direction "buy" || cval_eq_str c_direction "sell").

(* the order_id of an order response, None when it is missing *)
Definition order_id_in (items : list (string * pyval)) : pyval :=
  match assoc_get "order_id" items with Some v => v | None => PNone end.

(* market Buy 0.9, sentiment Bullish 0.8, risk Approve 0.9 *)
Definition scenario1 : list (string * AgentDecision) :=
  three_decisions BUY 0.9 BULLISH 0.8 APPROVE 0.9.


(* market Neutral, sentiment Neutral, risk Reduce: no directional vote *)
Definition world_undirected : World :=
  sample_world (reply "NEUTRAL" "0.9") (reply "NEUTRAL" "0.9")
    (risk_reply "REDUCE" "0.9" "0.0001")
    (Ok (PDict [("order_id", PStr "12345")])).

(* the context the coordinator hands to the executor *)
Definition execute_context (direction : pyval) : list (string * pyval) :=
  [("action", PStr "execute"); ("symbol", PStr "cmt_btcusdt");
   ("size", PStr "0.0002"); ("trade_direction", direction);
   ("reasoning", PStr "consensus")].

(* a world for the executor alone: only the order response matters *)
Definition world_order (order : pyval) : World :=
  sample_world "" "" "" (Ok order).

(* twenty closes 1, 2, ..., 20 *)
Definition rising_closes : list Q :=
  map (fun n => inject_Z (Z.of_nat n)) (seq 1 20).

(* nine prices of 100 *)
Definition flat_prices : list Q := repeat 100%Q 9.

(** ** Further views *)

(* a signal that votes for a side *)
Definition votes_buy (s : Signal) : bool :=
  bool_decide (s ∈ [BUY; BULLISH; APPROVE]).
Definition votes_sell (s : Signal) : bool :=
  bool_decide (s ∈ [SELL; BEARISH]).

(* what one stage adds to the weighted score *)
Definition contribution (weight : Q) (d : AgentDecision) : Q :=
  if votes_buy (signal d) || votes_sell (signal d)
  then (confidence d * weight)%Q else 0%Q.

(* the decisions map that run_team_analysis builds *)
Definition team (m s r : AgentDecision) : list (string * AgentDecision) :=
  [("MarketAnalyst", m); ("SentimentAgent", s); ("RiskManager", r)].

Definition with_confidence (d : AgentDecision) (c : Q) : AgentDecision :=
  {| agent_name := agent_name d; stage := stage d; signal := signal d;
     confidence := c; reasoning := reasoning d; data := data d |}.

(* the context run_team_analysis hands to the executor *)
Definition exec_context_of (symbol : string) (td : TeamDecision)
  : list (string * pyval) :=
  [("action", PStr "execute"); ("symbol", PStr symbol);
   ("size", PStr (size td)); ("trade_direction", PStr (trade_direction td));
   ("reasoning", PStr (team_reasoning td))].

(* int(order_id) if order_id else None *)
Definition log_order_id `{PyRuntime} (order_id : pyval) : result (option Z) :=
  if py_truthy order_id then (z ← py_int order_id; Ok (Some z)) else Ok None.

(* market Buy 0.9, sentiment Bullish 0.8, risk Approve 0.9, and an order
   response with the given id *)
Definition world_execute (order_id : pyval) : World :=
  sample_world (reply "BUY" "0.9") (reply "BULLISH" "0.8")
    (risk_reply "APPROVE" "0.9" "0.0002") (Ok (PDict [("order_id", order_id)])).

(* market Buy, sentiment Bullish, risk Reject *)
Definition world_veto : World :=
  sample_world (reply "BUY" "0.9") (reply "BULLISH" "0.8")
    (risk_reply "REJECT" "0.9" "0.0002")
    (Ok (PDict [("order_id", PStr "12345")])).

(* whether a character occurs in a string *)
Fixpoint has_char (c : ascii) (s : string) : bool :=
  match s with
  | EmptyString => false
  | String a rest => Ascii.eqb a c || has_char c rest
  end.

(* a price with two decimals, given in cents *)
Definition cents (k : Z) : Q := (inject_Z k / 100)%Q.

(** ** weex_client.py: the body of an order request *)
Module WeexClient.
Section Client.
Context `{PyRuntime}.

(* str(n) for an int *)
Definition str_int (n : Z) : pyval := PStr (py_repr (PNum (inject_Z n))).

(* place_order, up to the POST: price and client_oid are None when the
   caller leaves them out *)
Definition place_order_body (symbol size : pyval) (side order_type : Z)
  (price client_oid : pyval) (now_ms : Z) : list (string * pyval) :=
  let body := [("symbol", symbol);
               ("size", size);
               ("type", str_int side);
               ("order_type", str_int order_type);
               ("match_price",
                PStr (if (order_type =? 1)%Z then "1" else "0"))] in
  let body :=
    if py_truthy price && (order_type =? 0)%Z
    then assoc_set "price" price body else body in
  if py_truthy client_oid
  then assoc_set "client_oid" client_oid body
  else assoc_set "client_oid" (str_int now_ms) body.

(* upload_ai_log: the body it posts, then the exchange's answer *)
Definition upload_ai_log (w : World) (uploader : string)
  (stage model input_data output_data explanation : pyval)
  (order_id : option Z) : M pyval :=
  cut ← lift (py_slice_1000 explanation);
  let body := [("stage", stage); ("model", model); ("input", input_data);
               ("output", output_data); ("explanation", cut)] in
  let body :=
    match order_id with
    | Some oid => if (oid =? 0)%Z then body
                  else assoc_set "orderId" (PNum (inject_Z oid)) body
    | None => body
    end in
  emit (UploadAiLog (PDict body)) (upload_response w uploader).

End Client.
End WeexClient.

(** ** tools.py *)
Definition ACTION_TO_SIDE : gmap string Z :=
  <["open_long" := 1%Z]> (<["close_short" := 2%Z]>
    (<["open_short" := 3%Z]> (<["close_long" := 4%Z]> ∅))).

(** ** ai_trader.py: FenyrAgent *)
Module FenyrAgent.

Record State : Type := {
  model : string;
  max_position_size : Q;
  conversation_history : list pyval;
  trade_count : Z
}.

Definition message (role content : string) : pyval :=
  PDict [("role", PStr role); ("content", PStr content)].

(* _add_message: append, then keep the last 20 messages *)
Definition _add_message (self : State) (role content : string) : State :=
  let history := (conversation_history self ++ [message role content])%list in
  {| model := model self;
     max_position_size := max_position_size self;
     conversation_history :=
       if (20 <? length history)%nat then last_n 20 history else history;
     trade_count := trade_count self |}.

Section Agent.
Context `{PyRuntime}.

(* x < 0.6 for a value out of the tool-call arguments *)
Definition py_lt (x : pyval) (bound : Q) : result bool :=
  match x with
  | PNum q => Ok (Qltb q bound)
  | PBool b => Ok (Qltb (if b then 1 else 0) bound)
  | PNone | PStr _ | PList _ | PDict _ => Raise TypeError
  end.

(* ACTION_TO_SIDE.get(action): a list or a dict is unhashable *)
Definition side_of (action : pyval) : result (option Z) :=
  match action with
  | PStr s => Ok (ACTION_TO_SIDE !! s)
  | PNone | PBool _ | PNum _ => Ok None
  | PList _ | PDict _ => Raise TypeError
  end.

Definition refused (message : string) : pyval :=
  PDict [("error", PStr message); ("executed", PBool false)].

(* _execute_trade up to the statement  self.trade_count += 1 : either an
   early return, or the values the final dict is built from *)
Definition execute_trade_steps (w : World) (now : string) (self : State)
  (symbol action size confidence reasoning : pyval)
  : M (pyval + (pyval * Q * pyval)) :=
  low ← lift (py_lt confidence 0.6);
  if (low : bool) then
    mret (inl (refused "Confidence too low. Minimum 0.6 required."))
  else
    size_float ← lift (py_float size);
    if Qltb (max_position_size self) size_float then
      mret (inl (refused ("Size exceeds max of "
                          +:+ py_repr (PNum (max_position_size self)))))
    else
      ticker ← emit GetTicker (ticker_response w);
      last_price ← lift (py_get ticker "last" (PNum 0));
      current_price ← lift (py_float last_price);
      side ← lift (side_of action);
      match side with
      | None =>
          mret (inl (refused ("Invalid action: " +:+ py_str action)))
      | Some side =>
          order_result ←
            emit (PlaceOrder symbol size side 1 (clock_ms w))
                 (place_order_response w);
          order_id ← lift (py_get order_result "order_id" PNone);
          signal_name ← lift (py_upper action);
          logged_id ←
            lift (if py_truthy order_id
                  then (z ← py_int order_id; Ok (Some z)) else Ok None);
          ai_log_result ←
            WeexClient.upload_ai_log w "FenyrAgent"
              (PStr "Strategy Generation") (PStr (model self))
              (PDict [("symbol", symbol); ("action", action);
                      ("market_price", PNum current_price);
                      ("analysis_timestamp", PStr now)])
              (PDict [("signal", PStr signal_name); ("size", size);
                      ("confidence", confidence); ("order_id", order_id)])
              reasoning logged_id;
          mret (inr (order_id, current_price, ai_log_result))
      end.

(* _execute_trade: the calls made, the trade count afterwards, the result *)
Definition _execute_trade (w : World) (now : string) (self : State)
  (symbol action size confidence reasoning : pyval)
  : list call * Z * result pyval :=
  match execute_trade_steps w now self symbol action size confidence reasoning
  with
  | (t, Raise e) => (t, trade_count self, Raise e)
  | (t, Ok (inl early)) => (t, trade_count self, Ok early)
  | (t, Ok (inr (order_id, current_price, ai_log_result))) =>
      (t, (trade_count self + 1)%Z,
       code ← py_get ai_log_result "code" PNone;
       Ok (PDict [("executed", PBool true);
                  ("order_id", order_id);
                  ("symbol", symbol);
                  ("action", action);
                  ("size", size);
                  ("price", PNum current_price);
                  ("confidence", confidence);
                  ("ai_log_uploaded", PBool (py_eq_str code "00000"));
                  ("reasoning", reasoning)]))
  end.

End Agent.
End FenyrAgent.

(** ** multi_agent.py: run_hft_mode *)
Section Hft.
Context `{PyRuntime}.
Variable max_position_size : Q.

(* one pass of the loop body; a raising cycle is caught and changes no
   counter.  The world of the cycle stands for what the collaborators answer
   during it. *)
Definition hft_cycle (symbol : string) (acc : list call * Z * Z) (w : World)
  : list call * Z * Z :=
  let '(t, trades_executed, total_ai_logs) := acc in
  match run_team_analysis max_position_size w symbol with
  | (t', Ok team_decision) =>
      ((t ++ t')%list,
       if bool_decide (action team_decision = EXECUTE)
       then (trades_executed + 1)%Z else trades_executed,
       (total_ai_logs + Z.of_nat (length (agent_decisions team_decision)))%Z)
  | (t', Raise _) => ((t ++ t')%list, trades_executed, total_ai_logs)
  end.

(* run_hft_mode over the given cycles: the calls made, trades_executed and
   total_ai_logs *)
Definition run_hft_mode (symbol : string) (cycles : list World)
  : list call * Z * Z :=
  fold_left (hft_cycle symbol) cycles ([], 0%Z, 0%Z).
End Hft.

(* FenyrAgent.__init__ with its default model and size limit *)
Definition fresh_agent : FenyrAgent.State :=
  {| FenyrAgent.model := "gpt-5.2";
     FenyrAgent.max_position_size := 0.0002;
     FenyrAgent.conversation_history := [];
     FenyrAgent.trade_count := 0 |}.

(* the number of cycles whose run_team_analysis returns *)
Fixpoint returned_cycles `{PyRuntime} (max_position_size : Q)
  (symbol : string) (cycles : list World) : Z :=
  match cycles with
  | [] => 0
  | w :: rest =>
      ((if is_ok (outcome (run_team_analysis max_position_size w symbol))
        then 1 else 0)
       + returned_cycles max_position_size symbol rest)%Z
  end.

Definition is_upload (c : call) : bool :=
  match c with UploadAiLog _ => true | _ => false end.

(* the log uploads of a trace *)
Definition uploads (t : list call) : list call := filter is_upload t.

(** * Properties *)

(** ** The trace monad *)

Lemma bind_lift_ok {A B} (a : A) (f : A -> M B) : lift (Ok a) ≫= f = f a.
Proof. unfold mbind, M_bind, lift. destruct (f a); reflexivity. Qed.

Lemma bind_lift_raise {A B} (e : exn) (f : A -> M B) :
  lift (Raise e) ≫= f = ([], Raise e).
Proof. reflexivity. Qed.

Lemma bind_mret {A B} (a : A) (f : A -> M B) : mret a ≫= f = f a.
Proof. apply bind_lift_ok. Qed.

Lemma trace_bind_ok {A B} (m : M A) (f : A -> M B) (a : A) :
  outcome m = Ok a ->
  trace (m ≫= f) = (trace m ++ trace (f a))%list /\
  outcome (m ≫= f) = outcome (f a).
Proof.
  destruct m as [t r]. simpl. intros ->.
  unfold mbind, M_bind. destruct (f a); split; reflexivity.
Qed.

Lemma trace_bind_raise {A B} (m : M A) (f : A -> M B) (e : exn) :
  outcome m = Raise e ->
  trace (m ≫= f) = trace m /\ outcome (m ≫= f) = Raise e.
Proof.
  destruct m as [t r]. simpl. intros ->. split; reflexivity.
Qed.

Lemma bind_ok_inv {A B} (m : M A) (f : A -> M B) (b : B) :
  outcome (m ≫= f) = Ok b ->
  exists a, outcome m = Ok a /\ outcome (f a) = Ok b /\
            trace (m ≫= f) = (trace m ++ trace (f a))%list.
Proof.
  destruct m as [t [a|e]]; simpl.
  - intros Hb. exists a. unfold mbind, M_bind in *.
    destruct (f a) as [t' r]. simpl in *. auto.
  - discriminate.
Qed.

Lemma no_order_nil : no_order [].
Proof. constructor. Qed.

Lemma no_order_app t1 t2 : no_order t1 -> no_order t2 -> no_order (t1 ++ t2)%list.
Proof. unfold no_order. intros. apply Forall_app; auto. Qed.

Lemma bind_pair_ok {A B} (t : list call) (a : A) (f : A -> M B) :
  ((t, Ok a) : M A) ≫= f = ((t ++ trace (f a))%list, outcome (f a)).
Proof. unfold mbind, M_bind. destruct (f a); reflexivity. Qed.

Lemma bind_pair_raise {A B} (t : list call) (e : exn) (f : A -> M B) :
  ((t, Raise e) : M A) ≫= f = (t, Raise e).
Proof. reflexivity. Qed.

Lemma no_order_bind {A B} (m : M A) (f : A -> M B) :
  no_order (trace m) ->
  (forall a, outcome m = Ok a -> no_order (trace (f a))) ->
  no_order (trace (m ≫= f)).
Proof.
  intros Hm Hf. destruct (outcome m) as [a|e] eqn:Ho.
  - destruct (trace_bind_ok m f a Ho) as [-> _]. apply no_order_app; auto.
  - destruct (trace_bind_raise m f e Ho) as [-> _]. exact Hm.
Qed.

Lemma no_order_lift {A} (r : result A) : no_order (trace (lift r)).
Proof. constructor. Qed.

Lemma no_order_emit {A} (c : call) (r : result A) :
  is_place_order c = false -> no_order (trace (emit c r)).
Proof. intros Hc. repeat constructor. exact Hc. Qed.

Lemma no_order_firstn n t : no_order t -> no_order (firstn n t).
Proof.
  unfold no_order. rewrite !Forall_forall. intros Ht c Hc. apply Ht.
  rewrite <- (firstn_skipn n t). apply elem_of_app. left. exact Hc.
Qed.

Lemma risk_veto_true decisions risk_decision :
  assoc_get "RiskManager" decisions = Some risk_decision ->
  signal risk_decision = REJECT ->
  risk_veto decisions = true.
Proof.
  intros Hget Hsig. unfold risk_veto. rewrite Hget, Hsig. reflexivity.
Qed.

Lemma calculate_consensus_veto decisions :
  risk_veto decisions = true ->
  calculate_consensus decisions =
    <["action" := CAction HOLD_ACTION]>
      (<["confidence" := CFloat 0]>
        (<["reason" := CStr "Risk Manager veto - trade rejected"]> ∅)).
Proof. intros Hv. unfold calculate_consensus. rewrite Hv. reflexivity. Qed.

Lemma decide_and_execute_veto `{PyRuntime} max w symbol decisions rm :
  risk_veto decisions = true ->
  trace (decide_and_execute max w symbol decisions rm) = [] /\
  is_ok (outcome (decide_and_execute max w symbol decisions rm)) = false.
Proof.
  intros Hv. unfold decide_and_execute.
  rewrite (calculate_consensus_veto _ Hv).
  destruct (py_get (data rm) "output" (PDict [])) as [output|e];
    [rewrite bind_lift_ok | split; reflexivity].
  destruct (py_get output "recommended_size" (PNum max)) as [raw|e];
    [rewrite bind_lift_ok | split; reflexivity].
  split; reflexivity.
Qed.

(** C1 on the code: when the risk decision is Reject the consensus has the
    action Hold and the score 0, but it carries no "direction" entry at all
    (the claim says direction None), so reading consensus["direction"]
    raises KeyError. *)
Theorem C1_veto_result_has_no_direction :
  forall decisions risk_decision,
    assoc_get "RiskManager" decisions = Some risk_decision ->
    signal risk_decision = REJECT ->
    action_of (calculate_consensus decisions) = Some HOLD_ACTION /\
    score_of (calculate_consensus decisions) = Some 0%Q /\
    calculate_consensus decisions !! "direction" = None /\
    getitem (calculate_consensus decisions) "direction"
      = Raise (KeyError "direction").
Proof.
  intros decisions rd Hget Hsig.
  rewrite (calculate_consensus_veto _ (risk_veto_true _ _ Hget Hsig)).
  repeat split; reflexivity.
Qed.

Lemma C1_witness :
  let ds := three_decisions BUY 0.9 BULLISH 0.8 REJECT 0.9 in
  action_of (calculate_consensus ds) = Some HOLD_ACTION /\
  score_of (calculate_consensus ds) = Some 0%Q /\
  calculate_consensus ds !! "direction" = None /\
  getitem (calculate_consensus ds) "direction" = Raise (KeyError "direction").
Proof.
  exact (C1_veto_result_has_no_direction
           (three_decisions BUY 0.9 BULLISH 0.8 REJECT 0.9)
           (sample_decision "RiskManager" REJECT 0.9) eq_refl eq_refl).
Defined.

(** ** No stage and no upload places an order *)

Lemma no_order_run_gather w agent calls context :
  no_order calls -> no_order (trace (run_gather w agent calls context)).
Proof.
  intros Hc. unfold run_gather. destruct (gather w agent context); simpl.
  - exact Hc.
  - apply no_order_firstn, Hc.
Qed.

Lemma no_order_upload w uploader decision order_id :
  no_order (trace (upload_ai_log w uploader decision order_id)).
Proof.
  unfold upload_ai_log.
  repeat (apply no_order_bind; [apply no_order_lift | intros ? _]).
  apply no_order_emit. reflexivity.
Qed.

Lemma no_order_market `{PyRuntime} w context :
  no_order (trace (MarketAnalystAgent.analyze w context)).
Proof.
  unfold MarketAnalystAgent.analyze. apply no_order_bind.
  - apply no_order_run_gather. repeat constructor.
  - intros [[ctx aux] response] _. apply no_order_lift.
Qed.

Lemma no_order_sentiment `{PyRuntime} w context :
  no_order (trace (SentimentAgent.analyze w context)).
Proof.
  unfold SentimentAgent.analyze. apply no_order_bind.
  - apply no_order_run_gather. repeat constructor.
  - intros [[ctx aux] response] _. apply no_order_lift.
Qed.

Lemma no_order_risk `{PyRuntime} max w context :
  no_order (trace (RiskManagerAgent.analyze max w context)).
Proof.
  unfold RiskManagerAgent.analyze. apply no_order_bind.
  - apply no_order_run_gather. repeat constructor.
  - intros [[ctx aux] response] _. apply no_order_lift.
Qed.

Lemma no_order_run_stages `{PyRuntime} max w symbol :
  no_order (trace (run_stages max w symbol)).
Proof.
  unfold run_stages.
  apply no_order_bind; [apply no_order_market | intros ma _].
  apply no_order_bind; [apply no_order_upload | intros ? _].
  apply no_order_bind; [apply no_order_lift | intros ? _].
  apply no_order_bind; [apply no_order_sentiment | intros sa _].
  apply no_order_bind; [apply no_order_upload | intros ? _].
  apply no_order_bind; [apply no_order_lift | intros ? _].
  apply no_order_bind; [apply no_order_risk | intros rm _].
  apply no_order_bind; [apply no_order_upload | intros ? _].
  apply no_order_bind; [apply no_order_lift | intros ? _].
  apply no_order_nil.
Qed.

Lemma no_order_decide `{PyRuntime} max w symbol decisions rm :
  (forall a d,
     getitem (calculate_consensus decisions) "action" = Ok a ->
     getitem (calculate_consensus decisions) "direction" = Ok d ->
     gate_open a d = false) ->
  no_order (trace (decide_and_execute max w symbol decisions rm)).
Proof.
  intros Hgate. unfold decide_and_execute.
  apply no_order_bind; [apply no_order_lift | intros output _].
  apply no_order_bind; [apply no_order_lift | intros raw _].
  apply no_order_bind; [apply no_order_lift | intros c_action Ha].
  apply no_order_bind; [apply no_order_lift | intros c_action_v _].
  apply no_order_bind; [apply no_order_lift | intros c_conf _].
  apply no_order_bind; [apply no_order_lift | intros c_conf_q _].
  apply no_order_bind; [apply no_order_lift | intros c_direction Hd].
  apply no_order_bind; [apply no_order_lift | intros c_votes _].
  apply no_order_bind; [apply no_order_upload | intros ? _].
  apply no_order_bind; [apply no_order_lift | intros ? _].
  apply no_order_bind; [| intros ? _; apply no_order_nil].
  specialize (Hgate c_action c_direction Ha Hd). unfold gate_open in Hgate.
  rewrite Hgate. apply no_order_nil.
Qed.

Lemma direction_none_closes_gate consensus a d :
  direction_of consensus = None ->
  getitem consensus "direction" = Ok d ->
  gate_open a d = false.
Proof.
  unfold direction_of, getitem, gate_open.
  destruct (consensus !! "direction") as [v|]; [|discriminate].
  intros Hdir [= ->].
  destruct (cval_eq_str d "buy"); [discriminate|].
  destruct (cval_eq_str d "sell"); [discriminate|].
  simpl. apply andb_false_r.
Qed.

(** C5: when the consensus of a run has no direction, the run never calls
    place_order, whether it returns or raises. *)
Theorem C5_no_direction_no_order :
  forall `{PyRuntime} (max_position_size : Q) (w : World) (symbol : string),
    (forall decisions rm_decision,
       outcome (run_stages max_position_size w symbol)
         = Ok (decisions, rm_decision) ->
       direction_of (calculate_consensus decisions) = None) ->
    no_order (trace (run_team_analysis max_position_size w symbol)).
Proof.
  intros rt max w symbol Hdir. unfold run_team_analysis.
  apply no_order_bind; [apply no_order_run_stages |].
  intros [decisions rm] Hstages. apply no_order_decide.
  intros a d _ Hd.
  apply (direction_none_closes_gate _ _ _ (Hdir _ _ Hstages) Hd).
Qed.

(** ** What a returning run of steps 4 and 5 looks like *)

Lemma outcome_lift {A} (r : result A) : outcome (lift r) = r.
Proof. reflexivity. Qed.

Lemma outcome_mret {A} (a : A) : outcome (mret a : M A) = Ok a.
Proof. reflexivity. Qed.

Tactic Notation "step" hyp(H) "as" ident(x) ident(E) :=
  apply bind_ok_inv in H as (x & E & H & _);
  try rewrite outcome_lift in E.

Lemma decide_ok_inv `{PyRuntime} max w symbol decisions rm td :
  outcome (decide_and_execute max w symbol decisions rm) = Ok td ->
  exists c_action c_direction,
    getitem (calculate_consensus decisions) "action" = Ok c_action /\
    getitem (calculate_consensus decisions) "direction" = Ok c_direction /\
    cval_action c_action = Ok (action td) /\
    trade_direction td = py_str (cval_py c_direction) /\
    (gate_open c_action c_direction = false ->
     agent_decisions td = map snd decisions) /\
    (gate_open c_action c_direction = true ->
     exists d, agent_decisions td = (map snd decisions ++ [d])%list /\
               outcome (ExecutorAgent.analyze w
                 [("action", PStr "execute"); ("symbol", PStr symbol);
                  ("size", PStr (size td));
                  ("trade_direction", cval_py c_direction);
                  ("reasoning", PStr (team_reasoning td))]) = Ok d).
Proof.
  intros Hok. unfold decide_and_execute in Hok.
  step Hok as output Eoutput.
  step Hok as raw Eraw.
  step Hok as c_action Eaction.
  step Hok as c_action_v Eaction_v.
  step Hok as c_conf Econf.
  step Hok as c_conf_q Econf_q.
  step Hok as c_direction Edirection.
  step Hok as c_votes Evotes.
  step Hok as coord_log Elog.
  step Hok as code Ecode.
  step Hok as execution Eexec.
  rewrite outcome_mret in Hok. injection Hok as <-. simpl.
  exists c_action, c_direction.
  fold (gate_open c_action c_direction) in Eexec.
  repeat split; try assumption.
  - intros Hgate. rewrite Hgate in Eexec.
    rewrite outcome_mret in Eexec. injection Eexec as <-.
    apply app_nil_r.
  - intros Hgate. rewrite Hgate in Eexec.
    step Eexec as d Ed.
    step Eexec as exec_output Eexec_output.
    step Eexec as order_id Eorder_id.
    step Eexec as log_order_id Elog_order_id.
    step Eexec as exec_log Eexec_log.
    step Eexec as exec_code Eexec_code.
    rewrite outcome_mret in Eexec. injection Eexec as <-.
    exists d. split; [reflexivity | exact Ed].
Qed.




Lemma market_analyze_ok `{PyRuntime} w context d :
  outcome (MarketAnalystAgent.analyze w context) = Ok d ->
  exists ctx aux response, MarketAnalystAgent.extract ctx aux response = Ok d.
Proof.
  unfold MarketAnalystAgent.analyze. intros Hd.
  apply bind_ok_inv in Hd as ([[ctx aux] response] & _ & Hd & _).
  rewrite outcome_lift in Hd. eauto.
Qed.

Lemma sentiment_analyze_ok `{PyRuntime} w context d :
  outcome (SentimentAgent.analyze w context) = Ok d ->
  exists ctx aux response, SentimentAgent.extract ctx aux response = Ok d.
Proof.
  unfold SentimentAgent.analyze. intros Hd.
  apply bind_ok_inv in Hd as ([[ctx aux] response] & _ & Hd & _).
  rewrite outcome_lift in Hd. eauto.
Qed.

Lemma risk_analyze_ok `{PyRuntime} max w context d :
  outcome (RiskManagerAgent.analyze max w context) = Ok d ->
  exists ctx response, RiskManagerAgent.extract max ctx response = Ok d.
Proof.
  unfold RiskManagerAgent.analyze. intros Hd.
  apply bind_ok_inv in Hd as ([[ctx aux] response] & _ & Hd & _).
  rewrite outcome_lift in Hd. eauto.
Qed.

Lemma run_stages_ok_inv `{PyRuntime} max w symbol decisions rm :
  outcome (run_stages max w symbol) = Ok (decisions, rm) ->
  exists ma sa,
    decisions = [("MarketAnalyst", ma); ("SentimentAgent", sa);
                 ("RiskManager", rm)] /\
    (exists ctx aux response,
       MarketAnalystAgent.extract ctx aux response = Ok ma) /\
    (exists ctx aux response,
       SentimentAgent.extract ctx aux response = Ok sa) /\
    (exists ctx response,
       RiskManagerAgent.extract max ctx response = Ok rm).
Proof.
  intros Hok. unfold run_stages in Hok.
  step Hok as ma Ema.
  step Hok as ma_log Ema_log.
  step Hok as ma_code Ema_code.
  step Hok as sa Esa.
  step Hok as sa_log Esa_log.
  step Hok as sa_code Esa_code.
  step Hok as rm' Erm.
  step Hok as rm_log Erm_log.
  step Hok as rm_code Erm_code.
  rewrite outcome_mret in Hok. injection Hok as <- <-.
  exists ma, sa. split; [reflexivity|].
  split; [exact (market_analyze_ok _ _ _ Ema)|].
  split; [exact (sentiment_analyze_ok _ _ _ Esa)|].
  exact (risk_analyze_ok _ _ _ _ Erm).
Qed.

Lemma gate_closed_by_action c_action c_direction a :
  cval_action c_action = Ok a -> a <> EXECUTE ->
  gate_open c_action c_direction = false.
Proof.
  destruct c_action; try discriminate. intros [= ->] Hne.
  unfold gate_open. simpl. rewrite bool_decide_eq_false_2; [reflexivity|].
  congruence.
Qed.



(** C3, as stated, fails: the weighted score of the scenario is 0.875,
    not 0.935. *)
Lemma C3_score_is_not_0935 :
  exists q, score_of (calculate_consensus scenario1) = Some q /\
            (q == 0.875)%Q /\ Qeq_bool q 0.935 = false.
Proof. eexists. split; [vm_compute; reflexivity|]. split; reflexivity. Qed.

(** C3 (amended): market Buy 0.9, sentiment Bullish 0.8, risk Approve 0.9
    give the weighted score 0.35*0.9 + 0.25*0.8 + 0.40*0.9 = 0.875, the
    action Execute and the direction buy. *)
Theorem C3_scenario1_consensus :
  exists q, score_of (calculate_consensus scenario1) = Some q /\
            (q == 0.35 * 0.9 + 0.25 * 0.8 + 0.40 * 0.9)%Q /\
            (q == 0.875)%Q /\
            action_of (calculate_consensus scenario1) = Some EXECUTE /\
            direction_of (calculate_consensus scenario1) = Some "buy".
Proof.
  eexists. split; [vm_compute; reflexivity|].
  repeat split; reflexivity.
Qed.



Lemma C5_witness :
  (forall decisions rm_decision,
     outcome (run_stages (H := RefRuntime.runtime) 0.0002 world_undirected
                "cmt_btcusdt") = Ok (decisions, rm_decision) ->
     direction_of (calculate_consensus decisions) = None) /\
  no_order (trace (run_team_analysis (H := RefRuntime.runtime) 0.0002
                     world_undirected "cmt_btcusdt")).
Proof.
  assert (Hdir : forall decisions rm_decision,
     outcome (run_stages (H := RefRuntime.runtime) 0.0002 world_undirected
                "cmt_btcusdt") = Ok (decisions, rm_decision) ->
     direction_of (calculate_consensus decisions) = None).
  { intros decisions rm Hs. vm_compute in Hs. injection Hs as <- <-.
    vm_compute. reflexivity. }
  split; [exact Hdir|].
  exact (C5_no_direction_no_order 0.0002 world_undirected "cmt_btcusdt" Hdir).
Defined.

(** ** The response parsing *)

Lemma parse_fails_default `{PyRuntime} default response :
  parse_fails response = true -> parse_response default response = default.
Proof.
  unfold parse_fails, parse_response.
  destruct (_ && _); [|reflexivity].
  destruct (json_loads _); [discriminate | reflexivity].
Qed.

Lemma py_min_self (x : Q) : py_min x x = x.
Proof.
  unfold py_min, Qltb.
  assert (Hle : Qle_bool x x = true) by (apply Qle_bool_iff; apply Qle_refl).
  rewrite Hle. reflexivity.
Qed.

Lemma py_min_le_right (a b : Q) : (py_min a b <= b)%Q.
Proof.
  unfold py_min, Qltb. destruct (Qle_bool a b) eqn:Hab; simpl.
  - apply Qle_bool_iff. exact Hab.
  - apply Qle_refl.
Qed.

Lemma py_min_left (a b : Q) : (a <= b)%Q -> py_min a b = a.
Proof.
  intros Hab. unfold py_min, Qltb.
  apply Qle_bool_iff in Hab. rewrite Hab. reflexivity.
Qed.

Lemma py_min_right (a b : Q) : (b < a)%Q -> py_min a b = b.
Proof.
  intros Hba. unfold py_min, Qltb.
  destruct (Qle_bool a b) eqn:Hab; [|reflexivity].
  apply Qle_bool_iff in Hab. exfalso. apply (Qlt_not_le _ _ Hba Hab).
Qed.

(** C2 (amended): when the parse step fails the three stages fall back to
    their defaults without raising; when a decision is returned at all, by
    the market, the sentiment or the risk stage, its confidence is float() of
    the parsed entry, with no clamp applied. *)
Theorem C2_fallback_on_parse_failure :
  forall `{PyRuntime} (max_position_size : Q) (ctx aux : pyval)
         (response : string),
    (parse_fails response = true ->
     MarketAnalystAgent.extract ctx aux response =
       Ok {| agent_name := "MarketAnalyst"; stage := "Technical Analysis";
             signal := NEUTRAL; confidence := 0.5;
             reasoning := PStr response;
             data := PDict [("input", ctx);
                            ("output", PDict [("indicators", aux)])] |} /\
     SentimentAgent.extract ctx aux response =
       Ok {| agent_name := "SentimentAgent"; stage := "Sentiment Analysis";
             signal := NEUTRAL; confidence := 0.5;
             reasoning := PStr response;
             data := PDict [("input", ctx);
                            ("output", PDict [("funding_rate", aux);
                                              ("sentiment", PStr "NEUTRAL")])] |} /\
     RiskManagerAgent.extract max_position_size ctx response =
       Ok {| agent_name := "RiskManager"; stage := "Risk Assessment";
             signal := APPROVE; confidence := 0.7;
             reasoning := PStr response;
             data := PDict [("input", ctx);
                            ("output",
                             PDict [("recommended_size", PNum max_position_size);
                                    ("risk_status", PStr "APPROVE")])] |}) /\
    (forall d,
       MarketAnalystAgent.extract ctx aux response = Ok d ->
       exists raw,
         py_get (parse_response (MarketAnalystAgent.fallback response) response)
                "confidence" (PNum 0.5) = Ok raw /\
         py_float raw = Ok (confidence d)) /\
    (forall d,
       SentimentAgent.extract ctx aux response = Ok d ->
       exists raw,
         py_get (parse_response (SentimentAgent.fallback response) response)
                "confidence" (PNum 0.5) = Ok raw /\
         py_float raw = Ok (confidence d)) /\
    (forall d,
       RiskManagerAgent.extract max_position_size ctx response = Ok d ->
       exists raw,
         py_get (parse_response
                   (RiskManagerAgent.fallback max_position_size response)
                   response)
                "confidence" (PNum 0.7) = Ok raw /\
         py_float raw = Ok (confidence d)).
Proof.
  intros rt max ctx aux response. split; [|split; [|split]].
  - intros Hfail.
    unfold MarketAnalystAgent.extract, SentimentAgent.extract,
      RiskManagerAgent.extract.
    rewrite !(parse_fails_default _ _ Hfail).
    split; [reflexivity|]. split; [reflexivity|].
    unfold RiskManagerAgent.fallback. simpl. rewrite py_min_self. reflexivity.
  - intros d Hd. unfold MarketAnalystAgent.extract in Hd.
    destruct (py_get _ "signal" _) as [raw_signal|]; [simpl in Hd | discriminate].
    destruct (py_upper raw_signal); [simpl in Hd | discriminate].
    destruct (py_get _ "confidence" _) as [raw|] eqn:Eraw;
      [simpl in Hd | discriminate].
    destruct (py_float raw) as [c|] eqn:Ec; [simpl in Hd | discriminate].
    destruct (py_get _ "reasoning" _); [simpl in Hd | discriminate].
    injection Hd as <-. exists raw. split; [reflexivity | exact Ec].
  - intros d Hd. unfold SentimentAgent.extract in Hd.
    destruct (py_get _ "signal" (PStr "NEUTRAL")) as [raw_signal|];
      [simpl in Hd | discriminate].
    destruct (py_upper raw_signal); [simpl in Hd | discriminate].
    destruct (py_get _ "confidence" _) as [raw|] eqn:Eraw;
      [simpl in Hd | discriminate].
    destruct (py_float raw) as [c|] eqn:Ec; [simpl in Hd | discriminate].
    destruct (py_get _ "reasoning" _); [simpl in Hd | discriminate].
    destruct (py_get _ "signal" PNone); [simpl in Hd | discriminate].
    injection Hd as <-. exists raw. split; [reflexivity | exact Ec].
  - intros d Hd. unfold RiskManagerAgent.extract in Hd.
    destruct (py_get _ "signal" (PStr "APPROVE")) as [raw_signal|];
      [simpl in Hd | discriminate].
    destruct (py_upper raw_signal); [simpl in Hd | discriminate].
    destruct (py_get _ "recommended_size" _) as [raw_size|];
      [simpl in Hd | discriminate].
    destruct (py_float raw_size); [simpl in Hd | discriminate].
    destruct (py_get _ "confidence" _) as [raw|] eqn:Eraw;
      [simpl in Hd | discriminate].
    destruct (py_float raw) as [c|] eqn:Ec; [simpl in Hd | discriminate].
    destruct (py_get _ "reasoning" _); [simpl in Hd | discriminate].
    destruct (py_get _ "signal" PNone); [simpl in Hd | discriminate].
    injection Hd as <-. exists raw. split; [reflexivity | exact Ec].
Qed.

(** C2, as stated, fails: a confidence of 5 in the reply is kept as 5 by
    each of the three stages, and a reply whose signal is a number makes the
    extraction raise. *)
Lemma C2_confidence_not_clamped :
  (exists d,
     MarketAnalystAgent.extract (H := RefRuntime.runtime) PNone PNone
       (reply "BUY" "5") = Ok d /\
     (confidence d == 5)%Q /\ Qle_bool (confidence d) 1 = false) /\
  (exists d,
     SentimentAgent.extract (H := RefRuntime.runtime) PNone PNone
       (reply "BULLISH" "5") = Ok d /\
     (confidence d == 5)%Q /\ Qle_bool (confidence d) 1 = false) /\
  (exists d,
     RiskManagerAgent.extract (H := RefRuntime.runtime) 0.0002 PNone
       (risk_reply "APPROVE" "5" "0.0001") = Ok d /\
     (confidence d == 5)%Q /\ Qle_bool (confidence d) 1 = false) /\
  MarketAnalystAgent.extract (H := RefRuntime.runtime) PNone PNone
    ("{" +:+ RefRuntime.q "signal" +:+ ": 5}") = Raise AttributeError.
Proof.
  split; [|split; [|split; [|vm_compute; reflexivity]]];
    (eexists; split; [vm_compute; reflexivity|]; split; reflexivity).
Qed.

Lemma C2_witness :
  parse_fails (H := RefRuntime.runtime) "no json here" = true /\
  MarketAnalystAgent.extract (H := RefRuntime.runtime) PNone PNone
    "no json here" =
    Ok {| agent_name := "MarketAnalyst"; stage := "Technical Analysis";
          signal := NEUTRAL; confidence := 0.5;
          reasoning := PStr "no json here";
          data := PDict [("input", PNone);
                         ("output", PDict [("indicators", PNone)])] |}.
Proof.
  split; [reflexivity|].
  exact (proj1 (proj1 (C2_fallback_on_parse_failure (H := RefRuntime.runtime)
                         0.0002 PNone PNone "no json here") eq_refl)).
Defined.

(** C7 (amended): the stored recommended_size is min(float(raw), max),
    where raw is the "recommended_size" entry of the parsed reply (the
    maximum when the entry is missing): it never exceeds max_position_size,
    and a value at or below the maximum, a negative one included, is stored
    unchanged. *)
Theorem C7_recommended_size_upper_bound :
  forall `{PyRuntime} (max_position_size : Q) (ctx : pyval) (response : string)
         (d : AgentDecision),
    RiskManagerAgent.extract max_position_size ctx response = Ok d ->
    exists raw_size raw,
      py_get (parse_response
                (RiskManagerAgent.fallback max_position_size response) response)
             "recommended_size" (PNum max_position_size) = Ok raw_size /\
      py_float raw_size = Ok raw /\
      recommended_size_of d = Some (PNum (py_min raw max_position_size)) /\
      (py_min raw max_position_size <= max_position_size)%Q /\
      ((raw <= max_position_size)%Q -> py_min raw max_position_size = raw) /\
      ((raw < 0)%Q -> (0 <= max_position_size)%Q ->
       py_min raw max_position_size = raw) /\
      ((max_position_size < raw)%Q ->
       py_min raw max_position_size = max_position_size).
Proof.
  intros rt max ctx response d Hd. unfold RiskManagerAgent.extract in Hd.
  destruct (py_get _ "signal" (PStr "APPROVE")) as [raw_signal|];
    [simpl in Hd | discriminate].
  destruct (py_upper raw_signal); [simpl in Hd | discriminate].
  destruct (py_get _ "recommended_size" _) as [raw_size|] eqn:Esize;
    [simpl in Hd | discriminate].
  destruct (py_float raw_size) as [raw|] eqn:Eraw; [simpl in Hd | discriminate].
  destruct (py_get _ "confidence" _) as [raw_conf|]; [simpl in Hd | discriminate].
  destruct (py_float raw_conf); [simpl in Hd | discriminate].
  destruct (py_get _ "reasoning" _); [simpl in Hd | discriminate].
  destruct (py_get _ "signal" PNone); [simpl in Hd | discriminate].
  injection Hd as <-. exists raw_size, raw.
  split; [reflexivity|]. split; [exact Eraw|]. split; [reflexivity|].
  split; [apply py_min_le_right|].
  split; [apply py_min_left|].
  split; [|apply py_min_right].
  intros Hneg Hmax. apply py_min_left.
  apply Qle_trans with 0%Q; [apply Qlt_le_weak, Hneg | exact Hmax].
Qed.

(** C7, as stated, fails: a recommended_size of -1 in the reply is stored
    as -1, below 0. *)
Lemma C7_negative_size_is_kept :
  exists d stored,
    RiskManagerAgent.extract (H := RefRuntime.runtime) 0.0002 PNone
      (risk_reply "APPROVE" "0.9" "-1") = Ok d /\
    recommended_size_of d = Some (PNum stored) /\
    (stored == -1)%Q /\ (stored < 0)%Q.
Proof.
  eexists. eexists. split; [vm_compute; reflexivity|].
  split; [reflexivity|]. split; reflexivity.
Qed.

Lemma C7_witness :
  exists d,
    RiskManagerAgent.extract (H := RefRuntime.runtime) 0.0002 PNone
      (risk_reply "APPROVE" "0.9" "0.5") = Ok d /\
    exists raw_size raw,
      py_get (parse_response (H := RefRuntime.runtime)
                (RiskManagerAgent.fallback 0.0002
                   (risk_reply "APPROVE" "0.9" "0.5"))
                (risk_reply "APPROVE" "0.9" "0.5"))
             "recommended_size" (PNum 0.0002) = Ok raw_size /\
      py_float (H := RefRuntime.runtime) raw_size = Ok raw /\
      recommended_size_of d = Some (PNum (py_min raw 0.0002)) /\
      (py_min raw 0.0002 <= 0.0002)%Q /\
      ((raw <= 0.0002)%Q -> py_min raw 0.0002 = raw) /\
      ((raw < 0)%Q -> (0 <= 0.0002)%Q -> py_min raw 0.0002 = raw) /\
      ((0.0002 < raw)%Q -> py_min raw 0.0002 = 0.0002%Q).
Proof.
  eexists. split; [vm_compute; reflexivity|].
  refine (C7_recommended_size_upper_bound (H := RefRuntime.runtime) 0.0002
            PNone (risk_reply "APPROVE" "0.9" "0.5") _ _).
  vm_compute. reflexivity.
Defined.

(** ** The executor *)

Lemma bind_emit_ok {A B} (c : call) (a : A) (f : A -> M B) :
  emit c (Ok a) ≫= f = ((c :: trace (f a)), outcome (f a)).
Proof. unfold emit. rewrite bind_pair_ok. reflexivity. Qed.

(* The trading branch of ExecutorAgent.analyze, when the ticker read and
   the order call both answer. *)
Lemma analyze_trading `{PyRuntime} w context lowered side_key ticker
    last_price price items :
  py_lower (ctx_get context "action" (PStr "hold")) = Ok lowered ->
  lowered ∈ ["execute"; "buy"; "sell"] ->
  py_lower (ctx_get context "trade_direction" (PStr "buy")) = Ok side_key ->
  ticker_response w = Ok ticker ->
  py_get ticker "last" (PNum 0) = Ok last_price ->
  py_float last_price = Ok price ->
  place_order_response w = Ok (PDict items) ->
  let trade_action := ctx_get context "trade_direction" (PStr "buy") in
  let symbol := ctx_get context "symbol" (PStr "cmt_btcusdt") in
  let size := ctx_get context "size" (PStr "0.0002") in
  let result :=
    PDict [("success", PBool (negb (py_is_none (order_id_in items))));
           ("order_id", order_id_in items);
           ("symbol", symbol);
           ("action", trade_action);
           ("size", size);
           ("fill_price", PNum price);
           ("reasoning", ctx_get context "reasoning" (PStr ""))] in
  ExecutorAgent.analyze w context =
    ([GetTicker;
      PlaceOrder symbol size (default 1%Z (ExecutorAgent.side_map !! side_key))
                 1 (clock_ms w)],
     Ok {| agent_name := "Executor";
           stage := "Order Execution";
           signal := if py_eq_str trade_action "buy" then BUY else SELL;
           confidence := if py_is_none (order_id_in items) then 0 else 1;
           reasoning := PStr ("Executed " +:+ py_str trade_action
                              +:+ " order: " +:+ py_str result);
           data := PDict [("input", PDict context); ("output", result)] |}).
Proof.
  intros Hlower Hin Hside Hticker Hlast Hprice Horder.
  unfold ExecutorAgent.analyze. rewrite Hlower, bind_lift_ok.
  rewrite bool_decide_eq_true_2 by exact Hin.
  unfold ExecutorAgent.execute_trade.
  rewrite Hside, bind_lift_ok, Hticker.
  rewrite !bind_emit_ok.
  rewrite Hlast, bind_lift_ok, Hprice, bind_lift_ok, Horder.
  unfold order_id_in. simpl.
  destruct (assoc_get "order_id" items) as [[]|]; reflexivity.
Qed.

Lemma side_map_lookup (k : string) :
  default 1%Z (ExecutorAgent.side_map !! k)
  = if String.eqb k "sell" then 3%Z else 1%Z.
Proof.
  unfold ExecutorAgent.side_map.
  destruct (String.eqb_spec k "sell") as [->|Hs]; [reflexivity|].
  destruct (String.eqb_spec k "buy") as [->|Hb]; [reflexivity|].
  rewrite lookup_insert_ne by congruence.
  rewrite lookup_insert_ne by congruence.
  reflexivity.
Qed.

(** C6 (amended): once the execution step is entered and the ticker read and
    the order call answer, the executor returns a decision whose signal is
    Buy or Sell per the trade direction; its confidence is 0.0 exactly when
    the order response carries no order_id (missing or null), and 1.0 for
    any other id, the empty string included. *)
Theorem C6_success_is_order_id_not_none :
  forall `{PyRuntime} (w : World) (context : list (string * pyval))
         (lowered side_key : string) (ticker last_price : pyval) (price : Q)
         (items : list (string * pyval)),
    py_lower (ctx_get context "action" (PStr "hold")) = Ok lowered ->
    lowered ∈ ["execute"; "buy"; "sell"] ->
    py_lower (ctx_get context "trade_direction" (PStr "buy")) = Ok side_key ->
    ticker_response w = Ok ticker ->
    py_get ticker "last" (PNum 0) = Ok last_price ->
    py_float last_price = Ok price ->
    place_order_response w = Ok (PDict items) ->
    exists d,
      outcome (ExecutorAgent.analyze w context) = Ok d /\
      signal d = (if py_eq_str (ctx_get context "trade_direction" (PStr "buy"))
                               "buy" then BUY else SELL) /\
      order_id_of d = Some (order_id_in items) /\
      (order_id_in items = PNone -> confidence d = 0%Q) /\
      (order_id_in items <> PNone -> confidence d = 1%Q).
Proof.
  intros rt w context lowered side_key ticker last_price price items
    H1 H2 H3 H4 H5 H6 H7.
  rewrite (analyze_trading w context lowered side_key ticker last_price price
             items H1 H2 H3 H4 H5 H6 H7).
  eexists. split; [reflexivity|]. simpl.
  split; [reflexivity|]. split; [reflexivity|].
  split; intros Hid.
  - rewrite Hid. reflexivity.
  - destruct (order_id_in items); try reflexivity. contradiction.
Qed.

(** C6, as stated, fails: an order response whose id is the empty string
    counts as a success, with confidence 1.0. *)
Lemma C6_empty_order_id_is_success :
  exists d,
    outcome (ExecutorAgent.analyze (H := RefRuntime.runtime)
               (world_order (PDict [("order_id", PStr "")]))
               (execute_context (PStr "buy"))) = Ok d /\
    order_id_of d = Some (PStr "") /\
    confidence d = 1%Q.
Proof. eexists. split; [vm_compute; reflexivity|]. split; reflexivity. Qed.

Lemma C6_witness :
  exists d,
    outcome (ExecutorAgent.analyze (H := RefRuntime.runtime)
               (world_order (PDict [("code", PStr "40015")]))
               (execute_context (PStr "sell"))) = Ok d /\
    signal d = SELL /\
    order_id_of d = Some PNone /\
    confidence d = 0%Q.
Proof.
  destruct (C6_success_is_order_id_not_none (H := RefRuntime.runtime)
              (world_order (PDict [("code", PStr "40015")]))
              (execute_context (PStr "sell")) "execute" "sell"
              (PDict [("last", PStr "50000.5")]) (PStr "50000.5") (100001 # 2)
              [("code", PStr "40015")]
              eq_refl ltac:(repeat constructor) eq_refl eq_refl eq_refl
              eq_refl eq_refl)
    as (d & Hd & Hsig & Hid & Hnone & _).
  exists d. split; [exact Hd|]. split; [exact Hsig|]. split; [exact Hid|].
  apply Hnone. reflexivity.
Defined.

(** C10 (amended): in the trading branch an order is always placed.  With
    no trade_direction the side is 1 and the signal Buy.  With a direction
    string other than "buy" and "sell" the recorded signal is Sell, and the
    side is 3 when the string lower-cases to "sell" and 1 otherwise. *)
Theorem C10_unrecognised_direction :
  forall `{PyRuntime} (w : World) (context : list (string * pyval))
         (lowered side_key : string) (ticker last_price : pyval) (price : Q)
         (items : list (string * pyval)),
    py_lower (ctx_get context "action" (PStr "hold")) = Ok lowered ->
    lowered ∈ ["execute"; "buy"; "sell"] ->
    py_lower (ctx_get context "trade_direction" (PStr "buy")) = Ok side_key ->
    ticker_response w = Ok ticker ->
    py_get ticker "last" (PNum 0) = Ok last_price ->
    py_float last_price = Ok price ->
    place_order_response w = Ok (PDict items) ->
    exists d side,
      ExecutorAgent.analyze w context =
        ([GetTicker;
          PlaceOrder (ctx_get context "symbol" (PStr "cmt_btcusdt"))
                     (ctx_get context "size" (PStr "0.0002"))
                     side 1 (clock_ms w)], Ok d) /\
      (assoc_get "trade_direction" context = None ->
       side = 1%Z /\ signal d = BUY) /\
      (forall s, assoc_get "trade_direction" context = Some (PStr s) ->
                 s <> "buy" -> s <> "sell" ->
                 signal d = SELL /\
                 side = if String.eqb (str_lower s) "sell" then 3%Z else 1%Z).
Proof.
  intros rt w context lowered side_key ticker last_price price items
    H1 H2 H3 H4 H5 H6 H7.
  rewrite (analyze_trading w context lowered side_key ticker last_price price
             items H1 H2 H3 H4 H5 H6 H7).
  eexists. eexists. split; [reflexivity|]. simpl.
  unfold ctx_get in *. split.
  - intros Habsent. rewrite Habsent in *. simpl in H3.
    injection H3 as <-. split; reflexivity.
  - intros s Hs Hb _. rewrite Hs in *. simpl in H3. injection H3 as <-.
    simpl. destruct (String.eqb_spec s "buy"); [contradiction|].
    split; [reflexivity | apply side_map_lookup].
Qed.

(** C10, as stated, fails: with the direction "none" the order is a long
    (side 1) while the recorded signal is Sell, not Buy. *)
Lemma C10_direction_none_records_sell :
  exists d,
    ExecutorAgent.analyze (H := RefRuntime.runtime)
      (world_order (PDict [("order_id", PStr "12345")]))
      (execute_context (PStr "none")) =
      ([GetTicker;
        PlaceOrder (PStr "cmt_btcusdt") (PStr "0.0002") 1 1 1700000000000],
       Ok d) /\
    signal d = SELL.
Proof. eexists. split; [vm_compute; reflexivity | reflexivity]. Qed.

Lemma C10_witness :
  exists d side,
    ExecutorAgent.analyze (H := RefRuntime.runtime)
      (world_order (PDict [("order_id", PStr "12345")]))
      [("action", PStr "BUY")] =
      ([GetTicker;
        PlaceOrder (PStr "cmt_btcusdt") (PStr "0.0002") side 1 1700000000000],
       Ok d) /\
    side = 1%Z /\ signal d = BUY.
Proof.
  destruct (C10_unrecognised_direction (H := RefRuntime.runtime)
              (world_order (PDict [("order_id", PStr "12345")]))
              [("action", PStr "BUY")] "buy" "buy"
              (PDict [("last", PStr "50000.5")]) (PStr "50000.5") (100001 # 2)
              [("order_id", PStr "12345")]
              eq_refl ltac:(repeat constructor) eq_refl eq_refl eq_refl
              eq_refl eq_refl)
    as (d & side & Hrun & Habsent & _).
  exists d, side. split; [exact Hrun|]. apply Habsent. reflexivity.
Defined.

(** ** Rounding and the indicators *)

Lemma round_half_even_bounds (lo hi : Z) (x : Q) :
  (inject_Z lo <= x)%Q -> (x <= inject_Z hi)%Q ->
  (lo <= round_half_even x <= hi)%Z.
Proof.
  intros Hlo Hhi. unfold round_half_even.
  assert (Hfl : (lo <= Qfloor x)%Z).
  { rewrite <- (Qfloor_Z lo). apply Qfloor_resp_le. exact Hlo. }
  assert (Hfh : (Qfloor x <= hi)%Z).
  { rewrite <- (Qfloor_Z hi). apply Qfloor_resp_le. exact Hhi. }
  assert (Hup : (inject_Z (Qfloor x) < x)%Q -> (Qfloor x + 1 <= hi)%Z).
  { intros Hlt. assert (Hq : (inject_Z (Qfloor x) < inject_Z hi)%Q)
      by (eapply Qlt_le_trans; eassumption).
    rewrite <- Zlt_Qlt in Hq. lia. }
  destruct (x - inject_Z (Qfloor x) ?= 1 # 2)%Q eqn:Hc.
  - apply Qeq_alt in Hc. destruct (Z.even (Qfloor x)); [lia|].
    split; [lia|]. apply Hup. lra.
  - lia.
  - apply Qgt_alt in Hc. split; [lia|]. apply Hup. lra.
Qed.

Lemma py_round2_bounds (x : Q) :
  (0 <= x)%Q -> (x <= 100)%Q -> (0 <= py_round2 x)%Q /\ (py_round2 x <= 100)%Q.
Proof.
  intros H0 H100. unfold py_round2.
  destruct (round_half_even_bounds 0 10000 (x * 100)) as [Hl Hh].
  - change (inject_Z 0) with 0%Q. lra.
  - change (inject_Z 10000) with 10000%Q. lra.
  - rewrite Zle_Qle in Hl, Hh.
    change (inject_Z 0) with 0%Q in Hl.
    change (inject_Z 10000) with 10000%Q in Hh.
    split.
    + apply Qle_shift_div_l; [reflexivity | lra].
    + apply Qle_shift_div_r; [reflexivity | lra].
Qed.

Lemma Qsum_nonneg (l : list Q) :
  Forall (fun x => (0 <= x)%Q) l -> (0 <= Qsum l)%Q.
Proof.
  induction 1 as [|x l Hx _ IH]; simpl.
  - apply Qle_refl.
  - change 0%Q with (0 + 0)%Q. apply Qplus_le_compat; assumption.
Qed.

Lemma np_mean_nonneg (l : list Q) :
  Forall (fun x => (0 <= x)%Q) l -> (0 <= np_mean l)%Q.
Proof.
  intros Hl. unfold np_mean.
  destruct l as [|x l'] eqn:El.
  - vm_compute. discriminate.
  - rewrite <- El in *. apply Qle_shift_div_l.
    + change 0%Q with (inject_Z 0). rewrite <- Zlt_Qlt. subst l. simpl. lia.
    + rewrite Qmult_0_l. apply Qsum_nonneg. exact Hl.
Qed.

Lemma np_gains_nonneg (deltas : list Q) :
  Forall (fun x => (0 <= x)%Q) (np_gains deltas).
Proof.
  unfold np_gains. induction deltas as [|d rest IH]; simpl; constructor;
    [|exact IH].
  unfold Qltb. destruct (Qle_bool d 0) eqn:Hd; simpl.
  - apply Qle_refl.
  - destruct (Qlt_le_dec 0 d) as [Hlt|Hle]; [apply Qlt_le_weak, Hlt|].
    apply Qle_bool_iff in Hle. congruence.
Qed.

Lemma np_losses_nonneg (deltas : list Q) :
  Forall (fun x => (0 <= x)%Q) (np_losses deltas).
Proof.
  unfold np_losses. induction deltas as [|d rest IH]; simpl; constructor;
    [|exact IH].
  unfold Qltb. destruct (Qle_bool 0 d) eqn:Hd; simpl.
  - apply Qle_refl.
  - destruct (Qlt_le_dec d 0) as [Hlt|Hle]; [lra|].
    apply Qle_bool_iff in Hle. congruence.
Qed.

Lemma last_n_Forall {A} (P : A -> Prop) n (l : list A) :
  Forall P l -> Forall P (last_n n l).
Proof.
  intros Hl. unfold last_n. destruct n; [exact Hl|].
  apply Forall_drop. exact Hl.
Qed.

(* 100 - 100/(1 + g/l) for a gain g >= 0 and a loss l > 0 *)
Lemma rsi_formula_bounds (g l : Q) :
  (0 <= g)%Q -> (0 < l)%Q ->
  (0 <= 100 - 100 / (1 + g / l))%Q /\ (100 - 100 / (1 + g / l) <= 100)%Q.
Proof.
  intros Hg Hl.
  assert (Hrs : (0 <= g / l)%Q).
  { apply Qle_shift_div_l; [exact Hl | lra]. }
  assert (Hpos : (0 < 1 + g / l)%Q) by lra.
  assert (Hq1 : (100 / (1 + g / l) <= 100)%Q).
  { apply Qle_shift_div_r; [exact Hpos | lra]. }
  assert (Hq0 : (0 <= 100 / (1 + g / l))%Q).
  { apply Qle_shift_div_l; [exact Hpos | lra]. }
  split; lra.
Qed.

Lemma Qeq_bool_false_pos (x : Q) :
  (0 <= x)%Q -> Qeq_bool x 0 = false -> (0 < x)%Q.
Proof.
  intros Hx Hne. destruct (Qlt_le_dec 0 x) as [Hlt|Hle]; [exact Hlt|].
  assert (Heq : (x == 0)%Q) by lra.
  apply Qeq_bool_iff in Heq. congruence.
Qed.

Lemma calculate_rsi_range (prices : list Q) :
  (0 <= TechnicalAnalysis.calculate_rsi prices 14)%Q /\
  (TechnicalAnalysis.calculate_rsi prices 14 <= 100)%Q.
Proof.
  unfold TechnicalAnalysis.calculate_rsi.
  destruct (length prices <? 14 + 1)%nat; [split; discriminate|].
  set (g := np_mean (last_n 14 (np_gains (np_diff prices)))).
  set (l := np_mean (last_n 14 (np_losses (np_diff prices)))).
  destruct (Qeq_bool l 0) eqn:Hl; [split; discriminate|].
  assert (Hg0 : (0 <= g)%Q)
    by apply np_mean_nonneg, last_n_Forall, np_gains_nonneg.
  assert (Hl0 : (0 <= l)%Q)
    by apply np_mean_nonneg, last_n_Forall, np_losses_nonneg.
  destruct (rsi_formula_bounds g l Hg0 (Qeq_bool_false_pos l Hl0 Hl)).
  apply py_round2_bounds; assumption.
Qed.

Lemma rsi_of_closes_cases (closes : list Q) :
  let deltas := np_diff closes in
  ((length deltas < 14)%nat ->
   (MarketAnalystAgent.rsi_of_closes closes == 0)%Q) /\
  ((14 <= length deltas)%nat ->
   (np_mean (last_n 14 (np_losses deltas)) == 0)%Q ->
   (MarketAnalystAgent.rsi_of_closes closes == 100 - 100 / 101)%Q) /\
  (0 <= MarketAnalystAgent.rsi_of_closes closes)%Q /\
  (MarketAnalystAgent.rsi_of_closes closes <= 100)%Q.
Proof.
  intros deltas. unfold MarketAnalystAgent.rsi_of_closes. fold deltas.
  unfold np_gains, np_losses. rewrite !length_map.
  fold (np_gains deltas) (np_losses deltas).
  destruct (14 <=? length deltas)%nat eqn:Hlen.
  - apply Nat.leb_le in Hlen.
    set (g := np_mean (last_n 14 (np_gains deltas))).
    set (l := np_mean (last_n 14 (np_losses deltas))).
    assert (Hg0 : (0 <= g)%Q)
      by apply np_mean_nonneg, last_n_Forall, np_gains_nonneg.
    assert (Hl0 : (0 <= l)%Q)
      by apply np_mean_nonneg, last_n_Forall, np_losses_nonneg.
    split; [intros; lia|].
    unfold Qltb. destruct (Qle_bool l 0) eqn:Hl; simpl.
    + split; [intros _ _; reflexivity|]. split; discriminate.
    + assert (Hpos : (0 < l)%Q).
      { destruct (Qlt_le_dec 0 l) as [?|Hle]; [assumption|].
        apply Qle_bool_iff in Hle. congruence. }
      split; [intros _ Hz; lra|].
      apply rsi_formula_bounds; assumption.
  - apply Nat.leb_gt in Hlen.
    split; [intros _; reflexivity|].
    split; [intros; lia|]. split; discriminate.
Qed.

Lemma calculate_indicators_rsi `{PyRuntime} (candles : list pyval) items :
  (20 <= length candles)%nat ->
  MarketAnalystAgent.calculate_indicators candles = Ok items ->
  exists closes,
    MarketAnalystAgent.closes_of candles = Ok closes /\
    assoc_get "rsi_14" items
      = Some (PNum (py_round2 (MarketAnalystAgent.rsi_of_closes closes))).
Proof.
  intros Hlen Hok. unfold MarketAnalystAgent.calculate_indicators in Hok.
  apply Nat.ltb_ge in Hlen. rewrite Hlen in Hok.
  destruct (MarketAnalystAgent.closes_of candles) as [closes|];
    [simpl in Hok | discriminate].
  destruct (MarketAnalystAgent.ema closes 20); [simpl in Hok | discriminate].
  destruct (if (50 <=? length closes)%nat then _ else _);
    [simpl in Hok | discriminate].
  destruct (MarketAnalystAgent.macd_of_closes closes);
    [simpl in Hok | discriminate].
  injection Hok as <-. exists closes. split; reflexivity.
Qed.

(** C9 (amended): TechnicalAnalysis.calculate_rsi returns a value in
    [0, 100], 50 for fewer than 15 prices and 100 when the mean loss over the
    last 14 deltas is 0.  The RSI that MarketAnalystAgent.calculate_indicators
    reports is in [0, 100] as well, but it is 100 - 100/101 when that mean
    loss is 0, and 0 when fewer than 14 deltas are available. *)
Theorem C9_rsi_of_both_engines :
  (forall prices : list Q,
     (0 <= TechnicalAnalysis.calculate_rsi prices 14)%Q /\
     (TechnicalAnalysis.calculate_rsi prices 14 <= 100)%Q) /\
  (forall prices : list Q,
     (length prices < 15)%nat ->
     TechnicalAnalysis.calculate_rsi prices 14 = 50%Q) /\
  (forall prices : list Q,
     (15 <= length prices)%nat ->
     (np_mean (last_n 14 (np_losses (np_diff prices))) == 0)%Q ->
     TechnicalAnalysis.calculate_rsi prices 14 = 100%Q) /\
  (forall closes : list Q,
     (0 <= py_round2 (MarketAnalystAgent.rsi_of_closes closes))%Q /\
     (py_round2 (MarketAnalystAgent.rsi_of_closes closes) <= 100)%Q) /\
  (forall closes : list Q,
     (14 <= length (np_diff closes))%nat ->
     (np_mean (last_n 14 (np_losses (np_diff closes))) == 0)%Q ->
     (MarketAnalystAgent.rsi_of_closes closes == 100 - 100 / 101)%Q) /\
  (forall closes : list Q,
     (length (np_diff closes) < 14)%nat ->
     (MarketAnalystAgent.rsi_of_closes closes == 0)%Q) /\
  (forall `{PyRuntime} (candles : list pyval) items,
     (20 <= length candles)%nat ->
     MarketAnalystAgent.calculate_indicators candles = Ok items ->
     exists closes,
       MarketAnalystAgent.closes_of candles = Ok closes /\
       assoc_get "rsi_14" items
         = Some (PNum (py_round2 (MarketAnalystAgent.rsi_of_closes closes)))).
Proof.
  split; [exact calculate_rsi_range|].
  split.
  { intros prices Hlen. unfold TechnicalAnalysis.calculate_rsi.
    replace (length prices <? 14 + 1)%nat with true; [reflexivity|].
    symmetry. apply Nat.ltb_lt. lia. }
  split.
  { intros prices Hlen Hloss. unfold TechnicalAnalysis.calculate_rsi.
    replace (length prices <? 14 + 1)%nat with false
      by (symmetry; apply Nat.ltb_ge; lia).
    apply Qeq_bool_iff in Hloss. rewrite Hloss. reflexivity. }
  split.
  { intros closes.
    destruct (rsi_of_closes_cases closes) as (_ & _ & H0 & H100).
    apply py_round2_bounds; assumption. }
  split.
  { intros closes. apply (rsi_of_closes_cases closes). }
  split.
  { intros closes. apply (rsi_of_closes_cases closes). }
  intros rt candles items. apply calculate_indicators_rsi.
Qed.

(** C9, as stated, fails for the RSI of the market analyst: on twenty
    rising closes the mean loss is 0 and the reported RSI is 99.01. *)
Lemma C9_market_rsi_is_not_100 :
  (np_mean (last_n 14 (np_losses (np_diff rising_closes))) == 0)%Q /\
  (py_round2 (MarketAnalystAgent.rsi_of_closes rising_closes) == 99.01)%Q /\
  Qeq_bool (py_round2 (MarketAnalystAgent.rsi_of_closes rising_closes)) 100
    = false /\
  TechnicalAnalysis.calculate_rsi rising_closes 14 = 100%Q.
Proof. repeat split; vm_compute; reflexivity. Qed.

Lemma C9_witness :
  (length [1%Q; 2%Q; 3%Q] < 15)%nat /\
  TechnicalAnalysis.calculate_rsi [1%Q; 2%Q; 3%Q] 14 = 50%Q.
Proof.
  split; [simpl; lia|].
  apply (proj1 (proj2 C9_rsi_of_both_engines)). simpl. lia.
Defined.

(** C8 at a failing input: on nine prices of 100 the MACD line and every
    earlier MACD value are 0, so the signal line the claim describes is 0;
    calculate_macd takes the EMA(9) of the last nine prices instead and
    returns the signal 100 and the histogram -100. *)
Theorem C8_signal_line_uses_prices :
  exists m s,
    TechnicalAnalysis.calculate_macd flat_prices = Ok m /\
    (TechnicalAnalysis.macd m == 0)%Q /\
    (TechnicalAnalysis.signal m == 100)%Q /\
    (TechnicalAnalysis.histogram m == -100)%Q /\
    spec_signal_line flat_prices = Ok s /\
    (s == 0)%Q.
Proof.
  eexists. eexists. split; [vm_compute; reflexivity|].
  split; [reflexivity|]. split; [reflexivity|]. split; [reflexivity|].
  split; [vm_compute; reflexivity | reflexivity].
Qed.

(** ** The consensus of the three stages *)

Lemma consensus_step_known (t : Q) (v : Votes) (name : string)
    (d : AgentDecision) (w : Q) :
  weights !! name = Some w ->
  consensus_step (t, v) (name, d) =
    if votes_buy (signal d) then
      ((t + confidence d * w)%Q,
       {| buy := (buy v + w)%Q; sell := sell v; hold := hold v |})
    else if votes_sell (signal d) then
      ((t + confidence d * w)%Q,
       {| buy := buy v; sell := (sell v + w)%Q; hold := hold v |})
    else (t, {| buy := buy v; sell := sell v; hold := (hold v + w)%Q |}).
Proof. intros Hw. unfold consensus_step. rewrite Hw. reflexivity. Qed.

Lemma consensus_step_unknown (acc : Q * Votes) (name : string)
    (d : AgentDecision) :
  weights !! name = None -> consensus_step acc (name, d) = acc.
Proof. intros Hw. unfold consensus_step. destruct acc. rewrite Hw. reflexivity. Qed.

Lemma team_no_veto (m s r : AgentDecision) :
  signal r <> REJECT -> risk_veto (team m s r) = false.
Proof.
  intros Hr. unfold risk_veto, team. simpl.
  apply bool_decide_eq_false_2. exact Hr.
Qed.

Lemma team_score (m s r : AgentDecision) :
  signal r <> REJECT ->
  exists q,
    score_of (calculate_consensus (team m s r)) = Some q /\
    (q == contribution 0.35 m + contribution 0.25 s + contribution 0.40 r)%Q.
Proof.
  intros Hr. unfold calculate_consensus. rewrite (team_no_veto m s r Hr).
  unfold team, fold_left.
  rewrite (consensus_step_known _ _ "MarketAnalyst" m 0.35 eq_refl).
  unfold contribution.
  destruct (votes_buy (signal m)), (votes_sell (signal m));
    rewrite (consensus_step_known _ _ "SentimentAgent" s 0.25 eq_refl);
    destruct (votes_buy (signal s)), (votes_sell (signal s));
    rewrite (consensus_step_known _ _ "RiskManager" r 0.40 eq_refl);
    destruct (votes_buy (signal r)), (votes_sell (signal r));
    (eexists; split; [reflexivity | simpl; ring]).
Qed.




Lemma contribution_monotone (w : Q) (d : AgentDecision) (c c' : Q) :
  (0 <= w)%Q -> (c <= c')%Q ->
  (contribution w (with_confidence d c)
   <= contribution w (with_confidence d c'))%Q.
Proof.
  intros Hw Hc. unfold contribution, with_confidence. simpl.
  destruct (_ || _); [|apply Qle_refl].
  apply Qmult_le_compat_r; assumption.
Qed.

(** X2: holding the signals fixed, the weighted score does not decrease
    when the confidences of the stages grow. *)
Theorem team_score_monotone :
  forall (m s r : AgentDecision) (cm cm' cs cs' cr cr' : Q),
    signal r <> REJECT ->
    (cm <= cm')%Q -> (cs <= cs')%Q -> (cr <= cr')%Q ->
    exists q q',
      score_of (calculate_consensus
                  (team (with_confidence m cm) (with_confidence s cs)
                        (with_confidence r cr))) = Some q /\
      score_of (calculate_consensus
                  (team (with_confidence m cm') (with_confidence s cs')
                        (with_confidence r cr'))) = Some q' /\
      (q <= q')%Q.
Proof.
  intros m s r cm cm' cs cs' cr cr' Hr Hm Hs Hc.
  destruct (team_score (with_confidence m cm) (with_confidence s cs)
              (with_confidence r cr) Hr) as (q & Hq & Hsum).
  destruct (team_score (with_confidence m cm') (with_confidence s cs')
              (with_confidence r cr') Hr) as (q' & Hq' & Hsum').
  exists q, q'. split; [exact Hq|]. split; [exact Hq'|].
  rewrite Hsum, Hsum'.
  pose proof (contribution_monotone 0.35 m cm cm' ltac:(discriminate) Hm).
  pose proof (contribution_monotone 0.25 s cs cs' ltac:(discriminate) Hs).
  pose proof (contribution_monotone 0.40 r cr cr' ltac:(discriminate) Hc).
  lra.
Qed.

Lemma team_score_monotone_witness :
  exists q q',
    score_of (calculate_consensus
                (team (with_confidence (sample_decision "MarketAnalyst" BUY 0) 0.2)
                      (with_confidence (sample_decision "SentimentAgent" BEARISH 0) 0.3)
                      (with_confidence (sample_decision "RiskManager" APPROVE 0) 0.4)))
      = Some q /\
    score_of (calculate_consensus
                (team (with_confidence (sample_decision "MarketAnalyst" BUY 0) 0.9)
                      (with_confidence (sample_decision "SentimentAgent" BEARISH 0) 0.3)
                      (with_confidence (sample_decision "RiskManager" APPROVE 0) 0.4)))
      = Some q' /\
    (q <= q')%Q.
Proof.
  apply (team_score_monotone (sample_decision "MarketAnalyst" BUY 0)
           (sample_decision "SentimentAgent" BEARISH 0)
           (sample_decision "RiskManager" APPROVE 0) 0.2 0.9 0.3 0.3 0.4 0.4);
    discriminate.
Defined.

Lemma votes_exclusive (s : Signal) :
  votes_buy s = true -> votes_sell s = false.
Proof. destruct s; vm_compute; congruence. Qed.

Lemma Qle_bool_false_lt (a b : Q) : Qle_bool a b = false -> (b < a)%Q.
Proof.
  intros H. destruct (Qlt_le_dec b a) as [?|Hle]; [assumption|].
  apply Qle_bool_iff in Hle. congruence.
Qed.

Lemma team_direction_facts :
  forall m s r : AgentDecision,
    signal r <> REJECT ->
    (direction_of (calculate_consensus (team m s r)) = None <->
     (votes_buy (signal m) || votes_sell (signal m)
      || (votes_buy (signal s) || votes_sell (signal s))
      || (votes_buy (signal r) || votes_sell (signal r))) = false) /\
    (forall a, action_of (calculate_consensus (team m s r)) = Some a ->
               a <> HOLD_ACTION ->
               direction_of (calculate_consensus (team m s r)) <> None).
Proof.
  intros m s r Hr. unfold calculate_consensus.
  rewrite (team_no_veto m s r Hr). unfold team, fold_left.
  rewrite (consensus_step_known _ _ "MarketAnalyst" m 0.35 eq_refl).
  destruct (votes_buy (signal m)) eqn:Hmb;
    [rewrite (votes_exclusive _ Hmb) | destruct (votes_sell (signal m))];
    rewrite (consensus_step_known _ _ "SentimentAgent" s 0.25 eq_refl);
    (destruct (votes_buy (signal s)) eqn:Hsb;
     [rewrite (votes_exclusive _ Hsb) | destruct (votes_sell (signal s))]);
    rewrite (consensus_step_known _ _ "RiskManager" r 0.40 eq_refl);
    (destruct (votes_buy (signal r)) eqn:Hrb;
     [rewrite (votes_exclusive _ Hrb) | destruct (votes_sell (signal r))]);
    (split; [split; intros Hx; first [reflexivity | discriminate Hx]
            | intros a Ha Hne; first [discriminate | idtac]]).
  vm_compute in Ha. congruence.
Qed.

(** X3: with the three stages present and no veto, the consensus has no
    direction exactly when no stage votes for a side; hence an action of
    Execute or Alert always comes with the direction buy or sell. *)
Theorem team_direction_none_iff_no_vote :
  forall m s r : AgentDecision,
    signal r <> REJECT ->
    (direction_of (calculate_consensus (team m s r)) = None <->
     (votes_buy (signal m) || votes_sell (signal m)
      || (votes_buy (signal s) || votes_sell (signal s))
      || (votes_buy (signal r) || votes_sell (signal r))) = false) /\
    (forall a, action_of (calculate_consensus (team m s r)) = Some a ->
               a <> HOLD_ACTION ->
               direction_of (calculate_consensus (team m s r)) <> None).
Proof. exact team_direction_facts. Qed.

Lemma team_direction_none_iff_no_vote_witness :
  direction_of (calculate_consensus
                  (team (sample_decision "MarketAnalyst" NEUTRAL 0.9)
                        (sample_decision "SentimentAgent" NEUTRAL 0.9)
                        (sample_decision "RiskManager" REDUCE 0.9))) = None.
Proof.
  apply (proj1 (team_direction_none_iff_no_vote
                  (sample_decision "MarketAnalyst" NEUTRAL 0.9)
                  (sample_decision "SentimentAgent" NEUTRAL 0.9)
                  (sample_decision "RiskManager" REDUCE 0.9)
                  ltac:(discriminate))).
  reflexivity.
Defined.

Lemma assoc_get_skip {A} (k name : string) (d : A) (l1 l2 : list (string * A)) :
  k <> name ->
  assoc_get k (l1 ++ (name, d) :: l2)%list = assoc_get k (l1 ++ l2)%list.
Proof.
  intros Hne. induction l1 as [|[k' v] l1 IH]; simpl.
  - destruct (String.eqb_spec k name); [contradiction | reflexivity].
  - destruct (String.eqb k k'); [reflexivity | exact IH].
Qed.

(** X4: an entry whose agent name has no weight is skipped: it changes
    neither the veto check nor the score, the votes or the direction. *)
Theorem consensus_ignores_unknown_agents :
  forall (before after : list (string * AgentDecision)) (name : string)
         (d : AgentDecision),
    weights !! name = None ->
    calculate_consensus (before ++ (name, d) :: after)%list
    = calculate_consensus (before ++ after)%list.
Proof.
  intros before after name d Hw. unfold calculate_consensus, risk_veto.
  assert (Hne : "RiskManager" <> name).
  { intros <-. vm_compute in Hw. discriminate. }
  rewrite (assoc_get_skip _ _ _ _ _ Hne).
  rewrite !fold_left_app. simpl.
  rewrite (consensus_step_unknown _ _ _ Hw). reflexivity.
Qed.

Lemma consensus_ignores_unknown_agents_witness :
  calculate_consensus
    ([("MarketAnalyst", sample_decision "MarketAnalyst" BUY 0.9)]
     ++ ("Coordinator", sample_decision "Coordinator" SELL 1)
     :: [("RiskManager", sample_decision "RiskManager" APPROVE 0.9)])%list
  = calculate_consensus
      ([("MarketAnalyst", sample_decision "MarketAnalyst" BUY 0.9)]
       ++ [("RiskManager", sample_decision "RiskManager" APPROVE 0.9)])%list.
Proof.
  apply consensus_ignores_unknown_agents. reflexivity.
Defined.

(** ** Orders in a trace *)

Lemma orders_app (t1 t2 : list call) :
  orders (t1 ++ t2)%list = (orders t1 ++ orders t2)%list.
Proof. unfold orders. apply filter_app. Qed.

Lemma orders_no_order (t : list call) : no_order t -> orders t = [].
Proof.
  unfold no_order, orders. induction 1 as [|c t Hc _ IH]; [reflexivity|].
  cbn. rewrite decide_False; [exact IH|]. rewrite Hc. auto.
Qed.

Lemma trace_lift {A} (r : result A) : trace (lift r) = [].
Proof. reflexivity. Qed.

Tactic Notation "stept" hyp(H) "as" ident(x) ident(E) ident(T) :=
  apply bind_ok_inv in H as (x & E & H & T);
  try rewrite outcome_lift in E; try rewrite trace_lift in T.

Lemma outcome_pair {A} (t : list call) (r : result A) :
  outcome ((t, r) : M A) = r.
Proof. reflexivity. Qed.

Lemma trace_pair {A} (t : list call) (r : result A) :
  trace ((t, r) : M A) = t.
Proof. reflexivity. Qed.

(** ** Runs that pass the gate *)

Lemma consensus_direction_is_str decisions d :
  getitem (calculate_consensus decisions) "direction" = Ok d ->
  exists s, d = CStr s.
Proof.
  unfold calculate_consensus.
  destruct (risk_veto decisions); [vm_compute; discriminate|].
  destruct (fold_left _ _ _) as [total votes].
  unfold getitem.
  rewrite lookup_insert_ne by discriminate.
  rewrite lookup_insert_ne by discriminate.
  rewrite lookup_insert_eq. intros [= <-]. eauto.
Qed.

Lemma outcome_emit {A} (c : call) (r : result A) : outcome (emit c r) = r.
Proof. reflexivity. Qed.

Lemma trace_mret {A} (a : A) : trace (mret a : M A) = [].
Proof. reflexivity. Qed.

Lemma py_get_ok_dict d k default v :
  py_get d k default = Ok v -> exists items, d = PDict items.
Proof. destruct d; try discriminate. eauto. Qed.

(* A returning call of the trading branch: the ticker read and the order
   call answered, and the result is the one of [analyze_trading]. *)
Lemma analyze_trading_inv `{PyRuntime} w context lowered d :
  py_lower (ctx_get context "action" (PStr "hold")) = Ok lowered ->
  lowered ∈ ["execute"; "buy"; "sell"] ->
  outcome (ExecutorAgent.analyze w context) = Ok d ->
  exists side_key ticker last_price price items,
    py_lower (ctx_get context "trade_direction" (PStr "buy")) = Ok side_key /\
    ticker_response w = Ok ticker /\
    py_get ticker "last" (PNum 0) = Ok last_price /\
    py_float last_price = Ok price /\
    place_order_response w = Ok (PDict items).
Proof.
  intros Hlower Hin Hok. unfold ExecutorAgent.analyze in Hok.
  rewrite Hlower, bind_lift_ok in Hok.
  rewrite bool_decide_eq_true_2 in Hok by exact Hin.
  step Hok as result Eresult. clear Hok.
  unfold ExecutorAgent.execute_trade in Eresult.
  step Eresult as side_key Eside.
  step Eresult as ticker Eticker. rewrite outcome_emit in Eticker.
  step Eresult as last_price Elast.
  step Eresult as price Eprice.
  step Eresult as order_result Eorder. rewrite outcome_emit in Eorder.
  step Eresult as order_id Eorder_id.
  destruct (py_get_ok_dict _ _ _ _ Eorder_id) as (items & ->).
  exists side_key, ticker, last_price, price, items. auto.
Qed.

Lemma decide_open_inv `{PyRuntime} max w symbol decisions rm td :
  outcome (decide_and_execute max w symbol decisions rm) = Ok td ->
  action td = EXECUTE ->
  trade_direction td = "buy" \/ trade_direction td = "sell" ->
  exists d order_id logged,
    outcome (ExecutorAgent.analyze w (exec_context_of symbol td)) = Ok d /\
    order_id_of d = Some order_id /\
    log_order_id order_id = Ok logged /\
    agent_decisions td = (map snd decisions ++ [d])%list /\
    orders (trace (decide_and_execute max w symbol decisions rm))
    = orders (trace (ExecutorAgent.analyze w (exec_context_of symbol td))).
Proof.
  intros Hok Haction Hdirection. unfold decide_and_execute in *.
  stept Hok as output Eoutput T1.
  stept Hok as raw Eraw T2.
  stept Hok as c_action Eaction T3.
  stept Hok as c_action_v Eaction_v T4.
  stept Hok as c_conf Econf T5.
  stept Hok as c_conf_q Econf_q T6.
  stept Hok as c_direction Edirection T7.
  stept Hok as c_votes Evotes T8.
  stept Hok as coord_log Elog T9.
  stept Hok as code Ecode T10.
  stept Hok as execution Eexec T11.
  rewrite outcome_mret in Hok. injection Hok as <-.
  simpl in Haction, Hdirection. simpl agent_decisions.
  unfold exec_context_of. simpl size. simpl trade_direction.
  simpl team_reasoning.
  rewrite T1, T2, T3, T4, T5, T6, T7, T8, T9, T10, T11.
  clear T1 T2 T3 T4 T5 T6 T7 T8 T9 T10 T11.
  destruct (consensus_direction_is_str _ _ Edirection) as (dir & ->).
  destruct c_action as [a| | |]; try discriminate Eaction_v.
  injection Eaction_v as ->. subst c_action_v.
  simpl in Hdirection.
  assert (Hgate : cval_is_action (CAction EXECUTE) EXECUTE
                  && (cval_eq_str (CStr dir) "buy"
                      || cval_eq_str (CStr dir) "sell") = true).
  { destruct Hdirection as [-> | ->]; reflexivity. }
  rewrite Hgate in Eexec |- *.
  stept Eexec as d Ed Td.
  stept Eexec as exec_output Eexec_output T1.
  stept Eexec as order_id Eorder_id T2.
  stept Eexec as logged Elogged T3.
  stept Eexec as exec_log Eexec_log T4.
  stept Eexec as exec_code Eexec_code T5.
  rewrite outcome_mret in Eexec. injection Eexec as <-.
  exists d, order_id, logged.
  rewrite Td, T1, T2, T3, T4, T5. clear Td T1 T2 T3 T4 T5.
  change (py_str (cval_py (CStr dir))) with dir in *.
  change (cval_py (CStr dir)) with (PStr dir) in *.
  split; [exact Ed|].
  split.
  { match type of Ed with
    | outcome (ExecutorAgent.analyze _ ?c) = _ => set (ctx := c) in Ed
    end.
    destruct (analyze_trading_inv w ctx "execute" d eq_refl
                ltac:(repeat constructor) Ed)
      as (side_key & ticker & last_price & price & items
          & H1 & H2 & H3 & H4 & H5).
    rewrite (analyze_trading w ctx "execute" side_key ticker last_price price
               items eq_refl ltac:(repeat constructor) H1 H2 H3 H4 H5) in Ed.
    rewrite outcome_pair in Ed. injection Ed as <-.
    simpl in Eexec_output. injection Eexec_output as <-.
    simpl in Eorder_id. injection Eorder_id as <-. reflexivity. }
  split; [exact Elogged|].
  split; [reflexivity|].
  rewrite !orders_app, !trace_mret.
  rewrite !(orders_no_order _ (no_order_upload _ _ _ _)).
  change (orders []) with (@nil call).
  rewrite ?app_nil_l, ?app_nil_r. reflexivity.
Qed.

Lemma action_of_getitem consensus a :
  getitem consensus "action" = Ok (CAction a) -> action_of consensus = Some a.
Proof.
  unfold getitem, action_of. destruct (consensus !! "action") as [v|];
    [|discriminate]. intros [= ->]. reflexivity.
Qed.

Lemma direction_of_getitem consensus dir :
  getitem consensus "direction" = Ok (CStr dir) ->
  direction_of consensus <> None ->
  dir = "buy" \/ dir = "sell".
Proof.
  unfold getitem, direction_of. destruct (consensus !! "direction") as [v|];
    [|discriminate]. intros [= ->]. simpl.
  destruct (String.eqb_spec dir "buy"); [auto|].
  destruct (String.eqb_spec dir "sell"); [auto|]. congruence.
Qed.

Lemma veto_action decisions a :
  risk_veto decisions = true ->
  getitem (calculate_consensus decisions) "action" = Ok (CAction a) ->
  a = HOLD_ACTION.
Proof.
  intros Hv. rewrite (calculate_consensus_veto _ Hv).
  vm_compute. congruence.
Qed.

Lemma team_veto (m s r : AgentDecision) :
  signal r = REJECT -> risk_veto (team m s r) = true.
Proof. intros Hr. unfold risk_veto, team. simpl. rewrite Hr. reflexivity. Qed.

(* An Execute consensus of the three stages has the direction buy or sell. *)
Lemma team_execute_direction (m s r : AgentDecision) dir :
  getitem (calculate_consensus (team m s r)) "action" = Ok (CAction EXECUTE) ->
  getitem (calculate_consensus (team m s r)) "direction" = Ok (CStr dir) ->
  dir = "buy" \/ dir = "sell".
Proof.
  intros Ha Hd. destruct (decide (signal r = REJECT)) as [Hr|Hr].
  - pose proof (veto_action _ _ (team_veto m s r Hr) Ha). discriminate.
  - apply (direction_of_getitem _ _ Hd).
    apply (proj2 (team_direction_facts m s r Hr) EXECUTE);
      [apply action_of_getitem, Ha | discriminate].
Qed.

(* The executed path of a returning run, with the executor's inputs. *)
Lemma executed_run_core `{PyRuntime} max w symbol td :
  outcome (run_team_analysis max w symbol) = Ok td ->
  action td = EXECUTE ->
  exists ex order_id logged side_key ticker last_price price items,
    (exists ma sa rm, agent_decisions td = [ma; sa; rm; ex]) /\
    order_id_of ex = Some order_id /\
    log_order_id order_id = Ok logged /\
    py_lower (PStr (trade_direction td)) = Ok side_key /\
    ticker_response w = Ok ticker /\
    py_get ticker "last" (PNum 0) = Ok last_price /\
    py_float last_price = Ok price /\
    place_order_response w = Ok (PDict items) /\
    (trade_direction td = "buy" \/ trade_direction td = "sell") /\
    orders (trace (run_team_analysis max w symbol))
    = orders (trace (ExecutorAgent.analyze w (exec_context_of symbol td))) /\
    ExecutorAgent.analyze w (exec_context_of symbol td)
    = ([GetTicker;
        PlaceOrder (PStr symbol) (PStr (size td))
          (default 1%Z (ExecutorAgent.side_map !! side_key)) 1 (clock_ms w)],
       Ok ex).
Proof.
  intros Hok Haction.
  unfold run_team_analysis in *.
  apply bind_ok_inv in Hok as ([decisions rm] & Hstages & Hdecide & Htrace).
  rewrite Htrace, orders_app.
  rewrite (orders_no_order _ (no_order_run_stages max w symbol)).
  destruct (run_stages_ok_inv _ _ _ _ _ Hstages)
    as (ma & sa & -> & _ & _ & _).
  destruct (decide_ok_inv _ _ _ _ _ _ Hdecide)
    as (c_action & c_direction & Ha & Hd & Hav & Hdir & _ & _).
  destruct (consensus_direction_is_str _ _ Hd) as (dir & ->).
  destruct c_action; try discriminate Hav.
  injection Hav as ->. rewrite Haction in Ha.
  change (py_str (cval_py (CStr dir))) with dir in Hdir.
  pose proof (team_execute_direction ma sa rm dir Ha Hd) as Hdirection.
  rewrite <- Hdir in Hdirection.
  destruct (decide_open_inv _ _ _ _ _ _ Hdecide Haction Hdirection)
    as (ex & order_id & logged & Hex & Hid & Hlog & Hrec & Horders).
  cbn [app fst snd]. rewrite Horders. clear Horders.
  destruct (analyze_trading_inv w (exec_context_of symbol td) "execute" ex
              eq_refl ltac:(repeat constructor) Hex)
    as (side_key & ticker & last_price & price & items
        & H1 & H2 & H3 & H4 & H5).
  pose proof (analyze_trading w (exec_context_of symbol td) "execute" side_key
             ticker last_price price items eq_refl ltac:(repeat constructor)
             H1 H2 H3 H4 H5) as Hrun.
  rewrite Hrun, outcome_pair in Hex. injection Hex as Hex.
  exists ex, order_id, logged, side_key, ticker, last_price, price, items.
  split; [exists ma, sa, rm; exact Hrec|].
  repeat (split; [assumption|]).
  split; [reflexivity|].
  rewrite Hrun. rewrite <- Hex. reflexivity.
Qed.

(** X5: a run that returns with the action Execute has placed exactly one
    market order, for the returned size, on side 1 for buy and 3 for sell;
    its record ends with the executor's decision, whose signal matches the
    direction and whose order id passed int(). *)
Theorem executed_run_places_one_order :
  forall `{PyRuntime} (max_position_size : Q) (w : World) (symbol : string)
         (td : TeamDecision),
    outcome (run_team_analysis max_position_size w symbol) = Ok td ->
    action td = EXECUTE ->
    exists ma sa rm ex side order_id logged,
      agent_decisions td = [ma; sa; rm; ex] /\
      agent_name ex = "Executor" /\
      orders (trace (run_team_analysis max_position_size w symbol))
      = [PlaceOrder (PStr symbol) (PStr (size td)) side 1 (clock_ms w)] /\
      ((trade_direction td = "buy" /\ side = 1%Z /\ signal ex = BUY) \/
       (trade_direction td = "sell" /\ side = 3%Z /\ signal ex = SELL)) /\
      order_id_of ex = Some order_id /\
      log_order_id order_id = Ok logged.
Proof.
  intros rt max w symbol td Hok Haction.
  destruct (executed_run_core max w symbol td Hok Haction)
    as (ex & order_id & logged & side_key & ticker & last_price & price
        & items & (ma & sa & rm & Hrec) & Hid & Hlog & H1 & H2 & H3 & H4
        & H5 & Hdirection & Horders & Hrun).
  exists ma, sa, rm, ex,
    (default 1%Z (ExecutorAgent.side_map !! side_key)), order_id, logged.
  split; [exact Hrec|].
  pose proof (analyze_trading w (exec_context_of symbol td) "execute" side_key
             ticker last_price price items eq_refl ltac:(repeat constructor)
             H1 H2 H3 H4 H5) as Hfull.
  rewrite Hrun in Hfull. injection Hfull as Hex.
  split; [rewrite Hex; reflexivity|].
  split; [rewrite Horders, Hrun; reflexivity|].
  split; [|split; assumption].
  simpl in H1. injection H1 as <-.
  destruct Hdirection as [Hb | Hs]; [left | right];
    (split; [assumption|]); rewrite Hex; simpl;
    [rewrite Hb | rewrite Hs]; split; reflexivity.
Qed.

Lemma executed_run_places_one_order_witness :
  exists td,
    outcome (run_team_analysis (H := RefRuntime.runtime) 0.0002
               (world_execute (PStr "12345")) "cmt_btcusdt") = Ok td /\
    action td = EXECUTE /\
    exists ma sa rm ex side order_id logged,
      agent_decisions td = [ma; sa; rm; ex] /\
      agent_name ex = "Executor" /\
      orders (trace (run_team_analysis (H := RefRuntime.runtime) 0.0002
                       (world_execute (PStr "12345")) "cmt_btcusdt"))
      = [PlaceOrder (PStr "cmt_btcusdt") (PStr (size td)) side 1
           (clock_ms (world_execute (PStr "12345")))] /\
      ((trade_direction td = "buy" /\ side = 1%Z /\ signal ex = BUY) \/
       (trade_direction td = "sell" /\ side = 3%Z /\ signal ex = SELL)) /\
      order_id_of ex = Some order_id /\
      log_order_id (H := RefRuntime.runtime) order_id = Ok logged.
Proof.
  eexists. split; [vm_compute; reflexivity|]. split; [reflexivity|].
  refine (executed_run_places_one_order (H := RefRuntime.runtime) 0.0002
            (world_execute (PStr "12345")) "cmt_btcusdt" _ _ _);
    [vm_compute; reflexivity | reflexivity].
Defined.

(** X6: when the exchange answers with an order id that is truthy but that
    int() rejects, every run that places an order raises: it returns no
    TeamDecision although the order went out. *)
Theorem unparsable_order_id_aborts_run :
  forall `{PyRuntime} (max_position_size : Q) (w : World) (symbol : string)
         (items : list (string * pyval)) (e : exn),
    place_order_response w = Ok (PDict items) ->
    py_truthy (order_id_in items) = true ->
    py_int (order_id_in items) = Raise e ->
    orders (trace (run_team_analysis max_position_size w symbol)) <> [] ->
    is_ok (outcome (run_team_analysis max_position_size w symbol)) = false.
Proof.
  intros rt max w symbol items e Horder Htruthy Hint Hplaced.
  destruct (outcome (run_team_analysis max w symbol)) as [td|] eqn:Hok;
    [exfalso | reflexivity].
  destruct (decide (action td = EXECUTE)) as [Hexec|Hne].
  - destruct (executed_run_core max w symbol td Hok Hexec)
      as (ex & order_id & logged & side_key & ticker & last_price & price
          & items' & Hrec & Hid & Hlog & H1 & H2 & H3 & H4 & H5 & _ & _
          & Hrun).
    rewrite Horder in H5. injection H5 as <-.
    pose proof (analyze_trading w (exec_context_of symbol td) "execute"
                  side_key ticker last_price price items eq_refl
                  ltac:(repeat constructor) H1 H2 H3 H4 Horder) as Hfull.
    rewrite Hrun in Hfull. injection Hfull as Hex.
    rewrite Hex in Hid. unfold order_id_of in Hid. simpl in Hid.
    injection Hid as <-.
    unfold log_order_id in Hlog. rewrite Htruthy, Hint in Hlog.
    discriminate Hlog.
  - apply Hplaced, orders_no_order.
    unfold run_team_analysis in *.
    apply bind_ok_inv in Hok as ([decisions rm] & Hstages & Hdecide & _).
    destruct (decide_ok_inv _ _ _ _ _ _ Hdecide)
      as (c_action & c_direction & Ha & Hd & Hav & _).
    apply no_order_bind; [apply no_order_run_stages |].
    intros [decisions' rm'] Hstages'. rewrite Hstages in Hstages'.
    injection Hstages' as <- <-.
    apply no_order_decide. intros a d Ha' _.
    rewrite Ha in Ha'. injection Ha' as <-.
    exact (gate_closed_by_action _ _ _ Hav Hne).
Qed.

Lemma unparsable_order_id_aborts_run_witness :
  orders (trace (run_team_analysis (H := RefRuntime.runtime) 0.0002
                   (world_execute (PStr "ord-77")) "cmt_btcusdt"))
  = [PlaceOrder (PStr "cmt_btcusdt") (PStr "0.0002") 1 1 1700000000000] /\
  outcome (run_team_analysis (H := RefRuntime.runtime) 0.0002
             (world_execute (PStr "ord-77")) "cmt_btcusdt") = Raise ValueError /\
  is_ok (outcome (run_team_analysis (H := RefRuntime.runtime) 0.0002
                    (world_execute (PStr "ord-77")) "cmt_btcusdt")) = false.
Proof.
  split; [vm_compute; reflexivity|]. split; [vm_compute; reflexivity|].
  apply (unparsable_order_id_aborts_run (H := RefRuntime.runtime) 0.0002
           (world_execute (PStr "ord-77")) "cmt_btcusdt"
           [("order_id", PStr "ord-77")] ValueError);
    [reflexivity | reflexivity | reflexivity | vm_compute; discriminate].
Defined.

(** X7: when the context action does not lower-case to execute, buy or
    sell (a missing action defaults to "hold"), the executor calls no
    collaborator and returns a Hold decision of confidence 1.0 whose output
    is {action: hold, reason: No trade signal}. *)
Theorem executor_idle_branch :
  forall `{PyRuntime} (w : World) (context : list (string * pyval))
         (lowered : string),
    py_lower (ctx_get context "action" (PStr "hold")) = Ok lowered ->
    lowered ∉ ["execute"; "buy"; "sell"] ->
    ExecutorAgent.analyze w context =
      ([], Ok {| agent_name := "Executor";
                 stage := "Order Execution";
                 signal := HOLD;
                 confidence := 1;
                 reasoning :=
                   PStr ("No execution required. Action: "
                         +:+ py_str (ctx_get context "action" (PStr "hold")));
                 data := PDict [("input", PDict context);
                                ("output",
                                 PDict [("action", PStr "hold");
                                        ("reason", PStr "No trade signal")])] |}).
Proof.
  intros rt w context lowered Hlower Hnot. unfold ExecutorAgent.analyze.
  rewrite Hlower, bind_lift_ok.
  rewrite bool_decide_eq_false_2 by exact Hnot. reflexivity.
Qed.

Lemma executor_idle_branch_witness :
  ExecutorAgent.analyze (H := RefRuntime.runtime)
    (world_order (PDict [("order_id", PStr "1")]))
    [("symbol", PStr "cmt_btcusdt")] =
    ([], Ok {| agent_name := "Executor";
               stage := "Order Execution";
               signal := HOLD;
               confidence := 1;
               reasoning := PStr "No execution required. Action: hold";
               data := PDict [("input", PDict [("symbol", PStr "cmt_btcusdt")]);
                              ("output",
                               PDict [("action", PStr "hold");
                                      ("reason", PStr "No trade signal")])] |}).
Proof.
  apply (executor_idle_branch (H := RefRuntime.runtime)
           (world_order (PDict [("order_id", PStr "1")]))
           [("symbol", PStr "cmt_btcusdt")] "hold" eq_refl).
  intros Hin. repeat (apply elem_of_cons in Hin as [Hin|Hin];
                      [discriminate Hin|]).
  apply elem_of_nil in Hin. exact Hin.
Defined.

Lemma risk_extract_data `{PyRuntime} max ctx response d :
  RiskManagerAgent.extract max ctx response = Ok d ->
  exists stored status,
    data d = PDict [("input", ctx);
                    ("output", PDict [("recommended_size", PNum stored);
                                      ("risk_status", status)])].
Proof.
  unfold RiskManagerAgent.extract. intros Hd.
  repeat match type of Hd with
         | (?r ≫= _) = Ok _ => destruct r; [simpl in Hd | discriminate Hd]
         end.
  injection Hd as <-. simpl. eauto.
Qed.

(** X8: whenever the three stages return and the risk decision is Reject,
    run_team_analysis raises KeyError("direction") right after the three
    stage uploads: no coordinator log is uploaded, no order is placed and
    no TeamDecision is returned. *)
Theorem veto_run_raises_key_error :
  forall `{PyRuntime} (max_position_size : Q) (w : World) (symbol : string)
         (decisions : list (string * AgentDecision)) (rm : AgentDecision),
    outcome (run_stages max_position_size w symbol) = Ok (decisions, rm) ->
    signal rm = REJECT ->
    outcome (run_team_analysis max_position_size w symbol)
      = Raise (KeyError "direction") /\
    trace (run_team_analysis max_position_size w symbol)
      = trace (run_stages max_position_size w symbol) /\
    no_order (trace (run_team_analysis max_position_size w symbol)).
Proof.
  intros rt max w symbol decisions rm Hstages Hrej.
  assert (Hrun : run_team_analysis max w symbol
                 = (trace (run_stages max w symbol),
                    Raise (KeyError "direction"))).
  { unfold run_team_analysis.
    destruct (run_stages max w symbol) as [t r] eqn:Es.
    rewrite outcome_pair in Hstages. subst r.
    rewrite bind_pair_ok. simpl trace at 1.
    assert (Hs' : outcome (run_stages max w symbol) = Ok (decisions, rm))
      by (rewrite Es; reflexivity).
    destruct (run_stages_ok_inv _ _ _ _ _ Hs')
      as (ma & sa & -> & _ & _ & (ctx & response & Hrm)).
    destruct (risk_extract_data _ _ _ _ Hrm) as (stored & status & Hdata).
    unfold decide_and_execute.
    change [("MarketAnalyst", ma); ("SentimentAgent", sa); ("RiskManager", rm)]
      with (team ma sa rm).
    rewrite (calculate_consensus_veto _ (team_veto ma sa rm Hrej)).
    rewrite Hdata. unfold trace, outcome. simpl. rewrite app_nil_r.
    reflexivity. }
  rewrite Hrun. split; [reflexivity|]. split; [reflexivity|].
  apply no_order_run_stages.
Qed.

Lemma veto_run_raises_key_error_witness :
  outcome (run_team_analysis (H := RefRuntime.runtime) 0.0002 world_veto
             "cmt_btcusdt") = Raise (KeyError "direction") /\
  length (trace (run_team_analysis (H := RefRuntime.runtime) 0.0002 world_veto
                   "cmt_btcusdt")) = 14%nat.
Proof.
  destruct (run_stages (H := RefRuntime.runtime) 0.0002 world_veto
              "cmt_btcusdt") as [t [[ds rm]|e]] eqn:Es;
    [|vm_compute in Es; discriminate Es].
  assert (Hs : outcome (run_stages (H := RefRuntime.runtime) 0.0002
                          world_veto "cmt_btcusdt") = Ok (ds, rm))
    by (rewrite Es; reflexivity).
  assert (Hrej : signal rm = REJECT).
  { vm_compute in Es. injection Es as _ _ <-. reflexivity. }
  destruct (veto_run_raises_key_error (H := RefRuntime.runtime) 0.0002
              world_veto "cmt_btcusdt" ds rm Hs Hrej) as (Ho & Ht & _).
  split; [exact Ho|]. rewrite Ht, Es. vm_compute in Es.
  injection Es as <- _ _. reflexivity.
Defined.

(** ** The vocabulary of the stages, and replies without braces *)

Lemma market_signal_vocabulary (k : string) :
  default NEUTRAL (MarketAnalystAgent.signal_map !! k)
  ∈ [BUY; SELL; NEUTRAL; HOLD].
Proof.
  unfold MarketAnalystAgent.signal_map.
  rewrite !lookup_insert, lookup_empty.
  repeat case_decide; simpl; repeat constructor.
Qed.

Lemma sentiment_signal_vocabulary (k : string) :
  default NEUTRAL (SentimentAgent.signal_map !! k)
  ∈ [BULLISH; BEARISH; NEUTRAL].
Proof.
  unfold SentimentAgent.signal_map.
  rewrite !lookup_insert, lookup_empty.
  repeat case_decide; simpl; repeat constructor.
Qed.

Lemma risk_signal_vocabulary (k : string) :
  default APPROVE (RiskManagerAgent.signal_map !! k)
  ∈ [APPROVE; REDUCE; REJECT].
Proof.
  unfold RiskManagerAgent.signal_map.
  rewrite !lookup_insert, lookup_empty.
  repeat case_decide; simpl; repeat constructor.
Qed.

(** X9: whatever the language model replies, a decision returned by the
    market stage has a signal among Buy, Sell, Neutral, Hold; one of the
    sentiment stage among Bullish, Bearish, Neutral; one of the risk stage
    among Approve, Reduce, Reject.  Only the risk stage can veto. *)
Theorem stage_signal_vocabulary :
  forall `{PyRuntime} (max_position_size : Q) (ctx aux : pyval)
         (response : string),
    (forall d, MarketAnalystAgent.extract ctx aux response = Ok d ->
               signal d ∈ [BUY; SELL; NEUTRAL; HOLD]) /\
    (forall d, SentimentAgent.extract ctx aux response = Ok d ->
               signal d ∈ [BULLISH; BEARISH; NEUTRAL]) /\
    (forall d, RiskManagerAgent.extract max_position_size ctx response = Ok d ->
               signal d ∈ [APPROVE; REDUCE; REJECT]).
Proof.
  intros rt max ctx aux response. repeat split; intros d Hd.
  - unfold MarketAnalystAgent.extract in Hd.
    repeat match type of Hd with
           | (?r ≫= _) = Ok _ => destruct r; [simpl in Hd | discriminate Hd]
           end.
    injection Hd as <-. apply market_signal_vocabulary.
  - unfold SentimentAgent.extract in Hd.
    repeat match type of Hd with
           | (?r ≫= _) = Ok _ => destruct r; [simpl in Hd | discriminate Hd]
           end.
    injection Hd as <-. apply sentiment_signal_vocabulary.
  - unfold RiskManagerAgent.extract in Hd.
    repeat match type of Hd with
           | (?r ≫= _) = Ok _ => destruct r; [simpl in Hd | discriminate Hd]
           end.
    injection Hd as <-. apply risk_signal_vocabulary.
Qed.

Lemma find_from_absent (c : ascii) (s : string) (i : Z) :
  has_char c s = false -> find_from c s i = (-1)%Z.
Proof.
  revert i. induction s as [|a s IH]; intros i; simpl; [reflexivity|].
  destruct (Ascii.eqb a c); [discriminate|]. simpl. apply IH.
Qed.

Lemma rfind_from_absent (c : ascii) (s : string) (i : Z) :
  has_char c s = false -> rfind_from c s i = (-1)%Z.
Proof.
  revert i. induction s as [|a s IH]; intros i; simpl; [reflexivity|].
  destruct (Ascii.eqb a c); [discriminate|]. simpl. intros Hs.
  rewrite (IH _ Hs). reflexivity.
Qed.

Lemma find_from_lower (c : ascii) (s : string) (i : Z) :
  (find_from c s i = -1 \/ i <= find_from c s i)%Z.
Proof.
  revert i. induction s as [|a s IH]; intros i; simpl; [auto|].
  destruct (Ascii.eqb a c); [right; lia|].
  destruct (IH (i + 1)%Z) as [->|Hle]; [auto | right; lia].
Qed.

Lemma no_brace_parse_fails `{PyRuntime} (response : string) :
  has_char "{" response = false \/ has_char "}" response = false ->
  parse_fails response = true.
Proof.
  intros Hno. unfold parse_fails, py_find, py_rfind.
  destruct Hno as [Hopen | Hclose].
  - rewrite (find_from_absent _ _ _ Hopen). reflexivity.
  - rewrite (rfind_from_absent _ _ _ Hclose).
    destruct (find_from_lower "{" response 0) as [-> | Hle]; [reflexivity|].
    replace (find_from "{" response 0 <? -1 + 1)%Z with false
      by (symmetry; apply Z.ltb_ge; lia).
    rewrite andb_false_r. reflexivity.
Qed.

(** X10: a reply with no opening brace, or with no closing brace, never
    reaches json.loads: the market stage returns Neutral with confidence 0.5
    and the risk stage Approve with confidence 0.7 and the full
    max_position_size, each with the whole reply as its reasoning. *)
Theorem reply_without_braces_falls_back :
  forall `{PyRuntime} (max_position_size : Q) (ctx aux : pyval)
         (response : string),
    has_char "{" response = false \/ has_char "}" response = false ->
    MarketAnalystAgent.extract ctx aux response =
      Ok {| agent_name := "MarketAnalyst"; stage := "Technical Analysis";
            signal := NEUTRAL; confidence := 0.5;
            reasoning := PStr response;
            data := PDict [("input", ctx);
                           ("output", PDict [("indicators", aux)])] |} /\
    RiskManagerAgent.extract max_position_size ctx response =
      Ok {| agent_name := "RiskManager"; stage := "Risk Assessment";
            signal := APPROVE; confidence := 0.7;
            reasoning := PStr response;
            data := PDict [("input", ctx);
                           ("output",
                            PDict [("recommended_size", PNum max_position_size);
                                   ("risk_status", PStr "APPROVE")])] |}.
Proof.
  intros rt max ctx aux response Hno.
  pose proof (no_brace_parse_fails response Hno) as Hfail.
  unfold MarketAnalystAgent.extract, RiskManagerAgent.extract.
  rewrite !(parse_fails_default _ _ Hfail).
  split; [reflexivity|].
  unfold RiskManagerAgent.fallback. simpl. rewrite py_min_self. reflexivity.
Qed.

Lemma reply_without_braces_falls_back_witness :
  (has_char "{" "I would buy here} maybe" = false \/
   has_char "}" "I would buy here} maybe" = false) /\
  RiskManagerAgent.extract (H := RefRuntime.runtime) 0.0002 PNone
    "I would buy here} maybe" =
    Ok {| agent_name := "RiskManager"; stage := "Risk Assessment";
          signal := APPROVE; confidence := 0.7;
          reasoning := PStr "I would buy here} maybe";
          data := PDict [("input", PNone);
                         ("output",
                          PDict [("recommended_size", PNum 0.0002);
                                 ("risk_status", PStr "APPROVE")])] |}.
Proof.
  split; [left; reflexivity|].
  apply (reply_without_braces_falls_back (H := RefRuntime.runtime) 0.0002
           PNone PNone "I would buy here} maybe").
  left. reflexivity.
Defined.

(** ** The uploaded log *)

Lemma str_take_length (n : nat) (s : string) :
  (String.length (str_take n s) <= n)%nat.
Proof.
  revert s. induction n as [|n IH]; intros [|c s]; simpl; try lia.
  specialize (IH s). lia.
Qed.

Lemma str_take_idem (n : nat) (s : string) :
  str_take n (str_take n s) = str_take n s.
Proof.
  revert s. induction n as [|n IH]; intros [|c s]; simpl; try reflexivity.
  rewrite IH. reflexivity.
Qed.

(** X11: upload_ai_log either raises before any request (the decision's
    data or reasoning cannot be turned into a log) or makes exactly one
    request and returns the exchange's answer.  The body names the
    decision's stage and the fixed model "GPT-5.2"; a string reasoning is cut
    to its first 1000 characters; an orderId is attached exactly when an
    order id other than 0 is given. *)
Theorem upload_body_shape :
  forall (w : World) (uploader : string) (d : AgentDecision)
         (order_id : option Z),
    (exists e, upload_ai_log w uploader d order_id = ([], Raise e)) \/
    (exists items,
       upload_ai_log w uploader d order_id
         = ([UploadAiLog (PDict items)], upload_response w uploader) /\
       assoc_get "stage" items = Some (PStr (stage d)) /\
       assoc_get "model" items = Some (PStr "GPT-5.2") /\
       (forall s, reasoning d = PStr s ->
                  assoc_get "explanation" items = Some (PStr (str_take 1000 s))
                  /\ (String.length (str_take 1000 s) <= 1000)%nat) /\
       assoc_get "orderId" items
       = match order_id with
         | Some z => if (z =? 0)%Z then None else Some (PNum (inject_Z z))
         | None => None
         end).
Proof.
  intros w uploader d order_id. unfold upload_ai_log, to_ai_log.
  destruct (py_get (data d) "input" (PDict [])) as [input|];
    [|left; eexists; reflexivity].
  destruct (py_get (data d) "output" (PDict [])) as [output|];
    [|left; eexists; reflexivity].
  destruct output as [| | | | |extra]; try (left; eexists; reflexivity).
  destruct (reasoning d) as [| | |s|l|] eqn:Hreasoning;
    try (left; eexists; reflexivity).
  - right. cbn -[str_take]. rewrite str_take_idem.
    destruct order_id as [z|]; [destruct (z =? 0)%Z|];
      (eexists; split; [reflexivity|];
       split; [reflexivity|]; split; [reflexivity|];
       split; [|reflexivity];
       intros ? [= <-]; split; [reflexivity | apply str_take_length]).
  - right. cbn -[firstn take].
    destruct order_id as [z|]; [destruct (z =? 0)%Z|];
      (eexists; split; [reflexivity|];
       split; [reflexivity|]; split; [reflexivity|];
       split; [|reflexivity]; intros ? [=]).
Qed.

(** ** Moving averages *)

Lemma round_half_even_comp (x y : Q) :
  (x == y)%Q -> round_half_even x = round_half_even y.
Proof.
  intros Hxy. unfold round_half_even.
  rewrite (Qfloor_comp x y Hxy).
  assert (Hc : (x - inject_Z (Qfloor y) ?= 1 # 2)%Q
               = (y - inject_Z (Qfloor y) ?= 1 # 2)%Q).
  { apply Qcompare_comp; [rewrite Hxy|]; reflexivity. }
  rewrite Hc. reflexivity.
Qed.

Lemma py_round2_comp (x y : Q) : (x == y)%Q -> (py_round2 x == py_round2 y)%Q.
Proof.
  intros Hxy. unfold py_round2.
  rewrite (round_half_even_comp (x * 100) (y * 100)); [reflexivity|].
  rewrite Hxy. reflexivity.
Qed.

Lemma ema_step_bounds (m e p lo hi : Q) :
  (0 <= m)%Q -> (m <= 1)%Q ->
  (lo <= e)%Q -> (e <= hi)%Q -> (lo <= p)%Q -> (p <= hi)%Q ->
  (lo <= (p - e) * m + e)%Q /\ ((p - e) * m + e <= hi)%Q.
Proof.
  intros Hm0 Hm1 Hel Heh Hpl Hph.
  assert (H1 : (0 <= (p - lo) * m)%Q) by (apply Qmult_le_0_compat; lra).
  assert (H2 : (0 <= (e - lo) * (1 - m))%Q) by (apply Qmult_le_0_compat; lra).
  assert (H3 : (0 <= (hi - p) * m)%Q) by (apply Qmult_le_0_compat; lra).
  assert (H4 : (0 <= (hi - e) * (1 - m))%Q) by (apply Qmult_le_0_compat; lra).
  split.
  - assert (E : ((p - e) * m + e
                  == (p - lo) * m + (e - lo) * (1 - m) + lo)%Q) by ring.
    rewrite E. lra.
  - assert (E : ((p - e) * m + e
                  == hi - ((hi - p) * m + (hi - e) * (1 - m)))%Q) by ring.
    rewrite E. lra.
Qed.

Lemma ema_loop_bounds (m lo hi : Q) (rest : list Q) (e : Q) :
  (0 <= m)%Q -> (m <= 1)%Q ->
  (lo <= e)%Q -> (e <= hi)%Q ->
  Forall (fun p => (lo <= p)%Q /\ (p <= hi)%Q) rest ->
  (lo <= ema_loop m e rest)%Q /\ (ema_loop m e rest <= hi)%Q.
Proof.
  intros Hm0 Hm1 Hel Heh Hrest. revert e Hel Heh.
  induction Hrest as [|p rest [Hpl Hph] _ IH]; intros e Hel Heh.
  - split; assumption.
  - change (ema_loop m e (p :: rest))
      with (ema_loop m ((p - e) * m + e) rest).
    destruct (ema_step_bounds m e p lo hi) as [? ?]; try assumption.
    apply IH; assumption.
Qed.

Lemma multiplier_range (period : nat) :
  (1 <= period)%nat ->
  (0 <= 2 / inject_Z (Z.of_nat period + 1))%Q /\
  (2 / inject_Z (Z.of_nat period + 1) <= 1)%Q.
Proof.
  intros Hp.
  assert (Hden : (2 <= inject_Z (Z.of_nat period + 1))%Q).
  { change 2%Q with (inject_Z 2). rewrite <- Zle_Qle. lia. }
  split.
  - apply Qle_shift_div_l; lra.
  - apply Qle_shift_div_r; lra.
Qed.

(** X13: for a period of at least 1 the moving average that
    calculate_indicators computes stays between any two bounds that enclose
    the closes; on an empty series it raises IndexError. *)
Theorem market_ema_within_price_range :
  forall (data : list Q) (period : nat) (lo hi : Q),
    (1 <= period)%nat ->
    Forall (fun p => (lo <= p)%Q /\ (p <= hi)%Q) data ->
    match MarketAnalystAgent.ema data period with
    | Ok v => (lo <= v)%Q /\ (v <= hi)%Q
    | Raise e => data = [] /\ e = IndexError
    end.
Proof.
  intros data period lo hi Hp Hdata. unfold MarketAnalystAgent.ema.
  destruct Hdata as [|first rest [Hl Hh] Hrest]; [split; reflexivity|].
  destruct (multiplier_range period Hp) as [Hm0 Hm1].
  apply ema_loop_bounds; assumption.
Qed.

Lemma market_ema_within_price_range_witness :
  match MarketAnalystAgent.ema [10; 12; 11]%Q 2 with
  | Ok v => (10 <= v)%Q /\ (v <= 12)%Q
  | Raise e => [10; 12; 11]%Q = [] /\ e = IndexError
  end.
Proof.
  apply (market_ema_within_price_range [10; 12; 11]%Q 2 10 12);
    [lia | repeat constructor; discriminate].
Defined.

Lemma round_half_even_Z (k : Z) : round_half_even (inject_Z k) = k.
Proof.
  unfold round_half_even. rewrite Qfloor_Z.
  assert (Hc : (inject_Z k - inject_Z k ?= 1 # 2)%Q = Lt).
  { rewrite <- Qlt_alt. setoid_replace (inject_Z k - inject_Z k)%Q with 0%Q using relation Qeq by ring. reflexivity. }
  rewrite Hc. reflexivity.
Qed.

Lemma py_round2_cents (k : Z) : (py_round2 (cents k) == cents k)%Q.
Proof.
  unfold py_round2, cents.
  rewrite (round_half_even_comp (inject_Z k / 100 * 100) (inject_Z k))
    by (field; discriminate).
  rewrite round_half_even_Z. reflexivity.
Qed.

Lemma py_round2_zero_of (x : Q) : (x == 0)%Q -> (py_round2 x == 0)%Q.
Proof.
  intros Hx. rewrite (py_round2_comp x (cents 0)) by (rewrite Hx; reflexivity).
  rewrite py_round2_cents. reflexivity.
Qed.

Lemma calculate_ema_total (prices : list Q) (period : nat) :
  (1 <= period)%nat ->
  exists v,
    TechnicalAnalysis.calculate_ema prices period = Ok v /\
    ((length prices < period)%nat -> v = List.last prices 0%Q).
Proof.
  intros Hp. unfold TechnicalAnalysis.calculate_ema.
  destruct (length prices <? period)%nat eqn:Hlen.
  - eexists. split; [reflexivity | intros _; reflexivity].
  - apply Nat.ltb_ge in Hlen. destruct prices as [|first rest].
    + simpl in Hlen. lia.
    + eexists. split; [reflexivity | intros; lia].
Qed.

(** X14: calculate_macd never raises, whatever the series, the empty one
    included.  With fewer than 12 prices both averages are the last price,
    so the MACD value is 0; with fewer than 9 prices the signal and the
    histogram are 0 as well. *)
Theorem macd_of_short_series :
  forall prices : list Q,
    exists m,
      TechnicalAnalysis.calculate_macd prices = Ok m /\
      ((length prices < 12)%nat -> (TechnicalAnalysis.macd m == 0)%Q) /\
      ((length prices < 9)%nat ->
       (TechnicalAnalysis.signal m == 0)%Q /\
       (TechnicalAnalysis.histogram m == 0)%Q).
Proof.
  intros prices. unfold TechnicalAnalysis.calculate_macd.
  destruct (calculate_ema_total prices 12 ltac:(lia)) as (e12 & -> & H12).
  destruct (calculate_ema_total prices 26 ltac:(lia)) as (e26 & -> & H26).
  cbn [mbind result_bind].
  destruct (9 <=? length prices)%nat eqn:H9.
  - destruct (calculate_ema_total (last_n 9 prices) 9 ltac:(lia))
      as (s & -> & _).
    cbn [mbind result_bind]. eexists. split; [reflexivity|].
    apply Nat.leb_le in H9. split; [|intros; lia].
    intros Hlen. cbn [TechnicalAnalysis.macd].
    apply py_round2_zero_of. rewrite H12, H26 by lia. ring.
  - apply Nat.leb_gt in H9. cbn [mbind result_bind].
    eexists. split; [reflexivity|].
    assert (Hz : (e12 - e26 == 0)%Q) by (rewrite H12, H26 by lia; ring).
    split; [intros _; apply py_round2_zero_of, Hz|].
    intros _. cbn [TechnicalAnalysis.signal TechnicalAnalysis.histogram].
    split; apply py_round2_zero_of; rewrite Hz; reflexivity.
Qed.

Lemma ema_loop_flat (m c : Q) (n : nat) (e : Q) :
  (e == c)%Q -> (ema_loop m e (repeat c n) == c)%Q.
Proof.
  revert e. induction n as [|n IH]; intros e He; [exact He|].
  change (ema_loop m e (repeat c (S n)))
    with (ema_loop m ((c - e) * m + e) (repeat c n)).
  apply IH. rewrite He. ring.
Qed.

Lemma last_repeat {A} (x d : A) (j : nat) :
  List.last (repeat x (S j)) d = x.
Proof.
  induction j as [|j IH]; [reflexivity|].
  change (List.last (repeat x (S (S j))) d)
    with (List.last (repeat x (S j)) d). exact IH.
Qed.

Lemma calculate_ema_flat (k : Z) (n period : nat) :
  (1 <= n)%nat -> (1 <= period)%nat ->
  exists v,
    TechnicalAnalysis.calculate_ema (repeat (cents k) n) period = Ok v /\
    (v == cents k)%Q.
Proof.
  intros Hn Hp. unfold TechnicalAnalysis.calculate_ema.
  rewrite repeat_length.
  destruct n as [|n]; [lia|].
  destruct (S n <? period)%nat.
  - eexists. split; [reflexivity|]. rewrite last_repeat. reflexivity.
  - cbn [repeat]. eexists. split; [reflexivity|].
    rewrite (py_round2_comp _ (cents k)); [apply py_round2_cents|].
    apply ema_loop_flat. reflexivity.
Qed.

(** X12: on a flat series, a price with two decimals repeated at least
    once, calculate_ema returns that price for every period, whether the
    series is shorter than the period or not. *)
Theorem ema_of_flat_series :
  forall (k : Z) (n period : nat),
    (1 <= n)%nat ->
    exists v,
      TechnicalAnalysis.calculate_ema (repeat (cents k) n) period = Ok v /\
      (v == cents k)%Q.
Proof.
  intros k n period Hn. unfold TechnicalAnalysis.calculate_ema.
  rewrite repeat_length.
  destruct n as [|n]; [lia|].
  destruct (S n <? period)%nat.
  - exists (List.last (repeat (cents k) (S n)) 0%Q).
    split; [reflexivity|]. rewrite last_repeat. reflexivity.
  - cbn [repeat]. eexists. split; [reflexivity|].
    transitivity (py_round2 (cents k)); [|apply py_round2_cents].
    apply py_round2_comp, ema_loop_flat. reflexivity.
Qed.

Lemma ema_of_flat_series_witness :
  exists v,
    TechnicalAnalysis.calculate_ema (repeat (cents 5000050) 30) 12 = Ok v /\
    (v == cents 5000050)%Q.
Proof. apply (ema_of_flat_series 5000050 30 12). lia. Defined.

Lemma last_n_repeat {A} (x : A) (j n : nat) :
  (1 <= j <= n)%nat -> last_n j (repeat x n) = repeat x j.
Proof.
  intros Hj. unfold last_n. destruct j as [|j]; [lia|].
  rewrite repeat_length.
  replace n with ((n - S j) + S j)%nat at 2 by lia.
  rewrite repeat_app, skipn_app, repeat_length.
  replace (n - S j - (n - S j))%nat with 0%nat by lia.
  rewrite skipn_all2 by (rewrite repeat_length; lia). reflexivity.
Qed.

(** X15: on a flat series of at least nine prices (a price with two
    decimals repeated) the MACD value is 0, while the signal that
    calculate_macd returns is the price itself and the histogram its
    negative: the signal line is an average of prices, not of MACD values. *)
Theorem macd_of_flat_series :
  forall (k : Z) (n : nat),
    (9 <= n)%nat ->
    exists m,
      TechnicalAnalysis.calculate_macd (repeat (cents k) n) = Ok m /\
      (TechnicalAnalysis.macd m == 0)%Q /\
      (TechnicalAnalysis.signal m == cents k)%Q /\
      (TechnicalAnalysis.histogram m == - cents k)%Q.
Proof.
  intros k n Hn. unfold TechnicalAnalysis.calculate_macd.
  destruct (calculate_ema_flat k n 12 ltac:(lia) ltac:(lia)) as (e12 & -> & H12).
  destruct (calculate_ema_flat k n 26 ltac:(lia) ltac:(lia)) as (e26 & -> & H26).
  cbn [mbind result_bind]. rewrite repeat_length.
  replace (9 <=? n)%nat with true by (symmetry; apply Nat.leb_le; lia).
  rewrite (last_n_repeat _ 9 n) by lia.
  destruct (calculate_ema_flat k 9 9 ltac:(lia) ltac:(lia)) as (s & -> & Hs).
  cbn [mbind result_bind]. eexists. split; [reflexivity|].
  cbn [TechnicalAnalysis.macd TechnicalAnalysis.signal
       TechnicalAnalysis.histogram].
  split; [apply py_round2_zero_of; rewrite H12, H26; ring|].
  split.
  - rewrite (py_round2_comp s (cents k) Hs). apply py_round2_cents.
  - rewrite (py_round2_comp _ (cents (- k))).
    + rewrite py_round2_cents. unfold cents.
      rewrite inject_Z_opp. field.
    + rewrite H12, H26, Hs. unfold cents. rewrite inject_Z_opp. field.
Qed.

Lemma macd_of_flat_series_witness :
  exists m,
    TechnicalAnalysis.calculate_macd (repeat (cents 5000000) 50) = Ok m /\
    (TechnicalAnalysis.macd m == 0)%Q /\
    (TechnicalAnalysis.signal m == cents 5000000)%Q /\
    (TechnicalAnalysis.histogram m == - cents 5000000)%Q.
Proof. apply (macd_of_flat_series 5000000 50). lia. Defined.

Lemma Qltb_irrefl (x : Q) : Qltb x x = false.
Proof.
  unfold Qltb.
  assert (H : Qle_bool x x = true) by (apply Qle_bool_iff, Qle_refl).
  rewrite H. reflexivity.
Qed.

(** X16: calculate_indicators returns an empty dict for fewer than 20
    candles and raises IndexError when none of 20 or more candles is a list
    of more than four fields.  With fewer than 50 closes the slow average
    is the fast one, so ema_50 equals ema_20 and ema_bullish_cross is False;
    with fewer than 26 closes the MACD value is 0. *)
Theorem calculate_indicators_edges :
  forall `{PyRuntime} (candles : list pyval),
    ((length candles < 20)%nat ->
     MarketAnalystAgent.calculate_indicators candles = Ok []) /\
    ((20 <= length candles)%nat ->
     MarketAnalystAgent.closes_of candles = Ok [] ->
     MarketAnalystAgent.calculate_indicators candles = Raise IndexError) /\
    (forall first rest,
       (20 <= length candles)%nat ->
       MarketAnalystAgent.closes_of candles = Ok (first :: rest) ->
       exists items,
         MarketAnalystAgent.calculate_indicators candles = Ok items /\
         ((length (first :: rest) < 50)%nat ->
          assoc_get "ema_50" items = assoc_get "ema_20" items /\
          assoc_get "ema_bullish_cross" items = Some (PBool false)) /\
         ((length (first :: rest) < 26)%nat ->
          exists v, assoc_get "macd" items = Some (PNum v) /\ (v == 0)%Q)).
Proof.
  intros rt candles. unfold MarketAnalystAgent.calculate_indicators.
  split; [|split].
  - intros Hlen. apply Nat.ltb_lt in Hlen. rewrite Hlen. reflexivity.
  - intros Hlen Hcloses. apply Nat.ltb_ge in Hlen. rewrite Hlen, Hcloses.
    reflexivity.
  - intros first rest Hlen Hcloses. apply Nat.ltb_ge in Hlen.
    rewrite Hlen, Hcloses. cbn [mbind result_bind].
    unfold MarketAnalystAgent.macd_of_closes, MarketAnalystAgent.ema.
    cbn [mbind result_bind].
    destruct (50 <=? length (first :: rest))%nat eqn:H50;
      destruct (26 <=? length (first :: rest))%nat eqn:H26;
      cbn [mbind result_bind];
      (eexists; split; [reflexivity|]).
    + apply Nat.leb_le in H50, H26. split; intros; lia.
    + apply Nat.leb_le in H50. apply Nat.leb_gt in H26. lia.
    + apply Nat.leb_gt in H50. apply Nat.leb_le in H26.
      split; [intros _ | intros; lia].
      split; [reflexivity|].
      cbn [assoc_get String.eqb Ascii.eqb Bool.eqb].
      rewrite Qltb_irrefl. reflexivity.
    + apply Nat.leb_gt in H50, H26. split; intros _.
      * split; [reflexivity|].
        cbn [assoc_get String.eqb Ascii.eqb Bool.eqb].
        rewrite Qltb_irrefl. reflexivity.
      * eexists. split; [reflexivity|]. apply py_round2_zero_of. ring.
Qed.

Lemma np_gains_of_falls (deltas : list Q) :
  Forall (fun d => (d <= 0)%Q) deltas ->
  Forall (fun g => g = 0%Q) (np_gains deltas).
Proof.
  unfold np_gains. induction 1 as [|d rest Hd _ IH]; simpl; constructor;
    [|exact IH].
  unfold Qltb. apply Qle_bool_iff in Hd. rewrite Hd. reflexivity.
Qed.

Lemma Qsum_zeros (l : list Q) :
  Forall (fun g => g = 0%Q) l -> (Qsum l == 0)%Q.
Proof.
  induction 1 as [|x l -> _ IH]; simpl; [reflexivity|].
  rewrite IH. reflexivity.
Qed.

(** X17: on a series of at least 15 prices that never rises and that falls
    at least once over its last 14 steps, calculate_rsi is 0. *)
Theorem rsi_of_falling_series :
  forall prices : list Q,
    (15 <= length prices)%nat ->
    Forall (fun d => (d <= 0)%Q) (np_diff prices) ->
    ~ (np_mean (last_n 14 (np_losses (np_diff prices))) == 0)%Q ->
    (TechnicalAnalysis.calculate_rsi prices 14 == 0)%Q.
Proof.
  intros prices Hlen Hfalls Hloss. unfold TechnicalAnalysis.calculate_rsi.
  replace (length prices <? 14 + 1)%nat with false
    by (symmetry; apply Nat.ltb_ge; lia).
  destruct (Qeq_bool _ 0) eqn:Hz.
  - apply Qeq_bool_iff in Hz. contradiction.
  - apply py_round2_zero_of.
    assert (Hg : (np_mean (last_n 14 (np_gains (np_diff prices))) == 0)%Q).
    { unfold np_mean.
      rewrite (Qsum_zeros _ (last_n_Forall _ 14 _ (np_gains_of_falls _ Hfalls))).
      unfold Qdiv. ring. }
    rewrite Hg. unfold Qdiv. rewrite Qmult_0_l.
    setoid_replace (1 + 0)%Q with 1%Q using relation Qeq by ring.
    reflexivity.
Qed.

Lemma rsi_of_falling_series_witness :
  (TechnicalAnalysis.calculate_rsi
     (map (fun n => inject_Z (Z.of_nat (30 - n))) (seq 0 16)) 14 == 0)%Q.
Proof.
  apply rsi_of_falling_series.
  - simpl. lia.
  - repeat constructor; discriminate.
  - vm_compute. discriminate.
Defined.

(** ** The single agent's conversation history *)

Lemma last_n_suffix {A} (n : nat) (l : list A) (x : A) :
  (0 < n)%nat ->
  last_n n (l ++ [x]) = (last_n (n - 1) (skipn (length l + 1 - n) l) ++ [x])%list
  /\ length (last_n n (l ++ [x])) = Nat.min n (length l + 1).
Proof.
  intros Hn. unfold last_n at 1 3. destruct n as [|n]; [lia|].
  rewrite length_app. cbn [length].
  rewrite skipn_app.
  replace (length l + 1 - S n - length l)%nat with 0%nat by lia.
  cbn [skipn]. split.
  - f_equal. unfold last_n. destruct (S n - 1)%nat as [|k] eqn:E; [reflexivity|].
    rewrite length_skipn.
    replace (length l - (length l + 1 - S n) - S k)%nat with 0%nat by lia.
    reflexivity.
  - rewrite length_app, length_skipn. cbn [length]. lia.
Qed.

(** X18: _add_message puts the new message last, keeps at most 20 messages
    whatever the length of the history before, drops only the oldest ones,
    and leaves the other fields alone. *)
Theorem add_message_keeps_last_20 :
  forall (self : FenyrAgent.State) (role content : string),
    let history := FenyrAgent.conversation_history self in
    let self' := FenyrAgent._add_message self role content in
    let history' := FenyrAgent.conversation_history self' in
    length history' = Nat.min (length history + 1) 20 /\
    last history' = Some (FenyrAgent.message role content) /\
    (exists dropped,
       (history ++ [FenyrAgent.message role content])%list
       = (dropped ++ history')%list) /\
    FenyrAgent.trade_count self' = FenyrAgent.trade_count self /\
    FenyrAgent.model self' = FenyrAgent.model self.
Proof.
  intros self role content history self' history'.
  subst history' self'. unfold FenyrAgent._add_message.
  cbn [FenyrAgent.conversation_history FenyrAgent.trade_count FenyrAgent.model].
  fold history. set (m := FenyrAgent.message role content).
  destruct (Nat.ltb_spec 20 (length (history ++ [m]))) as [Hlong|Hshort].
  - rewrite length_app in Hlong. cbn [length] in Hlong.
    destruct (last_n_suffix 20 history m ltac:(lia)) as [Heq Hlen].
    repeat split.
    + rewrite Hlen. lia.
    + rewrite Heq. apply last_snoc.
    + exists (firstn (length (history ++ [m]) - 20) (history ++ [m])).
      unfold last_n. symmetry. apply firstn_skipn.
  - rewrite length_app in Hshort. cbn [length] in Hshort.
    repeat split.
    + rewrite length_app. cbn [length]. lia.
    + apply last_snoc.
    + exists []. reflexivity.
Qed.

(** ** The body of an order request *)

(** X19: in the body place_order posts, a market order (order_type 1) asks
    for the matching price and never carries a price, whatever price the
    caller passed; the price is sent exactly for a limit order with a truthy
    price; a client order id is always present, the clock when the caller
    gave none; symbol and size are passed through. *)
Theorem place_order_body_fields :
  forall `{PyRuntime} (symbol size : pyval) (side order_type : Z)
         (price client_oid : pyval) (now_ms : Z),
    let body := WeexClient.place_order_body symbol size side order_type
                  price client_oid now_ms in
    assoc_get "price" body
    = (if py_truthy price && (order_type =? 0)%Z then Some price else None) /\
    ((order_type = 1)%Z ->
     assoc_get "price" body = None /\
     assoc_get "match_price" body = Some (PStr "1")) /\
    assoc_get "client_oid" body
    = Some (if py_truthy client_oid then client_oid
            else WeexClient.str_int now_ms) /\
    assoc_get "symbol" body = Some symbol /\
    assoc_get "size" body = Some size /\
    assoc_get "type" body = Some (WeexClient.str_int side).
Proof.
  intros rt symbol size side order_type price client_oid now_ms body.
  subst body. unfold WeexClient.place_order_body.
  split; [|split].
  - destruct (py_truthy price && (order_type =? 0)%Z);
      destruct (py_truthy client_oid); reflexivity.
  - intros ->. rewrite andb_false_r.
    destruct (py_truthy client_oid); split; reflexivity.
  - destruct (py_truthy price && (order_type =? 0)%Z);
      destruct (py_truthy client_oid); repeat split; reflexivity.
Qed.

(** ** The single agent's trade execution *)

Lemma bind_emit_raise {A B} (c : call) (e : exn) (f : A -> M B) :
  emit c (Raise e) ≫= f = ([c], Raise e).
Proof. reflexivity. Qed.

Lemma side_of_some `{PyRuntime} (action : pyval) (side : Z) :
  FenyrAgent.side_of action = Ok (Some side) ->
  exists name, action = PStr name /\ ACTION_TO_SIDE !! name = Some side /\
               (1 <= side <= 4)%Z.
Proof.
  destruct action as [| b | q | name | l | d]; try discriminate.
  simpl. intros [= Hside]. exists name. split; [reflexivity|].
  split; [exact Hside|]. unfold ACTION_TO_SIDE in Hside.
  repeat (rewrite lookup_insert in Hside; case_decide;
          [injection Hside as <-; lia|]).
  rewrite lookup_empty in Hside. discriminate.
Qed.

(* What _execute_trade has done when it reaches  self.trade_count += 1,
   returns early, or raises. *)
Lemma execute_trade_steps_cases `{PyRuntime} w now self symbol action size
    confidence reasoning :
  let steps := FenyrAgent.execute_trade_steps w now self symbol action size
                 confidence reasoning in
  ((trace steps = [] \/ trace steps = [GetTicker]) /\
   match outcome steps with
   | Ok (inl early) => py_get early "executed" PNone = Ok (PBool false)
   | Ok (inr _) => False
   | Raise _ => True
   end) \/
  (exists name side s,
     action = PStr name /\ ACTION_TO_SIDE !! name = Some side /\
     (1 <= side <= 4)%Z /\
     FenyrAgent.py_lt confidence 0.6 = Ok false /\
     py_float size = Ok s /\
     Qltb (FenyrAgent.max_position_size self) s = false /\
     ((trace steps
       = [GetTicker; PlaceOrder symbol size side 1 (clock_ms w)] /\
       exists e, outcome steps = Raise e) \/
      (exists body,
         trace steps
         = [GetTicker; PlaceOrder symbol size side 1 (clock_ms w);
            UploadAiLog body] /\
         match outcome steps with
         | Ok (inl _) => False
         | Ok (inr (order_id, _, ai_log_result)) =>
             upload_response w "FenyrAgent" = Ok ai_log_result /\
             (exists order_result,
                place_order_response w = Ok order_result /\
                py_get order_result "order_id" PNone = Ok order_id)
         | Raise e => upload_response w "FenyrAgent" = Raise e
         end))).
Proof.
  intros steps. subst steps. unfold FenyrAgent.execute_trade_steps.
  destruct (FenyrAgent.py_lt confidence 0.6) as [[|]|e] eqn:Hconf;
    [rewrite bind_lift_ok | rewrite bind_lift_ok
     | rewrite bind_lift_raise; left; split; [left; reflexivity | exact I]].
  { left. split; [left; reflexivity | reflexivity]. }
  destruct (py_float size) as [s|e] eqn:Hsize;
    [rewrite bind_lift_ok
    | rewrite bind_lift_raise; left; split; [left; reflexivity | exact I]].
  destruct (Qltb (FenyrAgent.max_position_size self) s) eqn:Hmax.
  { left. split; [left; reflexivity | reflexivity]. }
  destruct (ticker_response w) as [ticker|e];
    [rewrite bind_emit_ok
    | rewrite bind_emit_raise; left; split; [right; reflexivity | exact I]].
  destruct (py_get ticker "last" (PNum 0)) as [last_price|e];
    [rewrite bind_lift_ok
    | rewrite bind_lift_raise; left; split; [right; reflexivity | exact I]].
  destruct (py_float last_price) as [price|e];
    [rewrite bind_lift_ok
    | rewrite bind_lift_raise; left; split; [right; reflexivity | exact I]].
  destruct (FenyrAgent.side_of action) as [[side|]|e] eqn:Hside;
    [rewrite bind_lift_ok | rewrite bind_lift_ok
    | rewrite bind_lift_raise; left; split; [right; reflexivity | exact I]].
  2:{ left. split; [right; reflexivity | reflexivity]. }
  destruct (side_of_some _ _ Hside) as (name & -> & Hname & Hrange).
  right. exists name, side, s.
  do 5 (split; [first [reflexivity | assumption]|]).
  split; [assumption|].
  destruct (place_order_response w) as [order_result|e];
    [rewrite bind_emit_ok
    | rewrite bind_emit_raise; left; split; [reflexivity | eauto]].
  destruct (py_get order_result "order_id" PNone) as [order_id|e] eqn:Hid;
    [rewrite bind_lift_ok
    | rewrite bind_lift_raise; left; split; [reflexivity | eauto]].
  cbn [py_upper]. rewrite bind_lift_ok.
  destruct (if py_truthy order_id then _ else _) as [logged|e];
    [rewrite bind_lift_ok
    | rewrite bind_lift_raise; left; split; [reflexivity | eauto]].
  unfold WeexClient.upload_ai_log.
  destruct (py_slice_1000 reasoning) as [cut|e];
    [rewrite bind_lift_ok
    | rewrite bind_lift_raise; left; split; [reflexivity | eauto]].
  right.
  destruct (upload_response w "FenyrAgent") as [ai_log_result|e].
  - rewrite bind_emit_ok. eexists. split; [reflexivity|].
    cbn. split; [reflexivity|]. exists order_result. split; [reflexivity|].
    exact Hid.
  - rewrite bind_emit_raise. eexists. split; [reflexivity|]. reflexivity.
Qed.

(** X20: every order the single agent places has passed its three checks:
    the confidence is not below 0.6, float(size) is not above
    max_position_size and the action is a key of ACTION_TO_SIDE.  Then there
    is exactly one order: a market order for the symbol and the size as
    given, on the side of the table. *)
Theorem execute_trade_order_passed_checks :
  forall `{PyRuntime} (w : World) (now : string) (self : FenyrAgent.State)
         (symbol action size confidence reasoning : pyval),
    let t := (FenyrAgent._execute_trade w now self symbol action size
                confidence reasoning).1.1 in
    orders t <> [] ->
    exists name side s,
      action = PStr name /\ ACTION_TO_SIDE !! name = Some side /\
      FenyrAgent.py_lt confidence 0.6 = Ok false /\
      py_float size = Ok s /\
      (s <= FenyrAgent.max_position_size self)%Q /\
      orders t = [PlaceOrder symbol size side 1 (clock_ms w)].
Proof.
  intros rt w now self symbol action size confidence reasoning t Horders.
  assert (Ht : t = trace (FenyrAgent.execute_trade_steps w now self symbol
                            action size confidence reasoning)).
  { subst t. unfold FenyrAgent._execute_trade.
    destruct (FenyrAgent.execute_trade_steps _ _ _ _ _ _ _ _)
      as [t' [[early|[[order_id price] log]]|e]]; reflexivity. }
  destruct (execute_trade_steps_cases w now self symbol action size
              confidence reasoning)
    as [[Hnone _] | (name & side & s & Ha & Hside & _ & Hc & Hs & Hmax & Hrun)].
  - exfalso. apply Horders. rewrite Ht.
    destruct Hnone as [-> | ->]; reflexivity.
  - exists name, side, s. do 4 (split; [assumption|]).
    split.
    + unfold Qltb in Hmax. apply negb_false_iff in Hmax.
      apply Qle_bool_iff. exact Hmax.
    + rewrite Ht.
      destruct Hrun as [[-> _] | (body & -> & _)]; reflexivity.
Qed.

Lemma execute_trade_order_passed_checks_witness :
  let t := (FenyrAgent._execute_trade (H := RefRuntime.runtime)
              (world_execute (PStr "12345")) "2025-01-01T00:00:00"
              fresh_agent (PStr "cmt_btcusdt") (PStr "open_long")
              (PStr "0.0001") (PNum 0.8) (PStr "trend up")).1.1 in
  orders t <> [] /\
  exists name side s,
    PStr "open_long" = PStr name /\ ACTION_TO_SIDE !! name = Some side /\
    FenyrAgent.py_lt (PNum 0.8) 0.6 = Ok false /\
    py_float (H := RefRuntime.runtime) (PStr "0.0001") = Ok s /\
    (s <= FenyrAgent.max_position_size fresh_agent)%Q /\
    orders t = [PlaceOrder (PStr "cmt_btcusdt") (PStr "0.0001") side 1
                  (clock_ms (world_execute (PStr "12345")))].
Proof.
  split; [vm_compute; discriminate|].
  apply (execute_trade_order_passed_checks (H := RefRuntime.runtime)
           (world_execute (PStr "12345")) "2025-01-01T00:00:00"
           fresh_agent (PStr "cmt_btcusdt") (PStr "open_long")
           (PStr "0.0001") (PNum 0.8) (PStr "trend up")).
  vm_compute. discriminate.
Defined.

(** X21: the trade counter of the single agent moves by one exactly when
    the log upload was requested and returned: then the calls were the
    ticker read, one order and one upload, and a returned result says
    executed: True with the order id of the exchange's answer, whatever that
    id is.  In every other case the counter is unchanged: either no upload
    was requested, or the upload raised and so does the call; a returned
    result then says executed: False and comes with no order, so a call that
    placed an order and left the counter unchanged has raised. *)
Theorem execute_trade_counter :
  forall `{PyRuntime} (w : World) (now : string) (self : FenyrAgent.State)
         (symbol action size confidence reasoning : pyval),
    let run := FenyrAgent._execute_trade w now self symbol action size
                 confidence reasoning in
    ((run.1.2 = (FenyrAgent.trade_count self + 1)%Z /\
      exists side body order_result ai_log_result,
        run.1.1 = [GetTicker; PlaceOrder symbol size side 1 (clock_ms w);
                   UploadAiLog body] /\
        place_order_response w = Ok order_result /\
        upload_response w "FenyrAgent" = Ok ai_log_result /\
        forall d, run.2 = Ok d ->
          py_get d "executed" PNone = Ok (PBool true) /\
          py_get d "order_id" PNone = py_get order_result "order_id" PNone)
     \/
     (run.1.2 = FenyrAgent.trade_count self /\
      (forall d, run.2 = Ok d ->
         py_get d "executed" PNone = Ok (PBool false) /\ orders run.1.1 = []) /\
      (orders run.1.1 <> [] -> exists e, run.2 = Raise e) /\
      (uploads run.1.1 = [] \/
       exists e, upload_response w "FenyrAgent" = Raise e /\
                 run.2 = Raise e))) /\
    (run.1.2 = (FenyrAgent.trade_count self + 1)%Z <->
     uploads run.1.1 <> [] /\
     is_ok (upload_response w "FenyrAgent") = true).
Proof.
  intros rt w now self symbol action size confidence reasoning run.
  assert (Hmain :
    (run.1.2 = (FenyrAgent.trade_count self + 1)%Z /\
      exists side body order_result ai_log_result,
        run.1.1 = [GetTicker; PlaceOrder symbol size side 1 (clock_ms w);
                   UploadAiLog body] /\
        place_order_response w = Ok order_result /\
        upload_response w "FenyrAgent" = Ok ai_log_result /\
        forall d, run.2 = Ok d ->
          py_get d "executed" PNone = Ok (PBool true) /\
          py_get d "order_id" PNone = py_get order_result "order_id" PNone)
     \/
     (run.1.2 = FenyrAgent.trade_count self /\
      (forall d, run.2 = Ok d ->
         py_get d "executed" PNone = Ok (PBool false) /\ orders run.1.1 = []) /\
      (orders run.1.1 <> [] -> exists e, run.2 = Raise e) /\
      (uploads run.1.1 = [] \/
       exists e, upload_response w "FenyrAgent" = Raise e /\
                 run.2 = Raise e))).
  { subst run. unfold FenyrAgent._execute_trade.
    pose proof (execute_trade_steps_cases w now self symbol action size
                  confidence reasoning) as Hcases.
    cbv zeta in Hcases.
    destruct (FenyrAgent.execute_trade_steps _ _ _ _ _ _ _ _)
      as [t [[early|[[order_id price] log]]|e]];
      unfold trace, outcome in Hcases; cbn [fst snd] in *.
    - right. split; [reflexivity|].
      destruct Hcases
        as [[Ht Hex] | (name & side & s & _ & _ & _ & _ & _ & _ & Hrun)].
      + assert (Hno : orders t = [] /\ uploads t = [])
          by (destruct Ht as [-> | ->]; split; reflexivity).
        destruct Hno as [Hord Hup].
        split; [intros d [= <-]; split; assumption|].
        split; [intros Hplaced; contradiction | left; exact Hup].
      + destruct Hrun as [[_ [e He]] | (body & _ & [])]. discriminate He.
    - left. split; [reflexivity|].
      destruct Hcases
        as [[_ []] | (name & side & s & _ & _ & _ & _ & _ & _ & Hrun)].
      destruct Hrun
        as [[_ [e He]] | (body & -> & Hup & order_result & Hresp & Hid)];
        [discriminate He|].
      exists side, body, order_result, log. split; [reflexivity|].
      split; [exact Hresp|]. split; [exact Hup|].
      intros d Hd. destruct (py_get log "code" PNone) as [code|e'];
        [|discriminate Hd]. injection Hd as <-.
      split; [reflexivity|]. rewrite Hid. reflexivity.
    - right. split; [reflexivity|].
      split; [intros d Hd; discriminate Hd|].
      split; [intros _; exists e; reflexivity|].
      destruct Hcases
        as [[Ht _] | (name & side & s & _ & _ & _ & _ & _ & _ & Hrun)].
      + left. destruct Ht as [-> | ->]; reflexivity.
      + destruct Hrun as [[-> _] | (body & _ & Hup)].
        * left. reflexivity.
        * right. exists e. split; [exact Hup | reflexivity]. }
  split; [exact Hmain|].
  destruct Hmain
    as [(Hn & side & body & order_result & log & Ht & _ & Hup & _)
       | (Hn & _ & _ & Hup)].
  - split; [intros _ | intros _; exact Hn].
    rewrite Ht, Hup. split; [discriminate | reflexivity].
  - split; [intros Hn'; rewrite Hn in Hn'; lia|].
    intros [Hsome Hok]. exfalso.
    destruct Hup as [Hnone | (e & He & _)]; [contradiction|].
    rewrite He in Hok. discriminate Hok.
Qed.


(** ** The cycle counters of run_hft_mode *)

(* The record of a returning run: four decisions and one order when the
   action is Execute, three decisions otherwise. *)
Lemma run_record `{PyRuntime} max w symbol td :
  outcome (run_team_analysis max w symbol) = Ok td ->
  (action td = EXECUTE /\ length (agent_decisions td) = 4%nat /\
   length (orders (trace (run_team_analysis max w symbol))) = 1%nat) \/
  (action td <> EXECUTE /\ length (agent_decisions td) = 3%nat).
Proof.
  intros Hok. destruct (decide (action td = EXECUTE)) as [Hexec|Hne].
  - left. split; [exact Hexec|].
    destruct (executed_run_core max w symbol td Hok Hexec)
      as (ex & order_id & logged & side_key & ticker & last_price & price
          & items & (ma & sa & rm & Hrec) & _ & _ & _ & _ & _ & _ & _ & _
          & Horders & Hrun).
    rewrite Hrec, Horders, Hrun. split; reflexivity.
  - right. split; [exact Hne|].
    unfold run_team_analysis in Hok.
    apply bind_ok_inv in Hok as ([decisions rm] & Hstages & Hdecide & _).
    destruct (run_stages_ok_inv _ _ _ _ _ Hstages) as (ma & sa & -> & _).
    destruct (decide_ok_inv _ _ _ _ _ _ Hdecide)
      as (c_action & c_direction & _ & _ & Hav & _ & Hclosed & _).
    rewrite (Hclosed (gate_closed_by_action _ c_direction _ Hav Hne)).
    reflexivity.
Qed.

Lemma hft_fold `{PyRuntime} max symbol (cycles : list World) :
  forall (t0 : list call) (n0 l0 : Z),
    let run := fold_left (hft_cycle max symbol) cycles (t0, n0, l0) in
    (run.2 - l0 = 3 * returned_cycles max symbol cycles + (run.1.2 - n0))%Z /\
    (0 <= run.1.2 - n0 <= returned_cycles max symbol cycles)%Z /\
    (run.1.2 - n0
     <= Z.of_nat (length (orders run.1.1)) - Z.of_nat (length (orders t0)))%Z.
Proof.
  induction cycles as [|w rest IH]; intros t0 n0 l0 run; subst run;
    cbn [fold_left].
  - cbn [fst snd returned_cycles]. lia.
  - cbn [returned_cycles].
    remember (hft_cycle max symbol (t0, n0, l0) w) as acc eqn:Hacc.
    unfold hft_cycle in Hacc.
    pose proof (run_record max w symbol) as Hrec.
    destruct (run_team_analysis max w symbol) as [t' [td|e]];
      unfold outcome, trace in *; cbn [fst snd] in *; subst acc.
    + destruct (Hrec td eq_refl) as [(Hexec & Hlen & Hord) | (Hne & Hlen)].
      * rewrite bool_decide_eq_true_2 by exact Hexec.
        specialize (IH (t0 ++ t')%list (n0 + 1)%Z
                       (l0 + Z.of_nat (length (agent_decisions td)))%Z).
        cbv zeta in IH. rewrite orders_app, length_app, Hord in IH.
        rewrite Hlen in *. cbn [is_ok]. lia.
      * rewrite bool_decide_eq_false_2 by exact Hne.
        specialize (IH (t0 ++ t')%list n0
                       (l0 + Z.of_nat (length (agent_decisions td)))%Z).
        cbv zeta in IH. rewrite orders_app, length_app in IH.
        rewrite Hlen in *. cbn [is_ok]. lia.
    + specialize (IH (t0 ++ t')%list n0 l0).
      cbv zeta in IH. rewrite orders_app, length_app in IH.
      cbn [is_ok]. lia.
Qed.

(** X22: the counters run_hft_mode prints.  A cycle that raises changes
    neither; each returning cycle adds three to total_ai_logs and one more
    when it executed, so total_ai_logs is three times the returning cycles
    plus trades_executed; trades_executed is at most the number of returning
    cycles and at most the number of orders placed. *)
Theorem hft_counters :
  forall `{PyRuntime} (max_position_size : Q) (symbol : string)
         (cycles : list World),
    let run := run_hft_mode max_position_size symbol cycles in
    let returned := returned_cycles max_position_size symbol cycles in
    (run.2 = 3 * returned + run.1.2)%Z /\
    (0 <= run.1.2 <= returned)%Z /\
    (returned <= Z.of_nat (length cycles))%Z /\
    (run.1.2 <= Z.of_nat (length (orders run.1.1)))%Z.
Proof.
  intros rt max symbol cycles run returned. subst run returned.
  unfold run_hft_mode.
  pose proof (hft_fold max symbol cycles [] 0%Z 0%Z) as Hfold.
  cbv zeta in Hfold. cbn [orders length] in Hfold.
  assert (Hret : (returned_cycles max symbol cycles
                  <= Z.of_nat (length cycles))%Z).
  { clear Hfold. induction cycles as [|w rest IH]; [reflexivity|].
    cbn [returned_cycles length].
    destruct (is_ok _); lia. }
  change (orders []) with (@nil call) in Hfold. cbn [length] in Hfold.
  lia.
Qed.

(** ** Log uploads in a trace *)

Lemma uploads_app (t1 t2 : list call) :
  uploads (t1 ++ t2)%list = (uploads t1 ++ uploads t2)%list.
Proof. unfold uploads. apply filter_app. Qed.

Lemma uploads_firstn (n : nat) (t : list call) :
  uploads t = [] -> uploads (firstn n t) = [].
Proof.
  revert n. induction t as [|c t IH]; intros [|n] Ht; try reflexivity.
  cbn [firstn]. unfold uploads in *. rewrite filter_cons in *.
  destruct (decide (is_upload c)); [discriminate Ht|]. apply IH, Ht.
Qed.

Lemma uploads_bind {A B} (m : M A) (f : A -> M B) :
  uploads (trace m) = [] ->
  (forall a, outcome m = Ok a -> uploads (trace (f a)) = []) ->
  uploads (trace (m ≫= f)) = [].
Proof.
  intros Hm Hf. destruct (outcome m) as [a|e] eqn:Ho.
  - destruct (trace_bind_ok m f a Ho) as [-> _].
    rewrite uploads_app, Hm, (Hf a eq_refl). reflexivity.
  - destruct (trace_bind_raise m f e Ho) as [-> _]. exact Hm.
Qed.

Lemma uploads_run_gather w agent calls context :
  uploads calls = [] -> uploads (trace (run_gather w agent calls context)) = [].
Proof.
  intros Hc. unfold run_gather. destruct (gather w agent context); simpl.
  - exact Hc.
  - apply uploads_firstn, Hc.
Qed.

Lemma uploads_market `{PyRuntime} w context :
  uploads (trace (MarketAnalystAgent.analyze w context)) = [].
Proof.
  unfold MarketAnalystAgent.analyze. apply uploads_bind.
  - apply uploads_run_gather. reflexivity.
  - intros [[ctx aux] response] _. reflexivity.
Qed.

Lemma uploads_sentiment `{PyRuntime} w context :
  uploads (trace (SentimentAgent.analyze w context)) = [].
Proof.
  unfold SentimentAgent.analyze. apply uploads_bind.
  - apply uploads_run_gather. reflexivity.
  - intros [[ctx aux] response] _. reflexivity.
Qed.

Lemma uploads_risk `{PyRuntime} max w context :
  uploads (trace (RiskManagerAgent.analyze max w context)) = [].
Proof.
  unfold RiskManagerAgent.analyze. apply uploads_bind.
  - apply uploads_run_gather. reflexivity.
  - intros [[ctx aux] response] _. reflexivity.
Qed.

Lemma uploads_executor `{PyRuntime} w context :
  uploads (trace (ExecutorAgent.analyze w context)) = [].
Proof.
  unfold ExecutorAgent.analyze.
  apply uploads_bind; [reflexivity | intros lowered _].
  destruct (bool_decide _); [|reflexivity].
  apply uploads_bind; [| intros result _].
  - unfold ExecutorAgent.execute_trade.
    apply uploads_bind; [reflexivity | intros ? _].
    apply uploads_bind; [reflexivity | intros ? _].
    apply uploads_bind; [reflexivity | intros ? _].
    apply uploads_bind; [reflexivity | intros ? _].
    apply uploads_bind; [reflexivity | intros ? _].
    apply uploads_bind; [reflexivity | intros ? _].
    reflexivity.
  - apply uploads_bind; [reflexivity | intros ? _]. reflexivity.
Qed.

(* An upload that returns has posted exactly one log. *)
Lemma upload_ok_one w uploader decision order_id v :
  outcome (upload_ai_log w uploader decision order_id) = Ok v ->
  length (uploads (trace (upload_ai_log w uploader decision order_id))) = 1%nat.
Proof.
  intros Hok. unfold upload_ai_log in *.
  stept Hok as ai_log E1 T1.
  stept Hok as stage_v E2 T2.
  stept Hok as model_v E3 T3.
  stept Hok as input_v E4 T4.
  stept Hok as output_v E5 T5.
  stept Hok as explanation_v E6 T6.
  stept Hok as explanation E7 T7.
  rewrite T1, T2, T3, T4, T5, T6, T7. reflexivity.
Qed.

Lemma run_stages_uploads `{PyRuntime} max w symbol x :
  outcome (run_stages max w symbol) = Ok x ->
  length (uploads (trace (run_stages max w symbol))) = 3%nat.
Proof.
  intros Hok. unfold run_stages in *.
  stept Hok as ma Ema T1.
  stept Hok as ma_log Ema_log T2.
  stept Hok as ma_code Ema_code T3.
  stept Hok as sa Esa T4.
  stept Hok as sa_log Esa_log T5.
  stept Hok as sa_code Esa_code T6.
  stept Hok as rm' Erm T7.
  stept Hok as rm_log Erm_log T8.
  stept Hok as rm_code Erm_code T9.
  rewrite T1, T2, T3, T4, T5, T6, T7, T8, T9.
  rewrite !uploads_app, !length_app.
  rewrite uploads_market, uploads_sentiment, uploads_risk.
  rewrite (upload_ok_one _ _ _ _ _ Ema_log), (upload_ok_one _ _ _ _ _ Esa_log),
    (upload_ok_one _ _ _ _ _ Erm_log).
  reflexivity.
Qed.

Lemma decide_uploads `{PyRuntime} max w symbol decisions rm td :
  outcome (decide_and_execute max w symbol decisions rm) = Ok td ->
  (length (uploads (trace (decide_and_execute max w symbol decisions rm)))
   + length decisions = 1 + length (agent_decisions td))%nat.
Proof.
  intros Hok. unfold decide_and_execute in *.
  stept Hok as output Eoutput T1.
  stept Hok as raw Eraw T2.
  stept Hok as c_action Eaction T3.
  stept Hok as c_action_v Eaction_v T4.
  stept Hok as c_conf Econf T5.
  stept Hok as c_conf_q Econf_q T6.
  stept Hok as c_direction Edirection T7.
  stept Hok as c_votes Evotes T8.
  stept Hok as coord_log Elog T9.
  stept Hok as code Ecode T10.
  stept Hok as execution Eexec T11.
  rewrite outcome_mret in Hok. injection Hok as <-.
  rewrite T1, T2, T3, T4, T5, T6, T7, T8, T9, T10, T11.
  clear T1 T2 T3 T4 T5 T6 T7 T8 T9 T10 T11.
  cbn [agent_decisions].
  rewrite !uploads_app, !length_app, length_map.
  rewrite (upload_ok_one _ _ _ _ _ Elog).
  destruct (cval_is_action c_action EXECUTE && _).
  - stept Eexec as d Ed Td.
    stept Eexec as exec_output Eexec_output T1.
    stept Eexec as order_id Eorder_id T2.
    stept Eexec as logged Elogged T3.
    stept Eexec as exec_log Eexec_log T4.
    stept Eexec as exec_code Eexec_code T5.
    rewrite outcome_mret in Eexec. injection Eexec as <-.
    rewrite Td, T1, T2, T3, T4, T5.
    rewrite !uploads_app, !length_app, uploads_executor.
    rewrite (upload_ok_one _ _ _ _ _ Eexec_log).
    cbn. lia.
  - rewrite outcome_mret in Eexec. injection Eexec as <-. cbn. lia.
Qed.

(* A returning run has uploaded one log more than it records decisions. *)
Lemma run_uploads `{PyRuntime} max w symbol td :
  outcome (run_team_analysis max w symbol) = Ok td ->
  length (uploads (trace (run_team_analysis max w symbol)))
  = S (length (agent_decisions td)).
Proof.
  intros Hok. unfold run_team_analysis in *.
  apply bind_ok_inv in Hok as ([decisions rm] & Hstages & Hdecide & ->).
  rewrite uploads_app, length_app.
  rewrite (run_stages_uploads _ _ _ _ Hstages).
  pose proof (decide_uploads _ _ _ _ _ _ Hdecide) as Hd.
  destruct (run_stages_ok_inv _ _ _ _ _ Hstages) as (ma & sa & -> & _).
  cbn [length] in Hd. lia.
Qed.

Lemma hft_fold_uploads `{PyRuntime} max symbol (cycles : list World) :
  forall (t0 : list call) (n0 l0 : Z),
    let run := fold_left (hft_cycle max symbol) cycles (t0, n0, l0) in
    ((run.2 - l0) + returned_cycles max symbol cycles
     <= Z.of_nat (length (uploads run.1.1))
        - Z.of_nat (length (uploads t0)))%Z.
Proof.
  induction cycles as [|w rest IH]; intros t0 n0 l0 run; subst run;
    cbn [fold_left].
  - cbn [fst snd returned_cycles]. lia.
  - cbn [returned_cycles].
    remember (hft_cycle max symbol (t0, n0, l0) w) as acc eqn:Hacc.
    unfold hft_cycle in Hacc.
    pose proof (run_uploads max w symbol) as Hup.
    destruct (run_team_analysis max w symbol) as [t' [td|e]];
      unfold outcome, trace in *; cbn [fst snd] in *; subst acc.
    + specialize (Hup td eq_refl).
      match goal with
      | |- context [fold_left _ rest (?t, ?n, ?l)] => specialize (IH t n l)
      end.
      cbv zeta in IH. rewrite uploads_app, length_app, Hup in IH.
      cbn [is_ok]. lia.
    + specialize (IH (t0 ++ t')%list n0 l0).
      cbv zeta in IH. rewrite uploads_app, length_app in IH.
      cbn [is_ok]. lia.
Qed.

(** X23: total_ai_logs, which run_hft_mode prints as the number of AI logs
    uploaded, counts the decisions of the returning cycles only: the uploads
    made are at least that number plus one for every returning cycle, the
    coordinator's own log. *)
Theorem hft_log_count_omits_coordinator :
  forall `{PyRuntime} (max_position_size : Q) (symbol : string)
         (cycles : list World),
    let run := run_hft_mode max_position_size symbol cycles in
    (run.2 + returned_cycles max_position_size symbol cycles
     <= Z.of_nat (length (uploads run.1.1)))%Z.
Proof.
  intros rt max symbol cycles run. subst run. unfold run_hft_mode.
  pose proof (hft_fold_uploads max symbol cycles [] 0%Z 0%Z) as Hfold.
  cbv zeta in Hfold. change (uploads []) with (@nil call) in Hfold.
  cbn [length] in Hfold. lia.
Qed.
